(** * st_tools: the work-package split/join collaboration tools

    A shallow embedding of the four command-line tools of the repository

      - [WorkSplitter]     (AI-Image-Viewer/collab/js/split-work.js)
      - [DocumentSplitter] (ai_docu/collab/js/split-work.js)
      - [WorkJoiner]       (AI-Image-Viewer/collab/js/join-work.js)
      - [DocumentJoiner]   (ai_docu/collab/js/join-work.js)

    over a small model of the JavaScript values and of the file system
    they work on, followed by the properties of the specification that
    were checked against them. *)

From Stdlib Require Import List String Ascii ZArith Lia Bool Arith.
From Stdlib Require Import Sorted Permutation DecimalString Decimal DecimalNat.
Import ListNotations.
Local Open Scope string_scope.
Local Open Scope list_scope.
Local Open Scope nat_scope.

Set Implicit Arguments.
Set Warnings "-register-all".

(* ================================================================== *)
(** * Part I: the model                                                 *)
(* ================================================================== *)

(** ** JavaScript values and library functions *)

Module JS.

(** The outcome of a call that may [throw new Error(message)]. *)
Inductive result (A : Type) : Type :=
| Ok (a : A)
| Throw (message : string).
Arguments Ok {A} a.
Arguments Throw {A} message.

Definition bind {A B} (r : result A) (k : A -> result B) : result B :=
  match r with
  | Ok a => k a
  | Throw m => Throw m
  end.

(** [String.prototype.toLowerCase] / [toUpperCase] on ASCII text. *)
Definition lower (c : ascii) : ascii :=
  let n := nat_of_ascii c in
  if (65 <=? n) && (n <=? 90) then ascii_of_nat (n + 32) else c.

Definition upper (c : ascii) : ascii :=
  let n := nat_of_ascii c in
  if (97 <=? n) && (n <=? 122) then ascii_of_nat (n - 32) else c.

Fixpoint toLowerCase (s : string) : string :=
  match s with
  | EmptyString => EmptyString
  | String c s' => String (lower c) (toLowerCase s')
  end.

Fixpoint toUpperCase (s : string) : string :=
  match s with
  | EmptyString => EmptyString
  | String c s' => String (upper c) (toUpperCase s')
  end.

(** [s.startsWith(p)], [s.endsWith(p)], [s.includes(p)]. *)
Definition startsWith (s p : string) : bool := String.prefix p s.

Definition endsWith (s p : string) : bool :=
  let n := String.length s in
  let m := String.length p in
  (m <=? n) && (String.substring (n - m) m s =? p)%string.

Fixpoint includes (s p : string) : bool :=
  String.prefix p s ||
  match s with
  | EmptyString => false
  | String _ s' => includes s' p
  end.

(** [n.toString()] of a non-negative integer, and
    [s.padStart(width, '0')]. *)
Definition toString (n : nat) : string :=
  NilEmpty.string_of_uint (Nat.to_uint n).

(** [String(z)] of an integer. *)
Definition numToString (z : Z) : string :=
  if (z <? 0)%Z then String.append "-" (toString (Z.to_nat (- z)))
  else toString (Z.to_nat z).

Fixpoint zeros (n : nat) : string :=
  match n with
  | O => EmptyString
  | S n' => String "0"%char (zeros n')
  end.

Definition padStart (width : nat) (s : string) : string :=
  String.append (zeros (width - String.length s)) s.

(** [Math.ceil(a / b)].  For the arguments the tools pass ([a] a list
    length, [b] between 1 and 100) the floating-point quotient rounds
    up to exactly this integer.  With [b = 0] JavaScript yields
    [Infinity]; the only caller never uses the value in that case
    (its loop runs [b] times). *)
Definition ceil_div (a b : Z) : Z := (- ((- a) / b))%Z.

(** [arr.slice(start, end)] for [0 <= start] and [0 <= end]. *)
Definition slice {A} (startIdx endIdx : Z) (arr : list A) : list A :=
  firstn (Z.to_nat (endIdx - startIdx)) (skipn (Z.to_nat startIdx) arr).

(** The values of [i] in [for (let i = 0; i < n; i++)]. *)
Definition range (n : Z) : list Z := map Z.of_nat (seq 0 (Z.to_nat n)).

(** [Array.prototype.sort()] without comparator on an array of
    strings: ascending by code unit.  The sort is stable and the
    order is total, so the result is the sorted permutation; it is
    computed here by insertion.  [key] maps an element to the string
    JavaScript compares. *)
Section Sort.
Variable A : Type.
Variable key : A -> string.

Fixpoint insert (x : A) (l : list A) : list A :=
  match l with
  | [] => [x]
  | y :: l' =>
      if (key x <=? key y)%string then x :: l else y :: insert x l'
  end.

Fixpoint sort (l : list A) : list A :=
  match l with
  | [] => []
  | x :: l' => insert x (sort l')
  end.
End Sort.

(** [new Set(xs)] spread back into an array: the distinct elements in
    the order of their first occurrence. *)
Section SetOf.
Variable A : Type.
Variable eqb : A -> A -> bool.

Definition has (s : list A) (x : A) : bool := existsb (eqb x) s.

Definition add (s : list A) (x : A) : list A :=
  if has s x then s else s ++ [x].

Definition set_of (xs : list A) : list A := fold_left add xs [].
End SetOf.

(** A parsed JSON value.  Numbers are the integers. *)
Inductive value : Type :=
| VNull
| VBool (b : bool)
| VNum (n : Z)
| VStr (s : string)
| VArr (items : list value)
| VObj (fields : list (string * value)).

(** An object as the ordered list of its own properties. *)
Definition object := list (string * value).

Section Assoc.
Variable A : Type.

(** [obj[k]] on own properties; [None] is [undefined]. *)
Fixpoint get (k : string) (o : list (string * A)) : option A :=
  match o with
  | [] => None
  | (k', v) :: o' => if (k =? k')%string then Some v else get k o'
  end.

(** [obj[k] = v]: an existing property keeps its place. *)
Fixpoint set (k : string) (v : A) (o : list (string * A))
  : list (string * A) :=
  match o with
  | [] => [(k, v)]
  | (k', v') :: o' =>
      if (k =? k')%string then (k, v) :: o'
      else (k', v') :: set k v o'
  end.

(** [delete obj[k]]. *)
Fixpoint del (k : string) (o : list (string * A)) : list (string * A) :=
  match o with
  | [] => []
  | (k', v') :: o' =>
      if (k =? k')%string then del k o' else (k', v') :: del k o'
  end.

Definition keys (o : list (string * A)) : list string := map fst o.
End Assoc.

(** Truthiness: what [if (v)] tests.  [None] is [undefined]. *)
Definition truthy (v : option value) : bool :=
  match v with
  | None => false
  | Some VNull => false
  | Some (VBool b) => b
  | Some (VNum n) => negb (n =? 0)%Z
  | Some (VStr s) => negb (s =? "")%string
  | Some (VArr _) => true
  | Some (VObj _) => true
  end.

(** [v.k] for a property name [k] that is no built-in member of
    strings, arrays, numbers or booleans (the tools read [captions],
    [aiData], [totalImages], [modelUsed], [metadata], [export_info],
    [ai_model]).  Reading a property of [null] throws a TypeError. *)
Definition prop (v : value) (k : string) : result (option value) :=
  match v with
  | VNull => Throw "Cannot read properties of null"
  | VObj fields => Ok (get k fields)
  | _ => Ok None
  end.

Fixpoint chars (s : string) : list value :=
  match s with
  | EmptyString => []
  | String c s' => VStr (String c EmptyString) :: chars s'
  end.

Definition indexed (items : list value) : object :=
  combine (map toString (seq 0 (List.length items))) items.

(** [Object.entries(v)] of a value that is not [null]. *)
Definition entries (v : value) : object :=
  match v with
  | VObj fields => fields
  | VArr items => indexed items
  | VStr s => indexed (chars s)
  | _ => []
  end.

(** SameValueZero on parsed JSON: primitives compare by value; two
    objects or arrays met while walking parsed documents are distinct
    references. *)
Definition sameValueZero (a b : value) : bool :=
  match a, b with
  | VNull, VNull => true
  | VBool x, VBool y => Bool.eqb x y
  | VNum x, VNum y => (x =? y)%Z
  | VStr x, VStr y => (x =? y)%string
  | _, _ => false
  end.

(** [s.repeat(n)] of a one-character string. *)
Fixpoint repeat (c : ascii) (n : nat) : string :=
  match n with
  | O => EmptyString
  | S n' => String c (repeat c n')
  end.

Definition newline : string := String (ascii_of_nat 10) EmptyString.
Definition quote : string := String (ascii_of_nat 34) EmptyString.

(** [String(v)], as a template literal interpolates a value. *)
Fixpoint show (v : value) : string :=
  match v with
  | VNull => "null"
  | VBool b => if b then "true" else "false"
  | VNum n => numToString n
  | VStr s => s
  | VArr items =>
      String.concat ","
        ((fix each (vs : list value) : list string :=
            match vs with
            | [] => []
            | VNull :: vs' => "" :: each vs'
            | x :: vs' => show x :: each vs'
            end) items)
  | VObj _ => "[object Object]"
  end.

(** [items.join(sep)] *)
Definition join (sep : string) (items : list value) : string :=
  String.concat sep
    (map (fun v => match v with VNull => "" | _ => show v end) items).

(** [a + b]: concatenation as soon as one side is (or converts to)
    a string, addition of numbers otherwise. *)
Definition toNumber (v : value) : Z :=
  match v with
  | VNum n => n
  | VBool true => 1%Z
  | _ => 0%Z
  end.

Definition plus (a b : value) : value :=
  match a, b with
  | (VStr _ | VArr _ | VObj _), _ => VStr (String.append (show a) (show b))
  | _, (VStr _ | VArr _ | VObj _) => VStr (String.append (show a) (show b))
  | _, _ => VNum (toNumber a + toNumber b)%Z
  end.

End JS.

(** ** The file system

    A tree of named entries.  A regular file is kept with what the
    external decoder used on it returns: [JSON.parse] for a JSON file,
    the archive codec ([tar], [adm-zip]) for a compressed package; any
    other file is its bytes.  Directory entries are in listing order. *)

Module FS.

Inductive node : Type :=
| File (data : string)
| JsonFile (parsed : option JS.value)
| Archive (unpacked : option (list (string * node)))
| Dir (entries : list (string * node)).

(** An absolute path, as its components. *)
Definition path := list string.

(** [path.join(dir, name)], [path.basename(p)], [path.dirname(p)] for
    a single name without separators. *)
Definition join (dir : path) (name : string) : path := dir ++ [name].
Definition basename (p : path) : string := last p "".
Definition dirname (p : path) : path := removelast p.

(** The path as the string the tools hold (and sort by). *)
Definition to_string (p : path) : string :=
  String.append "/" (String.concat "/" p).

Fixpoint last_dot (s : string) : option string :=
  match s with
  | EmptyString => None
  | String c s' =>
      match last_dot s' with
      | Some e => Some e
      | None => if Ascii.eqb c "."%char then Some s else None
      end
  end.

(** [path.extname(name)]: from the last dot of the name on; empty
    when there is none, when the only dot starts the name, and for
    [".."]. *)
Definition extname (name : string) : string :=
  match name with
  | EmptyString => ""
  | String _ rest =>
      if (name =? "..")%string then ""
      else match last_dot rest with
           | Some e => e
           | None => ""
           end
  end.

Definition isDirectory (n : node) : bool :=
  match n with
  | Dir _ => true
  | _ => false
  end.

Definition isFile (n : node) : bool := negb (isDirectory n).

(** [fs.stat(p)]: the node at [p] below the root [n], if any. *)
Fixpoint lookup (p : path) (n : node) : option node :=
  match p with
  | [] => Some n
  | c :: p' =>
      match n with
      | Dir es =>
          match JS.get c es with
          | Some m => lookup p' m
          | None => None
          end
      | _ => None
      end
  end.

Definition pathExists (p : path) (n : node) : bool :=
  match lookup p n with
  | Some _ => true
  | None => false
  end.

(** Store [new] at [p]: the parent of [p] must be an existing
    directory; an entry already at [p] is replaced in place, a new
    one is listed last. *)
Fixpoint put (p : path) (new : node) (n : node) : option node :=
  match p with
  | [] => Some new
  | c :: p' =>
      match n with
      | Dir es =>
          match JS.get c es with
          | Some m =>
              match put p' new m with
              | Some m' => Some (Dir (JS.set c m' es))
              | None => None
              end
          | None =>
              match p' with
              | [] => Some (Dir (es ++ [(c, new)]))
              | _ => None
              end
          end
      | _ => None
      end
  end.

(** [fs.ensureDir(p)] / [fs.mkdir(p, {recursive: true})]: create the
    missing directories along [p]; fails when a regular file is in
    the way. *)
Fixpoint mkdirp (p : path) (n : node) : option node :=
  match p with
  | [] => if isDirectory n then Some n else None
  | c :: p' =>
      match n with
      | Dir es =>
          match JS.get c es with
          | Some m =>
              match mkdirp p' m with
              | Some m' => Some (Dir (JS.set c m' es))
              | None => None
              end
          | None =>
              match mkdirp p' (Dir []) with
              | Some m' => Some (Dir (es ++ [(c, m')]))
              | None => None
              end
          end
      | _ => None
      end
  end.

(** [fs.remove(p)]: delete the entry at [p] with all below it; no
    error when there is none. *)
Fixpoint remove (p : path) (n : node) : node :=
  match p with
  | [] => n
  | c :: p' =>
      match n with
      | Dir es =>
          match p' with
          | [] => Dir (JS.del c es)
          | _ =>
              match JS.get c es with
              | Some m => Dir (JS.set c (remove p' m) es)
              | None => n
              end
          end
      | _ => n
      end
  end.

(** Copy [src] over [dst]: a file replaces a file, a directory is
    merged into a directory entry by entry, anything else is an
    error. *)
Fixpoint merge (src dst : node) {struct src} : option node :=
  match src, dst with
  | Dir ses, Dir des =>
      option_map Dir
        ((fix go (ses : list (string * node)) (acc : list (string * node))
            : option (list (string * node)) :=
            match ses with
            | [] => Some acc
            | (name, s) :: ses' =>
                match JS.get name acc with
                | Some d =>
                    match merge s d with
                    | Some m => go ses' (JS.set name m acc)
                    | None => None
                    end
                | None => go ses' (acc ++ [(name, s)])
                end
            end) ses des)
  | Dir _, _ => None
  | _, Dir _ => None
  | _, _ => Some src
  end.

(** A glob pattern in one directory: [*suffix] or [prefix*]. *)
Inductive pattern : Type :=
| StarSuffix (suffix : string)
| PrefixStar (prefix : string).

(** Whether a name matches.  A leading [*] does not match a name that
    starts with a dot.  [nocase] is the platform default of the glob
    library: case-insensitive on macOS and Windows. *)
Definition matches (nocase : bool) (pat : pattern) (name : string) : bool :=
  let fold := fun s => if nocase then JS.toLowerCase s else s in
  match pat with
  | StarSuffix suffix =>
      negb (JS.startsWith name ".") && JS.endsWith (fold name) (fold suffix)
  | PrefixStar prefix => JS.startsWith (fold name) (fold prefix)
  end.

(** [glob(path.join(dir, pattern))]: the matching entries of [dir],
    files and directories alike, in listing order. *)
Definition glob (nocase : bool) (dir : path) (pat : pattern) (n : node)
  : list path :=
  match lookup dir n with
  | Some (Dir es) =>
      map (join dir) (filter (matches nocase pat) (JS.keys es))
  | _ => []
  end.

(** [fs.readdir(dir)]. *)
Definition readdir (dir : path) (n : node) : option (list string) :=
  match lookup dir n with
  | Some (Dir es) => Some (JS.keys es)
  | _ => None
  end.

(** [fs.copy(src, dst)] of fs-extra: the parent of [dst] is created
    when missing, an existing destination is overwritten (merged, for
    a directory). *)
Definition copy (src dst : path) (n : node) : option node :=
  match lookup src n with
  | None => None
  | Some s =>
      match mkdirp (dirname dst) n with
      | None => None
      | Some n1 =>
          match lookup dst n1 with
          | None => put dst s n1
          | Some d =>
              match merge s d with
              | Some m => put dst m n1
              | None => None
              end
          end
      end
  end.

(** [fs.copyFile(src, dst)] of Node: [src] must be a regular file and
    the parent of [dst] must exist; an existing file is replaced. *)
Definition copyFile (src dst : path) (n : node) : option node :=
  match lookup src n with
  | Some s =>
      if isDirectory s then None
      else match lookup dst n with
           | Some (Dir _) => None
           | _ => put dst s n
           end
  | None => None
  end.

(** [fs.writeFile(p, data)] and [writeJSON]: as [copyFile], with the
    content given. *)
Definition writeFile (p : path) (content : node) (n : node) : option node :=
  match lookup p n with
  | Some (Dir _) => None
  | _ => put p content n
  end.

(** The archive codec: [tar.x({file, cwd})] and
    [zip.extractAllTo(cwd, true)] unpack the entries of the archive
    into the directory [cwd], over what is there. *)
Definition extract (file cwd : path) (n : node) : option node :=
  match lookup file n, lookup cwd n with
  | Some (Archive (Some es)), Some d =>
      match merge (Dir es) d with
      | Some m => put cwd m n
      | None => None
      end
  | _, _ => None
  end.

(** [mkdtemp(path.join(dir, prefix))]: a new directory in [dir] whose
    name starts with [prefix] and is none of the names in use.  (The
    library appends six random characters; the model takes a name
    longer than every name there is.) *)
Definition unused (prefix : string) (names : list string) : string :=
  String.append prefix
    (JS.zeros (S (fold_right Nat.max 0 (map String.length names)))).

Definition mkdtemp (dir : path) (prefix : string) (n : node)
  : option (path * node) :=
  match lookup dir n with
  | Some (Dir es) =>
      let d := join dir (unused prefix (JS.keys es)) in
      match put d (Dir []) n with
      | Some n' => Some (d, n')
      | None => None
      end
  | _ => None
  end.

End FS.

(** ** Effects: the file system, the console and the tool object

    A method runs on a state made of the file system, the lines written
    to the console (decoration dropped) and the fields of [this]; it
    returns or throws, and what it did before throwing stays done. *)

Module Eff.

Record state (T : Type) : Type := mkState {
  fs : FS.node;
  console : list string;
  this : T
}.

Section Monad.
Variable T : Type.

Definition M (A : Type) : Type := state T -> JS.result A * state T.

Definition ret {A} (a : A) : M A := fun s => (JS.Ok a, s).

Definition throw {A} (message : string) : M A :=
  fun s => (JS.Throw message, s).

Definition bind {A B} (m : M A) (k : A -> M B) : M B :=
  fun s =>
    match m s with
    | (JS.Ok a, s') => k a s'
    | (JS.Throw e, s') => (JS.Throw e, s')
    end.

(** [try { m } catch (error) { handler(error.message) }] *)
Definition try_catch {A} (m : M A) (handler : string -> M A) : M A :=
  fun s =>
    match m s with
    | (JS.Ok a, s') => (JS.Ok a, s')
    | (JS.Throw e, s') => handler e s'
    end.

(** [try { m } finally { final }] *)
Definition try_finally {A} (m : M A) (final : M unit) : M A :=
  fun s =>
    match m s with
    | (r, s') =>
        match final s' with
        | (JS.Ok _, s'') => (r, s'')
        | (JS.Throw e, s'') => (JS.Throw e, s'')
        end
    end.

(** [console.log(line)] *)
Definition log (line : string) : M unit :=
  fun s => (JS.Ok tt, mkState (fs s) (console s ++ [line]) (this s)).

(** Reading the file system and the object. *)
Definition read {A} (f : FS.node -> A) : M A :=
  fun s => (JS.Ok (f (fs s)), s).

Definition self : M T := fun s => (JS.Ok (this s), s).

Definition assign (f : T -> T) : M unit :=
  fun s => (JS.Ok tt, mkState (fs s) (console s) (f (this s))).

(** A file-system operation that fails with [message]. *)
Definition io (message : string) (op : FS.node -> option FS.node)
  : M unit :=
  fun s =>
    match op (fs s) with
    | Some n => (JS.Ok tt, mkState n (console s) (this s))
    | None => (JS.Throw message, s)
    end.

(** An operation that cannot fail. *)
Definition io_ (op : FS.node -> FS.node) : M unit :=
  fun s => (JS.Ok tt, mkState (op (fs s)) (console s) (this s)).

(** [for (const x of xs) { body(x) }] *)
Fixpoint for_of {A} (xs : list A) (body : A -> M unit) : M unit :=
  match xs with
  | [] => ret tt
  | x :: xs' => bind (body x) (fun _ => for_of xs' body)
  end.

(** A loop that pushes what [body] returns onto an array. *)
Fixpoint collect {A B} (xs : list A) (body : A -> M B) : M (list B) :=
  match xs with
  | [] => ret []
  | x :: xs' =>
      bind (body x) (fun b =>
      bind (collect xs' body) (fun bs => ret (b :: bs)))
  end.

Definition when (b : bool) (m : M unit) : M unit :=
  if b then m else ret tt.

(** A loop that carries the local variables [b] from one element
    to the next. *)
Fixpoint fold_of {A B} (xs : list A) (b : B) (body : B -> A -> M B)
  : M B :=
  match xs with
  | [] => ret b
  | x :: xs' => bind (body b x) (fun b' => fold_of xs' b' body)
  end.

(** A file-system operation that returns a value. *)
Definition io_val {A} (message : string)
    (op : FS.node -> option (A * FS.node)) : M A :=
  fun s =>
    match op (fs s) with
    | Some (a, n) => (JS.Ok a, mkState n (console s) (this s))
    | None => (JS.Throw message, s)
    end.

(** A method that only reads the file system and writes lines to
    the console. *)
Definition emit {A} (f : FS.node -> A * list string) : M A :=
  fun s =>
    let '(a, lines) := f (fs s) in
    (JS.Ok a, mkState (fs s) (console s ++ lines) (this s)).

(** Lifting a call that returns or throws. *)
Definition lift {A} (f : FS.node -> JS.result A) : M A :=
  fun s => (f (fs s), s).
End Monad.

(** A computation on an object of its own, [init] at the start. *)
Definition scope {T U A} (init : U) (m : M U A) : M T A :=
  fun s =>
    match m (mkState (fs s) (console s) init) with
    | (r, s') => (r, mkState (fs s') (console s') (this s))
    end.

Arguments ret {T A} a.
Arguments throw {T A} message.
Arguments log {T} line.
Arguments read {T A} f.
Arguments self {T}.
Arguments io {T} message op.
Arguments io_ {T} op.
Arguments io_val {T A} message op.
Arguments emit {T A} f.
Arguments lift {T A} f.

End Eff.

Notation "x <- m ;; k" := (Eff.bind m (fun x => k))
  (at level 61, m at next level, right associativity).
Notation "m ;;; k" := (Eff.bind m (fun _ => k))
  (at level 61, right associativity).

(** ** What a run is given from outside *)

Record env : Type := mkEnv {
  nocase : bool;          (* glob matches without regard to case *)
  now : string;           (* new Date().toISOString() *)
  cwd : FS.path;          (* process.cwd() *)
  scriptDir : FS.path;    (* the directory of the running script *)
  tmpdir : FS.path;       (* os.tmpdir() *)
  (* (analyzed / total * 100).toFixed(1): floating point, uninterpreted *)
  toFixed1 : nat -> JS.value -> string
}.

Definition path_eqb (p q : FS.path) : bool :=
  if list_eq_dec string_dec p q then true else false.

(** ** The image splitter: AI-Image-Viewer/collab/js/split-work.js *)

Module WorkSplitter.
Import JS Eff.

Record t : Type := new {
  sourceFolder : FS.path;
  outputFolder : FS.path;
  numSplits : Z;
  projectRoot : FS.path
}.

Definition supportedExtensions : list string :=
  [".jpg"; ".jpeg"; ".png"; ".gif"; ".webp"; ".bmp"].

Definition htmlFiles : list string :=
  ["ai_image_viewer.html";
   "ai_image_viewer_efficientnet.html";
   "ai_image_viewer_mediapipe.html"].

(** [findProjectRoot]: from the script directory upwards, the first
    directory holding all the HTML files; the root itself is not
    tried. *)
Fixpoint walk_up (fuel : nat) (n : FS.node) (current : FS.path)
  : result FS.path :=
  match fuel with
  | O => Throw "Could not find project root with HTML files"
  | S fuel' =>
      match current with
      | [] => Throw "Could not find project root with HTML files"
      | _ =>
          if forallb (fun htmlFile =>
                        FS.pathExists (FS.join current htmlFile) n)
               htmlFiles
          then Ok current
          else walk_up fuel' n (FS.dirname current)
      end
  end.

Definition findProjectRoot (e : env) (n : FS.node) : result FS.path :=
  walk_up (S (List.length (scriptDir e))) n (scriptDir e).

Definition getImageFiles (e : env) (this : t) (n : FS.node)
  : list FS.path :=
  let patterns :=
    flat_map (fun ext => [FS.StarSuffix ext;
                          FS.StarSuffix (toUpperCase ext)])
      supportedExtensions in
  let imageFiles :=
    flat_map (fun pattern =>
                FS.glob (nocase e) (sourceFolder this) pattern n)
      patterns in
  sort FS.to_string (set_of path_eqb imageFiles).

Definition splitImages (this : t) (imageFiles : list FS.path)
  : result (list (list FS.path)) :=
  if List.length imageFiles =? 0
  then Throw "No image files found in source folder"
  else
    let total := Z.of_nat (List.length imageFiles) in
    let chunkSize := ceil_div total (numSplits this) in
    Ok (fold_left
          (fun chunks i =>
             let startIdx := (i * chunkSize)%Z in
             let endIdx := Z.min ((i + 1) * chunkSize)%Z total in
             let chunk := slice startIdx endIdx imageFiles in
             if 0 <? List.length chunk then chunks ++ [chunk] else chunks)
          (range (numSplits this)) []).

Definition packageName (chunkId : nat) : string :=
  String.append "work-package-" (padStart 3 (toString chunkId)).

Definition manifest (e : env) (this : t) (chunkId : nat)
    (imageChunk : list FS.path) : value :=
  VObj
    [("package_info",
      VObj [("id", VNum (Z.of_nat chunkId));
            ("name", VStr (packageName chunkId));
            ("created", VStr (now e));
            ("total_packages", VNum (numSplits this));
            ("image_count", VNum (Z.of_nat (List.length imageChunk)))]);
     ("html_files", VArr (map VStr htmlFiles));
     ("images", VArr (map (fun img => VStr (FS.basename img)) imageChunk));
     ("instructions",
      VObj [("1", VStr "Open any of the HTML files in your browser");
            ("2", VStr "Load images from the 'images' folder");
            ("3", VStr "Click 'AI Analyze' to process your assigned images");
            ("4", VStr "Export metadata when analysis is complete");
            ("5", VStr "Share the exported JSON file back to the project lead")])].

Definition createManifest (e : env) (this : t) (packagePath : FS.path)
    (chunkId : nat) (imageChunk : list FS.path) : M unit unit :=
  let manifestPath := FS.join packagePath "package-manifest.json" in
  io "writeJSON failed"
     (FS.writeFile manifestPath
        (FS.JsonFile (Some (manifest e this chunkId imageChunk)))) ;;;
  log "  Created package manifest".

Definition createWorkPackage (e : env) (this : t) (chunkId : nat)
    (imageChunk : list FS.path) : M unit FS.path :=
  let packagePath := FS.join (outputFolder this) (packageName chunkId) in
  (* Create package directory *)
  io "ensureDir failed" (FS.mkdirp packagePath) ;;;
  (* Copy HTML files *)
  for_of htmlFiles (fun htmlFile =>
    let srcPath := FS.join (projectRoot this) htmlFile in
    let dstPath := FS.join packagePath htmlFile in
    exists_ <- read (FS.pathExists srcPath) ;;
    when exists_
      (io "copy failed" (FS.copy srcPath dstPath) ;;;
       log (String.append "  Copied " htmlFile))) ;;;
  (* Copy docs folder if it exists *)
  (let docsSrc := FS.join (projectRoot this) "docs" in
   exists_ <- read (FS.pathExists docsSrc) ;;
   when exists_
     (io "copy failed" (FS.copy docsSrc (FS.join packagePath "docs")) ;;;
      log "  Copied docs folder")) ;;;
  (* Create images subfolder and copy images *)
  (let imagesPath := FS.join packagePath "images" in
   io "ensureDir failed" (FS.mkdirp imagesPath) ;;;
   for_of imageChunk (fun imgFile =>
     let fileName := FS.basename imgFile in
     let dstPath := FS.join imagesPath fileName in
     io "copy failed" (FS.copy imgFile dstPath))) ;;;
  log (String.append "  Copied "
         (String.append (toString (List.length imageChunk)) " images")) ;;;
  (* Create package manifest *)
  createManifest e this packagePath chunkId imageChunk ;;;
  ret packagePath.

(** The chunks with their 1-based ids: [chunks[i]] goes to package
    [i + 1]. *)
Definition numbered {A} (chunks : list A) : list (nat * A) :=
  combine (seq 1 (List.length chunks)) chunks.

Definition split (e : env) (this : t) : M unit (list FS.path) :=
  log (String.append "Analyzing source folder: "
         (FS.to_string (sourceFolder this))) ;;;
  imageFiles <- read (getImageFiles e this) ;;
  (if List.length imageFiles =? 0
   then throw (String.append "No image files found in "
                 (FS.to_string (sourceFolder this)))
   else ret tt) ;;;
  log (String.append "Found "
         (String.append (toString (List.length imageFiles))
            " image files")) ;;;
  (* Split into chunks *)
  chunks <- lift (fun _ => splitImages this imageFiles) ;;
  let actualSplits := List.length chunks in
  when (negb (Z.of_nat actualSplits =? numSplits this)%Z)
    (log (String.append "Created "
            (String.append (toString actualSplits)
               (String.append " packages instead of "
                  (String.append (numToString (numSplits this))
                     " (insufficient images)"))))) ;;;
  log (String.append "Creating "
         (String.append (toString actualSplits)
            (String.append " work packages in: "
               (FS.to_string (outputFolder this))))) ;;;
  (* Create output directory *)
  io "ensureDir failed" (FS.mkdirp (outputFolder this)) ;;;
  (* Create each work package *)
  collect (numbered chunks) (fun '(chunkId, chunk) =>
    log (String.append "Creating package "
           (String.append (toString chunkId)
              (String.append "/" (toString actualSplits)))) ;;;
    packagePath <- createWorkPackage e this chunkId chunk ;;
    log (String.append "   Package: "
           (String.append (FS.basename packagePath)
              (String.append " ("
                 (String.append (toString (List.length chunk))
                    " images)")))) ;;;
    ret packagePath).

(** The command line: [-s source -n numSplits [-o output]], the
    number read by [parseInt]. *)
Record options : Type := mkOptions {
  source : FS.path;
  opt_numSplits : Z;
  output : option FS.path
}.

(** The package summary printed at the end of [main]. *)
Definition summary (packages : list FS.path) : M unit unit :=
  for_of packages (fun packagePath =>
    let manifestPath := FS.join packagePath "package-manifest.json" in
    found <- read (FS.lookup manifestPath) ;;
    match found with
    | None => ret tt
    | Some (FS.JsonFile (Some m)) =>
        info <- lift (fun _ => prop m "package_info") ;;
        match info with
        | None => throw "Cannot read properties of undefined"
        | Some i =>
            imageCount <- lift (fun _ => prop i "image_count") ;;
            log (String.append "   "
                   (String.append (FS.basename packagePath)
                      (String.append ": "
                         (String.append
                            (match imageCount with
                             | Some c => show c
                             | None => "undefined"
                             end) " images"))))
        end
    | Some _ => throw "readJSON failed"
    end).

(** The script: the exit code and the state it leaves. *)
Definition script (e : env) (o : options) (s : state unit)
  : Z * state unit :=
  (* Validation *)
  if (opt_numSplits o <? 1)%Z then
    (1%Z, snd (log "Number of splits must be at least 1" s))
  else if (opt_numSplits o >? 100)%Z then
    (1%Z, snd (log "Number of splits cannot exceed 100 (too many packages)"
                 s))
  else if negb (FS.pathExists (source o) (fs s)) then
    (1%Z, snd (log (String.append "Source folder does not exist: "
                      (FS.to_string (source o))) s))
  else
    (* Set default output location *)
    let outputFolder :=
      match output o with
      | Some d => d
      | None => FS.join (cwd e) "split"
      end in
    let main : M unit unit :=
      log "AI Image Viewer - Work Splitter Tool" ;;;
      (* Initialize splitter *)
      root <- lift (findProjectRoot e) ;;
      let splitter := new (source o) outputFolder (opt_numSplits o) root in
      (* Perform the split *)
      packages <- split e splitter ;;
      log (String.append "Successfully created "
             (String.append (toString (List.length packages))
                " work packages!")) ;;;
      log (String.append "Output location: " (FS.to_string outputFolder)) ;;;
      summary packages in
    match main s with
    | (Ok _, s') => (0%Z, s')
    | (Throw message, s') =>
        (1%Z, snd (log (String.append "Error: " message) s'))
    end.

End WorkSplitter.

(** ** The document splitter: ai_docu/collab/js/split-work.js *)

Module DocumentSplitter.
Import JS Eff.

Record t : Type := new {
  sourceFolder : FS.path;
  outputFolder : FS.path;
  numSplits : Z
}.

Definition supportedExtensions : list string :=
  [".txt"; ".pdf"; ".docx"; ".rtf"; ".md"].

Definition htmlFiles : list string := ["ai_docu.html"].

Fixpoint walk_up (fuel : nat) (n : FS.node) (current : FS.path)
  : result FS.path :=
  match fuel with
  | O => Throw "Could not find project root with HTML files"
  | S fuel' =>
      match current with
      | [] => Throw "Could not find project root with HTML files"
      | _ =>
          if forallb (fun file => FS.pathExists (FS.join current file) n)
               htmlFiles
          then Ok current
          else walk_up fuel' n (FS.dirname current)
      end
  end.

Definition findProjectRoot (e : env) (n : FS.node) : result FS.path :=
  walk_up (S (List.length (scriptDir e))) n (scriptDir e).

Definition getDocumentFiles (this : t) (n : FS.node)
  : result (list FS.path) :=
  match FS.lookup (sourceFolder this) n with
  | Some (FS.Dir es) =>
      let documentFiles :=
        flat_map (fun '(file, stats) =>
                    let filePath := FS.join (sourceFolder this) file in
                    if FS.isFile stats then
                      let ext := toLowerCase (FS.extname file) in
                      if existsb (String.eqb ext) supportedExtensions
                      then [filePath] else []
                    else [])
          es in
      Ok (sort FS.to_string documentFiles)
  | _ => Throw "Error reading source folder: readdir failed"
  end.

Definition splitDocuments (this : t) (documentFiles : list FS.path)
  : result (list (list FS.path)) :=
  if List.length documentFiles =? 0
  then Throw "No document files found in source folder"
  else
    let total := Z.of_nat (List.length documentFiles) in
    let chunkSize := ceil_div total (numSplits this) in
    Ok (fold_left
          (fun chunks i =>
             let startIdx := (i * chunkSize)%Z in
             let endIdx := Z.min ((i + 1) * chunkSize)%Z total in
             let chunk := slice startIdx endIdx documentFiles in
             if 0 <? List.length chunk then chunks ++ [chunk] else chunks)
          (range (numSplits this)) []).

Definition packageName (chunkId : nat) : string :=
  String.append "docu-package-" (padStart 3 (toString chunkId)).

(** [copyDirectory(src, dest)]: [dest] is created, then the entries
    of [src] are copied over it, directories recursively. *)
Definition copyDirectory (src dest : FS.path) : M unit unit :=
  io "mkdir failed" (FS.mkdirp dest) ;;;
  io "copyDirectory failed"
     (fun n =>
        match FS.lookup src n, FS.lookup dest n with
        | Some (FS.Dir ses), Some d =>
            match FS.merge (FS.Dir ses) d with
            | Some m => FS.put dest m n
            | None => None
            end
        | _, _ => None
        end).

Definition manifest (e : env) (this : t) (chunkId : nat)
    (documentChunk : list FS.path) : value :=
  VObj
    [("package_info",
      VObj [("id", VNum (Z.of_nat chunkId));
            ("name", VStr (packageName chunkId));
            ("created", VStr (now e));
            ("total_packages", VNum (numSplits this));
            ("document_count",
             VNum (Z.of_nat (List.length documentChunk)))]);
     ("html_files", VArr (map VStr htmlFiles));
     ("documents",
      VArr (map (fun doc => VStr (FS.basename doc)) documentChunk));
     ("instructions",
      VObj [("1", VStr "Open ai_docu.html in your browser");
            ("2", VStr "Load documents from the 'documents' folder");
            ("3", VStr "Select your preferred AI model");
            ("4", VStr "Click 'AI Analyze' to process your assigned documents");
            ("5", VStr "Export metadata when analysis is complete");
            ("6", VStr "Share the exported JSON file back to the project lead")])].

Definition createManifest (e : env) (this : t) (packagePath : FS.path)
    (chunkId : nat) (documentChunk : list FS.path) : M unit unit :=
  let manifestPath := FS.join packagePath "package-manifest.json" in
  io "writeFile failed"
     (FS.writeFile manifestPath
        (FS.JsonFile (Some (manifest e this chunkId documentChunk)))) ;;;
  log "  Created package manifest".

(** The README template, abridged to its heading and the two values
    it interpolates. *)
Definition readmeContent (chunkId : nat) (documentChunk : list FS.path)
  : string :=
  String.append "# AI Docu Analysis Work Package: "
    (String.append (packageName chunkId)
       (String.append ", documents to analyze: "
          (toString (List.length documentChunk)))).

Definition createPackageReadme (packagePath : FS.path) (chunkId : nat)
    (documentChunk : list FS.path) : M unit unit :=
  let readmePath := FS.join packagePath "README.md" in
  io "writeFile failed"
     (FS.writeFile readmePath
        (FS.File (readmeContent chunkId documentChunk))) ;;;
  log "  Created README.md for team members".

Definition createWorkPackage (e : env) (this : t) (chunkId : nat)
    (documentChunk : list FS.path) : M unit FS.path :=
  let packagePath := FS.join (outputFolder this) (packageName chunkId) in
  (* Create package directory *)
  io "mkdir failed" (FS.mkdirp packagePath) ;;;
  projectRoot <- lift (findProjectRoot e) ;;
  (* Copy HTML files *)
  for_of htmlFiles (fun htmlFile =>
    let srcPath := FS.join projectRoot htmlFile in
    let dstPath := FS.join packagePath htmlFile in
    io "copyFile failed" (FS.copyFile srcPath dstPath) ;;;
    log (String.append "  Copied " htmlFile)) ;;;
  (* Copy docs folder if it exists *)
  (let docsSrc := FS.join projectRoot "docs" in
   try_catch
     (exists_ <- read (FS.pathExists docsSrc) ;;
      (if exists_ then ret tt else throw "access failed") ;;;
      copyDirectory docsSrc (FS.join packagePath "docs") ;;;
      log "  Copied docs folder")
     (fun _ => ret tt)) ;;;
  (* Create documents subfolder and copy documents *)
  (let documentsPath := FS.join packagePath "documents" in
   io "mkdir failed" (FS.mkdirp documentsPath) ;;;
   for_of documentChunk (fun docFile =>
     let fileName := FS.basename docFile in
     let dstPath := FS.join documentsPath fileName in
     io "copyFile failed" (FS.copyFile docFile dstPath))) ;;;
  log (String.append "  Copied "
         (String.append (toString (List.length documentChunk))
            " documents")) ;;;
  (* Create package manifest *)
  createManifest e this packagePath chunkId documentChunk ;;;
  (* Create README for team members *)
  createPackageReadme packagePath chunkId documentChunk ;;;
  ret packagePath.

Definition numbered {A} (chunks : list A) : list (nat * A) :=
  combine (seq 1 (List.length chunks)) chunks.

Definition split (e : env) (this : t) : M unit (list FS.path) :=
  log (String.append "Analyzing source folder: "
         (FS.to_string (sourceFolder this))) ;;;
  (* Get all document files *)
  documentFiles <- lift (getDocumentFiles this) ;;
  (if List.length documentFiles =? 0
   then throw (String.append "No document files found in "
                 (FS.to_string (sourceFolder this)))
   else ret tt) ;;;
  log (String.append "Found "
         (String.append (toString (List.length documentFiles))
            " document files")) ;;;
  (* Split into chunks *)
  chunks <- lift (fun _ => splitDocuments this documentFiles) ;;
  let actualSplits := List.length chunks in
  when (negb (Z.of_nat actualSplits =? numSplits this)%Z)
    (log (String.append "Created "
            (String.append (toString actualSplits)
               (String.append " packages instead of "
                  (String.append (numToString (numSplits this))
                     " (insufficient documents)"))))) ;;;
  log (String.append "Creating "
         (String.append (toString actualSplits)
            (String.append " work packages in: "
               (FS.to_string (outputFolder this))))) ;;;
  (* Create output directory *)
  io "mkdir failed" (FS.mkdirp (outputFolder this)) ;;;
  (* Create each work package *)
  collect (numbered chunks) (fun '(chunkId, chunk) =>
    log (String.append "Creating package "
           (String.append (toString chunkId)
              (String.append "/" (toString actualSplits)))) ;;;
    packagePath <- createWorkPackage e this chunkId chunk ;;
    log (String.append "   Package: "
           (String.append (FS.basename packagePath)
              (String.append " ("
                 (String.append (toString (List.length chunk))
                    " documents)")))) ;;;
    ret packagePath).

(** [compressPackage]: a zip archive next to the package, holding the
    package directory under its own name. *)
Definition compressPackage (packagePath : FS.path) : M unit FS.path :=
  let archiveName := String.append (FS.basename packagePath) ".zip" in
  let archivePath := FS.join (FS.dirname packagePath) archiveName in
  io "archive failed"
     (fun n =>
        match FS.lookup packagePath n with
        | Some pkg =>
            FS.writeFile archivePath
              (FS.Archive (Some [(FS.basename packagePath, pkg)])) n
        | None => None
        end) ;;;
  log (String.append "  Created " archiveName) ;;;
  ret archivePath.

Definition compressPackages (packages : list FS.path)
  : M unit (list FS.path) :=
  log (String.append "Compressing "
         (String.append (toString (List.length packages)) " packages...")) ;;;
  found <- collect packages (fun packagePath =>
    try_catch
      (archivePath <- compressPackage packagePath ;; ret [archivePath])
      (fun message =>
         log (String.append "   Error compressing "
                (String.append (FS.basename packagePath)
                   (String.append ": " message))) ;;;
         ret [])) ;;
  ret (List.concat found).

(** The command line: [-s source -n numSplits [-o output] [-c]], the
    number read by [parseInt]; [compress] defaults to true. *)
Record options : Type := mkOptions {
  source : FS.path;
  opt_numSplits : Z;
  output : option FS.path;
  compress : bool
}.

Definition summary (packages : list FS.path) : M unit unit :=
  for_of packages (fun packagePath =>
    let manifestPath := FS.join packagePath "package-manifest.json" in
    try_catch
      (found <- read (FS.lookup manifestPath) ;;
       match found with
       | Some (FS.JsonFile (Some m)) =>
           info <- lift (fun _ => prop m "package_info") ;;
           match info with
           | None => throw "Cannot read properties of undefined"
           | Some i =>
               documentCount <- lift (fun _ => prop i "document_count") ;;
               log (String.append "   "
                      (String.append (FS.basename packagePath)
                         (String.append ": "
                            (String.append
                               (match documentCount with
                                | Some c => show c
                                | None => "undefined"
                                end) " documents"))))
           end
       | _ => throw "readFile failed"
       end)
      (fun _ =>
         log (String.append "   "
                (String.append (FS.basename packagePath)
                   ": unknown document count")))).

(** The action of the command: the exit code and the state it
    leaves. *)
Definition action (e : env) (o : options) (s : state unit)
  : Z * state unit :=
  let body : M unit unit :=
    (if (opt_numSplits o <? 1)%Z
     then throw "Number of splits must be at least 1"
     else ret tt) ;;;
    (if (opt_numSplits o >? 100)%Z
     then throw "Number of splits cannot exceed 100 (too many packages)"
     else ret tt) ;;;
    (let outputFolder :=
       match output o with
       | Some d => d
       | None => FS.join (scriptDir e) "split"
       end in
     log "AI Docu App - Document Splitter Tool" ;;;
     (* Initialize splitter *)
     let splitter := new (source o) outputFolder (opt_numSplits o) in
     (* Perform the split *)
     packages <- split e splitter ;;
     (* Compress packages if requested *)
     compressedFiles <-
       (if compress o then compressPackages packages else ret []) ;;
     log (String.append "Successfully created "
            (String.append (toString (List.length packages))
               " work packages!")) ;;;
     when (0 <? List.length compressedFiles)
       (log (String.append "Compressed "
               (String.append (toString (List.length compressedFiles))
                  " packages!"))) ;;;
     log (String.append "Output location: " (FS.to_string outputFolder)) ;;;
     summary packages) in
  match body s with
  | (Ok _, s') => (0%Z, s')
  | (Throw message, s') =>
      (1%Z, snd (log (String.append "Error: " message) s'))
  end.

End DocumentSplitter.

(** ** The image joiner: AI-Image-Viewer/collab/js/join-work.js *)

Module WorkJoiner.
Import JS Eff.

Record t : Type := new {
  packagePaths : list FS.path;
  outputPath : FS.path;
  projectRoot : FS.path;
  tempDir : option FS.path       (* for extracted .tar.gz files *)
}.

Definition supportedExtensions : list string :=
  [".jpg"; ".jpeg"; ".png"; ".gif"; ".webp"; ".bmp"].

Definition htmlFiles : list string := ["ai_image.html"].

Fixpoint walk_up (fuel : nat) (n : FS.node) (current : FS.path)
  : result FS.path :=
  match fuel with
  | O => Throw "Could not find project root with HTML files"
  | S fuel' =>
      match current with
      | [] => Throw "Could not find project root with HTML files"
      | _ =>
          if forallb (fun htmlFile =>
                        FS.pathExists (FS.join current htmlFile) n)
               htmlFiles
          then Ok current
          else walk_up fuel' n (FS.dirname current)
      end
  end.

Definition findProjectRoot (e : env) (n : FS.node) : result FS.path :=
  walk_up (S (List.length (scriptDir e))) n (scriptDir e).

Definition directories (n : FS.node) (ps : list FS.path) : list FS.path :=
  filter (fun p => match FS.lookup p n with
                   | Some stats => FS.isDirectory stats
                   | None => false
                   end) ps.

(** The first loop of [detectAndExtractArchives]: the directories
    and the archives found under the input paths. *)
Definition scan (e : env) (inputs : list FS.path) (n : FS.node)
  : list FS.path * list FS.path :=
  fold_left
    (fun '(extractedPaths, archiveFiles) inputPath =>
       match FS.lookup inputPath n with
       | Some stats =>
           if FS.isFile stats
              && endsWith (FS.to_string inputPath) ".tar.gz"
           then
             (* This is a .tar.gz file *)
             (extractedPaths, archiveFiles ++ [inputPath])
           else if FS.isDirectory stats then
             (* Check if directory contains .tar.gz files *)
             let gzFiles :=
               FS.glob (nocase e) inputPath (FS.StarSuffix ".tar.gz") n in
             (* Also check for existing work-package directories *)
             let workDirs :=
               FS.glob (nocase e) inputPath
                 (FS.PrefixStar "work-package-") n in
             (extractedPaths ++ directories n workDirs,
              archiveFiles ++ gzFiles)
           else if FS.isDirectory stats then
             (* Regular directory *)
             (extractedPaths ++ [inputPath], archiveFiles)
           else (extractedPaths, archiveFiles)
       | None => (extractedPaths, archiveFiles)
       end)
    inputs ([], []).

Definition set_tempDir (d : option FS.path) (this : t) : t :=
  new (packagePaths this) (outputPath this) (projectRoot this) d.

Definition set_packagePaths (ps : list FS.path) (this : t) : t :=
  new ps (outputPath this) (projectRoot this) (tempDir this).

Definition detectAndExtractArchives (e : env) : M t (list FS.path) :=
  this <- self ;;
  found <- read (scan e (packagePaths this)) ;;
  let '(extractedPaths, archiveFiles) := found in
  (* Extract .tar.gz files if any found *)
  if 0 <? List.length archiveFiles then
    log (String.append "Found "
           (String.append (toString (List.length archiveFiles))
              " compressed packages to extract...")) ;;;
    (* Create temporary directory for extraction *)
    d <- io_val "mkdtemp failed" (FS.mkdtemp (tmpdir e) "ai-image-join-") ;;
    assign (set_tempDir (Some d)) ;;;
    fold_of archiveFiles extractedPaths (fun extractedPaths archiveFile =>
      log (String.append "Extracting " (FS.basename archiveFile)) ;;;
      try_catch
        (io "tar.x failed" (FS.extract archiveFile d) ;;;
         log (String.append "  Extracted " (FS.basename archiveFile)) ;;;
         (* Find extracted work-package directories *)
         extractedDirs <-
           read (FS.glob (nocase e) d (FS.PrefixStar "work-package-")) ;;
         dirs <- read (fun n => directories n extractedDirs) ;;
         ret (extractedPaths ++ dirs))
        (fun message =>
           log (String.append "  Failed to extract "
                  (String.append (FS.basename archiveFile)
                     (String.append ": " message))) ;;;
           ret extractedPaths))
  else ret extractedPaths.

Definition cleanupTempFiles : M t unit :=
  this <- self ;;
  match tempDir this with
  | Some d =>
      exists_ <- read (FS.pathExists d) ;;
      when exists_
        (io_ (FS.remove d) ;;;
         log "Cleaned up temporary files")
  | None => ret tt
  end.

Definition validatePackages (this : t) (n : FS.node)
  : list FS.path * list string :=
  fold_left
    (fun '(validPackages, lines) packagePath =>
       match FS.lookup packagePath n with
       | None =>
           (validPackages,
            lines ++ [String.append "Warning: Package not found: "
                        (FS.to_string packagePath)])
       | Some stats =>
           if negb (FS.isDirectory stats) then
             let ext := FS.extname (FS.basename packagePath) in
             if (ext =? ".gz")%string || (ext =? ".zip")%string then
               (validPackages,
                lines ++ [String.append "Found compressed package: "
                            (FS.basename packagePath)])
             else
               (validPackages,
                lines ++ [String.append "Warning: Expected folder, got file: "
                            (FS.to_string packagePath)])
           else
             (* Check if it's a valid package directory *)
             let imagesPath := FS.join packagePath "images" in
             if negb (FS.pathExists imagesPath n) then
               (validPackages,
                lines ++ [String.append "Warning: No images folder in: "
                            (FS.basename packagePath)])
             else
               (validPackages ++ [packagePath],
                lines ++ [String.append "Valid package: "
                            (FS.basename packagePath)])
       end)
    (packagePaths this) ([], []).

(** The local variables of [collectImages]. *)
Record collecting : Type := mkCollecting {
  allImages : list FS.path;
  seenNames : list string;
  lines : list string
}.

Definition skipLine (originalName : string) : string :=
  String.append "  Skipping duplicate image: "
    (String.append originalName " (first survives)").

(** The body of the inner loop: one matched path. *)
Definition keep (c : collecting) (imgPath : FS.path) : collecting :=
  let originalName := FS.basename imgPath in
  if has String.eqb (seenNames c) originalName then
    (* Skip duplicates - first survives *)
    mkCollecting (allImages c) (seenNames c)
      (lines c ++ [skipLine originalName])
  else
    mkCollecting (allImages c ++ [imgPath])
      (add String.eqb (seenNames c) originalName) (lines c).

Definition packageImages (e : env) (n : FS.node) (packagePath : FS.path)
  : list FS.path :=
  let imagesPath := FS.join packagePath "images" in
  let patterns :=
    flat_map (fun ext => [FS.StarSuffix ext;
                          FS.StarSuffix (toUpperCase ext)])
      supportedExtensions in
  flat_map (fun pattern => FS.glob (nocase e) imagesPath pattern n)
    patterns.

(** The body of the outer loop: one package. *)
Definition collectPackage (e : env) (n : FS.node) (c : collecting)
    (packagePath : FS.path) : collecting :=
  let imagesPath := FS.join packagePath "images" in
  if negb (FS.pathExists imagesPath n) then c
  else
    let found := packageImages e n packagePath in
    fold_left keep found
      (mkCollecting (allImages c) (seenNames c)
         (lines c ++
          [String.append "Package "
             (String.append (FS.basename packagePath)
                (String.append ": "
                   (String.append (toString (List.length found))
                      " images")))])).

Definition collectImages (e : env) (packages : list FS.path) (n : FS.node)
  : list FS.path * list string :=
  let c := fold_left (collectPackage e n) packages (mkCollecting [] [] []) in
  (allImages c, lines c).

Definition findMetadataFiles (e : env) (packages : list FS.path)
    (n : FS.node) : list FS.path * list string :=
  fold_left
    (fun '(metadataFiles, lines) packagePath =>
       (* Find all .json files in the package *)
       let jsonFiles :=
         FS.glob (nocase e) packagePath (FS.StarSuffix ".json") n in
       (* Filter for files containing "metadata" (case-insensitive),
          excluding package-manifest.json *)
       let foundInPackage :=
         filter (fun jsonFile =>
                   includes (toLowerCase (FS.basename jsonFile)) "metadata"
                   && negb (FS.basename jsonFile
                            =? "package-manifest.json")%string)
           jsonFiles in
       if 0 <? List.length foundInPackage then
         (metadataFiles ++ foundInPackage,
          lines ++
          String.append "Package "
            (String.append (FS.basename packagePath)
               (String.append ": "
                  (String.append (toString (List.length foundInPackage))
                     " metadata files")))
          :: map (fun metaFile =>
                    String.append "  - " (FS.basename metaFile))
               foundInPackage)
       else
         (metadataFiles,
          lines ++ [String.append "Package "
                      (String.append (FS.basename packagePath)
                         ": No metadata files found")]))
    packages ([], []).

(** The consolidated metadata document. *)
Record consolidation_info : Type := mkInfo {
  source_files : list string;
  packages_merged : nat;
  merge_date : string;
  models_used : list value;
  total_analyzed_images : nat
}.

Record metadata : Type := mkMetadata {
  version : string;
  timestamp : string;
  appName : string;
  info : consolidation_info;
  totalImages : value;
  aiEnabled : bool;
  captions : object;
  aiData : object
}.

Definition to_json (m : metadata) : value :=
  VObj
    [("version", VStr (version m));
     ("timestamp", VStr (timestamp m));
     ("appName", VStr (appName m));
     ("consolidation_info",
      VObj [("source_files", VArr (map VStr (source_files (info m))));
            ("packages_merged",
             VNum (Z.of_nat (packages_merged (info m))));
            ("merge_date", VStr (merge_date (info m)));
            ("models_used", VArr (models_used (info m)));
            ("total_analyzed_images",
             VNum (Z.of_nat (total_analyzed_images (info m))))]);
     ("totalImages", totalImages m);
     ("aiEnabled", VBool (aiEnabled m));
     ("captions", VObj (captions m));
     ("aiData", VObj (aiData m))].

(** [fs.readJSON(file)] *)
Definition readJSON (file : FS.path) (n : FS.node) : result value :=
  match FS.lookup file n with
  | Some (FS.JsonFile (Some v)) => Ok v
  | Some (FS.Dir _) => Throw "EISDIR"
  | Some _ => Throw "SyntaxError"
  | None => Throw "ENOENT"
  end.

(** What the loop of [mergeMetadata] updates: [merged.captions],
    [merged.aiData], [modelsUsed] and [imageCount]. *)
Record merging : Type := mkMerging {
  m_captions : object;
  m_aiData : object;
  modelsUsed : list value;
  imageCount : value
}.

Definition mergeCaption (imgName : string) (caption : value) (a : merging)
  : merging :=
  if negb (truthy (get imgName (m_captions a)))
  then mkMerging (set imgName caption (m_captions a)) (m_aiData a)
         (modelsUsed a) (imageCount a)
  else a.

Definition mergeAiData (imgName : string) (record : value) (a : merging)
  : merging :=
  if negb (truthy (get imgName (m_aiData a)))
  then mkMerging (m_captions a) (set imgName record (m_aiData a))
         (modelsUsed a) (imageCount a)
  else a.

Definition trackModel (model : value) (a : merging) : merging :=
  mkMerging (m_captions a) (m_aiData a)
    (add sameValueZero (modelsUsed a) model) (imageCount a).

Definition countImages (n : value) (a : merging) : merging :=
  mkMerging (m_captions a) (m_aiData a) (modelsUsed a)
    (plus (imageCount a) n).

Definition entries_of (v : option value) : object :=
  match v with
  | Some x => entries x
  | None => []
  end.

(** The body of the loop of [mergeMetadata]: one metadata file. *)
Definition mergeFile (metaFile : FS.path) : M merging unit :=
  try_catch
    (data <- lift (readJSON metaFile) ;;
     log (String.append "Processing: " (FS.basename metaFile)) ;;;
     (* Merge captions - first survives for duplicates *)
     dataCaptions <- lift (fun _ => prop data "captions") ;;
     when (truthy dataCaptions)
       (for_of (entries_of dataCaptions) (fun '(imgName, caption) =>
          assign (mergeCaption imgName caption))) ;;;
     (* Merge AI data - first survives for duplicates *)
     dataAiData <- lift (fun _ => prop data "aiData") ;;
     when (truthy dataAiData)
       (for_of (entries_of dataAiData) (fun '(imgName, record) =>
          assign (mergeAiData imgName record) ;;;
          (* Track models used *)
          modelUsed <- lift (fun _ => prop record "modelUsed") ;;
          match modelUsed with
          | Some model => when (truthy modelUsed) (assign (trackModel model))
          | None => ret tt
          end)) ;;;
     (* Count images *)
     dataTotal <- lift (fun _ => prop data "totalImages") ;;
     match dataTotal with
     | Some total => when (truthy dataTotal) (assign (countImages total))
     | None => ret tt
     end)
    (fun message =>
       if (message =? "SyntaxError")%string
       then log (String.append "Error parsing " (FS.basename metaFile))
       else log (String.append "Warning processing "
                   (String.append (FS.basename metaFile)
                      (String.append ": " message)))).

Definition mergeMetadata (e : env) (metadataFiles : list FS.path)
  : M t metadata :=
  scope (mkMerging [] [] [] (VNum 0))
    (for_of metadataFiles mergeFile ;;;
     a <- self ;;
     ret (mkMetadata "2.0-Consolidated" (now e)
            "AI Image Viewer - Consolidated Results"
            (mkInfo
               (map (@FS.basename) metadataFiles)
               (List.length
                  (set_of String.eqb
                     (map (fun f => FS.basename (FS.dirname f))
                        metadataFiles)))
               (now e)
               (modelsUsed a)
               (List.length (keys (m_aiData a))))
            (imageCount a)
            true
            (m_captions a)
            (m_aiData a))).

Definition reportLines (e : env) (m : metadata) : list string :=
  ["AI Image Viewer - Consolidation Report";
   repeat "="%char 50;
   "";
   String.append "Consolidation Date: " (merge_date (info m));
   String.append "Packages Merged: " (toString (packages_merged (info m)));
   String.append "Source Files: "
     (toString (List.length (source_files (info m))));
   String.append "Total Images: " (show (totalImages m));
   String.append "Analyzed Images: "
     (toString (total_analyzed_images (info m)));
   String.append "Analysis Coverage: "
     (String.append
        (toFixed1 e (total_analyzed_images (info m)) (totalImages m)) "%");
   ""]
  ++ (if 0 <? List.length (models_used (info m))
      then "AI Models Used:"
           :: map (fun model => String.append "  - " (show model))
                (models_used (info m))
           ++ [""]
      else [])
  ++ "Source Metadata Files:"
     :: map (fun sourceFile => String.append "  - " sourceFile)
          (source_files (info m)).

Definition createSummaryReport (e : env) (m : metadata) : M t unit :=
  this <- self ;;
  let reportPath := FS.join (outputPath this) "consolidation-report.txt" in
  io "writeFile failed"
     (FS.writeFile reportPath
        (FS.File (String.concat newline (reportLines e m)))) ;;;
  log "Created consolidation report".

Definition createConsolidatedPackage (e : env) (images : list FS.path)
    (m : metadata) : M t FS.path :=
  this <- self ;;
  log (String.append "Creating consolidated package: "
         (FS.to_string (outputPath this))) ;;;
  (* Create output directory *)
  io "ensureDir failed" (FS.mkdirp (outputPath this)) ;;;
  (* Copy HTML files from project root *)
  for_of htmlFiles (fun htmlFile =>
    let srcPath := FS.join (projectRoot this) htmlFile in
    let dstPath := FS.join (outputPath this) htmlFile in
    exists_ <- read (FS.pathExists srcPath) ;;
    when exists_
      (io "copy failed" (FS.copy srcPath dstPath) ;;;
       log (String.append "Copied " htmlFile))) ;;;
  (* Copy docs folder if it exists *)
  (let docsSrc := FS.join (projectRoot this) "docs" in
   exists_ <- read (FS.pathExists docsSrc) ;;
   when exists_
     (io "copy failed" (FS.copy docsSrc (FS.join (outputPath this) "docs")) ;;;
      log "Copied docs folder")) ;;;
  (* Create images folder and copy all images *)
  (let imagesDst := FS.join (outputPath this) "images" in
   io "ensureDir failed" (FS.mkdirp imagesDst) ;;;
   for_of images (fun imgPath =>
     let dstPath := FS.join imagesDst (FS.basename imgPath) in
     io "copy failed" (FS.copy imgPath dstPath))) ;;;
  log (String.append "Copied "
         (String.append (toString (List.length images)) " images")) ;;;
  (* Save consolidated metadata *)
  (let metadataPath :=
     FS.join (outputPath this) "consolidated-metadata.json" in
   io "writeJSON failed"
      (FS.writeFile metadataPath (FS.JsonFile (Some (to_json m))))) ;;;
  log "Created consolidated metadata" ;;;
  (* Create summary report *)
  createSummaryReport e m ;;;
  ret (outputPath this).

(** The metadata written when no metadata file was found. *)
Definition imagesOnly (e : env) (validPackages allImages : list FS.path)
  : metadata :=
  mkMetadata "2.0-Consolidated" (now e)
    "AI Image Viewer - Consolidated Results"
    (mkInfo [] (List.length validPackages) (now e) [] 0)
    (VNum (Z.of_nat (List.length allImages)))
    false
    []
    [].

Definition join (e : env) : M t FS.path :=
  try_finally
    (this <- self ;;
     log (String.append "Processing "
            (String.append (toString (List.length (packagePaths this)))
               " input paths...")) ;;;
     (* Detect and extract .tar.gz files *)
     extractedPaths <- detectAndExtractArchives e ;;
     (* Update package paths with extracted directories *)
     assign (set_packagePaths extractedPaths) ;;;
     log (String.append "Validating "
            (String.append (toString (List.length extractedPaths))
               " packages...")) ;;;
     (* Validate packages *)
     this <- self ;;
     validPackages <- emit (validatePackages this) ;;
     (if List.length validPackages =? 0
      then throw "No valid packages found to merge"
      else ret tt) ;;;
     log (String.append "Found "
            (String.append (toString (List.length validPackages))
               " valid packages")) ;;;
     (* Collect all images *)
     log "Collecting images from packages..." ;;;
     allImages <- emit (collectImages e validPackages) ;;
     log (String.append "Collected "
            (String.append (toString (List.length allImages))
               " total images")) ;;;
     (* Find and merge metadata *)
     log "Processing metadata files..." ;;;
     metadataFiles <- emit (findMetadataFiles e validPackages) ;;
     mergedMetadata <-
       (if List.length metadataFiles =? 0 then
          log "No metadata files found. Creating package with images only." ;;;
          ret (imagesOnly e validPackages allImages)
        else mergeMetadata e metadataFiles) ;;
     (* Create consolidated package *)
     log "Creating consolidated package..." ;;;
     createConsolidatedPackage e allImages mergedMetadata)
    (* Clean up temporary files *)
    cleanupTempFiles.

(** The command line: [<packages...> [-o output] [-f]]. *)
Record options : Type := mkOptions {
  packages : list FS.path;
  output : option FS.path;
  force : bool
}.

(** The final summary of [main], read back from the metadata file. *)
Definition summary (o : options) (resultPath : FS.path) : M unit unit :=
  let metadataPath := FS.join resultPath "consolidated-metadata.json" in
  exists_ <- read (FS.pathExists metadataPath) ;;
  when exists_
    (m <- lift (readJSON metadataPath) ;;
     total <- lift (fun _ => prop m "totalImages") ;;
     log (String.append "   Total Images: "
            (match total with Some v => show v | None => "undefined" end)) ;;;
     ci <- lift (fun _ => prop m "consolidation_info") ;;
     analyzed <-
       match ci with
       | Some c => lift (fun _ => prop c "total_analyzed_images")
       | None => ret None
       end ;;
     log (String.append "   Analyzed Images: "
            (match analyzed with
             | Some v => if truthy analyzed then show v else "0"
             | None => "0"
             end)) ;;;
     log (String.append "   Packages Merged: "
            (toString (List.length (packages o)))) ;;;
     models <-
       match ci with
       | Some c => lift (fun _ => prop c "models_used")
       | None => ret None
       end ;;
     match models with
     | Some (VArr (model :: rest)) =>
         log (String.append "   AI Models Used: "
                (JS.join ", " (model :: rest)))
     | Some (VStr (String _ _)) => throw "models.join is not a function"
     | _ => log "   AI Models Used: None"
     end).

(** The first statement of [main]: what happens to an output
    directory that is already there. *)
Definition checkOutput (outputPath : FS.path) (force : bool) : M unit unit :=
  (* Check if output exists *)
  exists_ <- read (FS.pathExists outputPath) ;;
  if exists_ && negb force then
    log (String.append "Output directory "
           (String.append (FS.to_string outputPath) " exists.")) ;;;
    (* In a real CLI, you'd want to prompt for user input
       For now, we'll just remove it *)
    io_ (FS.remove outputPath)
  else
    exists_ <- read (FS.pathExists outputPath) ;;
    if exists_ && force then io_ (FS.remove outputPath)
    else ret tt.

Definition main (e : env) (o : options) (s : state unit)
  : Z * state unit :=
  (* Validation *)
  if List.length (packages o) <? 1 then
    (1%Z, snd (log "At least one package must be specified" s))
  else
    (* Set default output location *)
    let outputPath :=
      match output o with
      | Some d => d
      | None => FS.join (FS.join (cwd e) "join") "consolidated"
      end in
    let body : M unit unit :=
      checkOutput outputPath (force o) ;;;
      log "AI Image Viewer - Work Joiner Tool" ;;;
      (* Initialize joiner *)
      root <- lift (findProjectRoot e) ;;
      let joiner := new (packages o) outputPath root None in
      (* Perform the join *)
      resultPath <- scope joiner (join e) ;;
      log "Successfully created consolidated package!" ;;;
      log (String.append "Output location: " (FS.to_string resultPath)) ;;;
      (* Show final summary *)
      summary o resultPath in
    match body s with
    | (Ok _, s') => (0%Z, s')
    | (Throw message, s') =>
        (1%Z, snd (log (String.append "Error: " message) s'))
    end.

End WorkJoiner.

(** ** The document joiner: ai_docu/collab/js/join-work.js *)

Module DocumentJoiner.
Import JS Eff.

Record t : Type := new {
  inputFolder : FS.path;
  outputFolder : FS.path
}.

Definition supportedMetadataPatterns : list string :=
  ["ai-docu-sentencebert-metadata.json";
   "ai-docu-distilbert-metadata.json";
   "ai-docu-universal-metadata.json";
   "ai-docu-metadata.json"].

(** [path.basename(file, ext)] for a [file] that ends with [ext]. *)
Definition stem (file ext : string) : string :=
  String.substring 0 (String.length file - String.length ext) file.

Definition extractCompressedPackages (this : t) : M unit (list FS.path) :=
  try_catch
    (files <- lift (fun n =>
                      match FS.readdir (inputFolder this) n with
                      | Some names => Ok names
                      | None => Throw "readdir failed"
                      end) ;;
     let archiveFiles :=
       filter (fun file => endsWith file ".zip" || endsWith file ".tar.gz")
         files in
     if 0 <? List.length archiveFiles then
       log (String.append "Found "
              (String.append (toString (List.length archiveFiles))
                 " compressed packages to extract")) ;;;
       fold_of archiveFiles [] (fun extractedPaths archiveFile =>
         log (String.append "   Extracting "
                (String.append archiveFile "...")) ;;;
         try_catch
           (let archivePath := FS.join (inputFolder this) archiveFile in
            if endsWith archiveFile ".zip" then
              io "extractAllTo failed"
                 (FS.extract archivePath (inputFolder this)) ;;;
              (* Find the extracted folder *)
              let packageName := stem archiveFile ".zip" in
              let extractedPath := FS.join (inputFolder this) packageName in
              exists_ <- read (FS.pathExists extractedPath) ;;
              if exists_ then
                log (String.append "   Extracted to "
                       (String.append packageName "/")) ;;;
                ret (extractedPaths ++ [extractedPath])
              else ret extractedPaths
            else
              (* For .tar.gz files, suggest using system tools *)
              log "   .tar.gz extraction requires system tools" ;;;
              ret extractedPaths)
           (fun message =>
              log (String.append "   Error extracting "
                     (String.append archiveFile
                        (String.append ": " message))) ;;;
              ret extractedPaths))
     else ret [])
    (fun message =>
       log (String.append "Warning: Could not read input folder: " message) ;;;
       ret []).

Definition hasMetadataFiles (directory : FS.path) (n : FS.node) : bool :=
  existsb (fun pattern => FS.pathExists (FS.join directory pattern) n)
    supportedMetadataPatterns.

Definition findPackageDirectories (this : t) (n : FS.node)
  : result (list FS.path) :=
  match FS.lookup (inputFolder this) n with
  | Some (FS.Dir es) =>
      let packageDirs :=
        flat_map (fun '(item, stats) =>
                    let itemPath := FS.join (inputFolder this) item in
                    if FS.isDirectory stats then
                      let isPackage :=
                        startsWith item "docu-package-"
                        || includes (toLowerCase item) "package"
                        || hasMetadataFiles itemPath n in
                      if isPackage then [itemPath] else []
                    else [])
          es in
      Ok (sort FS.to_string packageDirs)
  | _ => Throw "Error reading input folder: readdir failed"
  end.

Definition findMetadataFiles (packageDir : FS.path) (n : FS.node)
  : list FS.path :=
  flat_map (fun pattern =>
              let metadataFile := FS.join packageDir pattern in
              if FS.pathExists metadataFile n then [metadataFile] else [])
    supportedMetadataPatterns.

Definition loadMetadataFile (metadataFile : FS.path) (n : FS.node)
  : result value :=
  match FS.lookup metadataFile n with
  | Some (FS.JsonFile (Some data)) =>
      (* Validate structure *)
      match data with
      | VObj _ | VArr _ =>
          match prop data "metadata" with
          | Ok m =>
              if negb (truthy m)
              then Throw (String.append "Error reading file: Missing "
                            (String.append quote
                               (String.append "metadata"
                                  (String.append quote " key in JSON"))))
              else Ok data
          | Throw message =>
              Throw (String.append "Error reading file: " message)
          end
      | _ => Throw "Error reading file: Metadata must be a JSON object"
      end
  | Some (FS.Dir _) | None => Throw "Error reading file: readFile failed"
  | Some _ => Throw "Invalid JSON format"
  end.

(** The merged document; [Empty] is the [{}] returned for no input. *)
Record export_info : Type := mkExportInfo {
  timestamp : string;
  source : string;
  merged_packages : nat;
  total_documents : nat;
  ai_models_used : list value
}.

Inductive merged : Type :=
| Empty
| Merged (metadata : object) (info : export_info).

(** [Object.assign(target, source)] *)
Definition assign_all (target : object) (source : value) : object :=
  fold_left (fun o '(k, v) => set k v o) (entries source) target.

(** The body of the loop of [mergeMetadata]: one document. *)
Definition mergeOne (acc : object * list value) (metadataDict : value)
  : object * list value :=
  let '(metadata, models) := acc in
  let metadata' :=
    match prop metadataDict "metadata" with
    | Ok (Some m) => if truthy (Some m) then assign_all metadata m
                     else metadata
    | _ => metadata
    end in
  (* Collect export info *)
  let models' :=
    match prop metadataDict "export_info" with
    | Ok (Some ei) =>
        if truthy (Some ei) then
          match prop ei "ai_model" with
          | Ok (Some model) =>
              if truthy (Some model) then add sameValueZero models model
              else models
          | _ => models
          end
        else models
    | _ => models
    end in
  (metadata', models').

Definition mergeMetadata (e : env) (allMetadata : list value) : merged :=
  if List.length allMetadata =? 0 then Empty
  else
    let '(metadata, models) := fold_left mergeOne allMetadata ([], []) in
    Merged metadata
      (mkExportInfo (now e) "AI Docu App - Document Joiner"
         (List.length allMetadata)
         (List.length (keys metadata))
         models).

Definition metadata_of (m : merged) : object :=
  match m with
  | Empty => []
  | Merged metadata _ => metadata
  end.

Definition to_json (m : merged) : value :=
  match m with
  | Empty => VObj []
  | Merged metadata i =>
      VObj [("metadata", VObj metadata);
            ("export_info",
             VObj [("timestamp", VStr (timestamp i));
                   ("source", VStr (source i));
                   ("merged_packages", VNum (Z.of_nat (merged_packages i)));
                   ("total_documents", VNum (Z.of_nat (total_documents i)));
                   ("ai_models_used", VArr (ai_models_used i))])]
  end.

(** The summary report, abridged to its merge summary and the list
    of source packages (the analysis overview is left out). *)
Definition createSummaryReport (m : merged) (packageDirs : list FS.path)
  : result string :=
  match m with
  | Empty => Throw "Cannot read properties of undefined"
  | Merged metadata i =>
      Ok (String.concat newline
            (["# AI Docu App - Document Analysis Summary Report";
              String.append "**Source Packages:** "
                (toString (List.length packageDirs));
              String.append "**Total Documents:** "
                (toString (List.length (keys metadata)));
              String.append "**AI Models Used:** "
                (JS.join ", " (ai_models_used i))]
             ++ map (fun '(i, packageDir) =>
                       String.append (toString i)
                         (String.append ". **"
                            (String.append (FS.basename packageDir) "**")))
                  (combine (seq 1 (List.length packageDirs)) packageDirs)))
  end.

Definition joinManifest (e : env) (m : merged) (packageDirs : list FS.path)
    (allMetadata : list value) : value :=
  VObj [("join_info",
         VObj [("timestamp", VStr (now e));
               ("source_packages",
                VArr (map (fun d => VStr (FS.to_string d)) packageDirs));
               ("total_metadata_files",
                VNum (Z.of_nat (List.length allMetadata)));
               ("total_documents",
                VNum (Z.of_nat (List.length (keys (metadata_of m)))));
               ("ai_models_used",
                VArr (match m with
                      | Merged _ i => ai_models_used i
                      | Empty => []
                      end))]);
        ("output_files",
         VArr [VStr "merged-ai-docu-metadata.json";
               VStr "join-summary-report.md";
               VStr "package-manifest.json"])].

Definition entries_or_empty (m : option value) : object :=
  match m with
  | Some v => if truthy m then entries v else []
  | None => []
  end.

(** The loop of [join] over the package directories: the documents
    loaded, in order. *)
Definition loadAll (packageDirs : list FS.path) : M unit (list value) :=
  fold_of packageDirs [] (fun allMetadata packageDir =>
    log (String.append "Processing package: " (FS.basename packageDir)) ;;;
    metadataFiles <- read (findMetadataFiles packageDir) ;;
    if List.length metadataFiles =? 0 then
      log "   No metadata files found, skipping" ;;;
      ret allMetadata
    else
      log (String.append "   Found "
             (String.append (toString (List.length metadataFiles))
                " metadata files")) ;;;
      (* Process each metadata file *)
      fold_of metadataFiles allMetadata (fun allMetadata metadataFile =>
        try_catch
          (log (String.append "   Loading "
                  (String.append (FS.basename metadataFile) "...")) ;;;
           metadataDict <- lift (loadMetadataFile metadataFile) ;;
           docCount <-
             lift (fun _ =>
                     JS.bind (prop metadataDict "metadata") (fun m =>
                     Ok (List.length (keys (entries_or_empty m))))) ;;
           log (String.append "   Loaded "
                  (String.append (toString docCount) " documents")) ;;;
           ret (allMetadata ++ [metadataDict]))
          (fun message =>
             log (String.append "   Error loading "
                    (String.append (FS.basename metadataFile)
                       (String.append ": " message))) ;;;
             ret allMetadata))).

Definition join (e : env) (this : t) : M unit merged :=
  log (String.append "Analyzing input folder: "
         (FS.to_string (inputFolder this))) ;;;
  (* Extract any compressed packages first *)
  extractedPaths <- extractCompressedPackages this ;;
  when (0 <? List.length extractedPaths)
    (log (String.append "Extracted "
            (String.append (toString (List.length extractedPaths))
               " compressed packages"))) ;;;
  (* Find all package directories *)
  packageDirs <- lift (findPackageDirectories this) ;;
  (if List.length packageDirs =? 0
   then throw (String.append "No package directories found in "
                 (FS.to_string (inputFolder this)))
   else ret tt) ;;;
  log (String.append "Found "
         (String.append (toString (List.length packageDirs))
            " package directories")) ;;;
  (* Collect all metadata files *)
  allMetadata <- loadAll packageDirs ;;
  (if List.length allMetadata =? 0
   then throw "No valid metadata files found to merge"
   else ret tt) ;;;
  log (String.append "Merging "
         (String.append (toString (List.length allMetadata))
            " metadata files...")) ;;;
  (* Merge all metadata *)
  let mergedData := mergeMetadata e allMetadata in
  (* Create output directory *)
  io "mkdir failed" (FS.mkdirp (outputFolder this)) ;;;
  (* Save merged metadata *)
  io "writeFile failed"
     (FS.writeFile (FS.join (outputFolder this) "merged-ai-docu-metadata.json")
        (FS.JsonFile (Some (to_json mergedData)))) ;;;
  log "Saved merged metadata" ;;;
  (* Create summary report *)
  summaryReport <- lift (fun _ => createSummaryReport mergedData packageDirs) ;;
  io "writeFile failed"
     (FS.writeFile (FS.join (outputFolder this) "join-summary-report.md")
        (FS.File summaryReport)) ;;;
  log "Created summary report" ;;;
  (* Create package manifest *)
  io "writeFile failed"
     (FS.writeFile (FS.join (outputFolder this) "package-manifest.json")
        (FS.JsonFile
           (Some (joinManifest e mergedData packageDirs allMetadata)))) ;;;
  log "Created package manifest" ;;;
  ret mergedData.

(** The command line: [-i input [-o output] [-c]]. *)
Record options : Type := mkOptions {
  input : FS.path;
  output : option FS.path;
  cleanExtracted : bool
}.

Definition action (e : env) (o : options) (s : state unit)
  : Z * state unit :=
  let body : M unit unit :=
    let outputFolder :=
      match output o with
      | Some d => d
      | None => FS.join (scriptDir e) "joined"
      end in
    log "AI Docu App - Document Joiner Tool" ;;;
    (* Initialize joiner *)
    let joiner := new (input o) outputFolder in
    (* Perform the join *)
    mergedData <- join e joiner ;;
    log "Successfully merged document analysis results!" ;;;
    log (String.append "Output location: " (FS.to_string outputFolder)) ;;;
    log (String.append "Total documents: "
           (toString (List.length (keys (metadata_of mergedData))))) ;;;
    when (cleanExtracted o)
      (log "4. Cleanup: Removing extracted package directories..." ;;;
       (* Clean up extracted directories *)
       items <- lift (fun n =>
                        match FS.lookup (input o) n with
                        | Some (FS.Dir es) => Ok es
                        | _ => Throw "readdir failed"
                        end) ;;
       for_of items (fun '(item, stats) =>
         let itemPath := FS.join (input o) item in
         when (FS.isDirectory stats && startsWith item "docu-package-")
           (io_ (FS.remove itemPath) ;;;
            log (String.append "   Removed " item)))) in
  match body s with
  | (Ok _, s') => (0%Z, s')
  | (Throw message, s') =>
      (1%Z, snd (log (String.append "Error: " message) s'))
  end.

End DocumentJoiner.

(** ** Definitions used in the statements and proofs *)

Definition chunked {A} (numSplits : Z) (files : list A) : list (list A) :=
  let total := Z.of_nat (List.length files) in
  let chunkSize := JS.ceil_div total numSplits in
  fold_left
    (fun chunks i =>
       let startIdx := (i * chunkSize)%Z in
       let endIdx := Z.min ((i + 1) * chunkSize)%Z total in
       let chunk := JS.slice startIdx endIdx files in
       if 0 <? List.length chunk then chunks ++ [chunk] else chunks)
    (JS.range numSplits) [].

Definition nonempty {A} (l : list A) : bool := 0 <? List.length l.

(** The order of [sort]. *)
Definition key_le {A} (key : A -> string) (x y : A) : Prop :=
  (key x <=? key y)%string = true.



(** The paths as JavaScript orders them. *)
Definition path_le : FS.path -> FS.path -> Prop := key_le FS.to_string.


(** The two documents of the specification's scenario, in the shape
    the document joiner reads: the records under [metadata], the model
    under [export_info.ai_model]. *)
Definition scenario_doc1 : JS.value :=
  JS.VObj [("metadata",
            JS.VObj [("a.jpg", JS.VObj [("tag", JS.VStr "cat")])]);
           ("export_info", JS.VObj [("ai_model", JS.VStr "M1")])].

Definition scenario_doc2 : JS.value :=
  JS.VObj [("metadata",
            JS.VObj [("a.jpg", JS.VObj [("tag", JS.VStr "dog")]);
                     ("b.jpg", JS.VObj [("tag", JS.VStr "bird")])]);
           ("export_info", JS.VObj [("ai_model", JS.VStr "M2")])].

(** [is_prefix p q]: [q] is [p] or lies below it. *)
Fixpoint is_prefix (p q : FS.path) : bool :=
  match p, q with
  | [], _ => true
  | a :: p', b :: q' => (a =? b)%string && is_prefix p' q'
  | _ :: _, [] => false
  end.

(** Neither path is the other or lies below it. *)
Definition diverges (p q : FS.path) : bool :=
  negb (is_prefix p q) && negb (is_prefix q p).

(** What an operation into a directory [dir] leaves unchanged. *)
Definition same_outside (dst : FS.path) (n n' : FS.node) : Prop :=
  forall q, diverges dst q = true -> FS.lookup q n' = FS.lookup q n.

(** The paths [collectImages] matches in one package, and in all of
    them in processing order. *)
Definition found (e : env) (n : FS.node) (packagePath : FS.path)
  : list FS.path :=
  if FS.pathExists (FS.join packagePath "images") n
  then WorkJoiner.packageImages e n packagePath
  else [].








(** The content of a path, for a path that exists. *)
Definition content (n : FS.node) (p : FS.path) : FS.node :=
  match FS.lookup p n with
  | Some x => x
  | None => FS.File ""
  end.


(** A relation [R] between the state before and the state after that
    a computation maintains. *)
Definition stable {T A} (R : Eff.state T -> Eff.state T -> Prop)
    (m : Eff.M T A) : Prop :=
  forall s, R s (snd (m s)).

(** A computation only adds lines to the console. *)
Definition grows_rel {T} (s s' : Eff.state T) : Prop :=
  exists l, Eff.console s' = Eff.console s ++ l.

Definition grows {T A} (m : Eff.M T A) : Prop := stable grows_rel m.

(** A path keeps what it holds. *)
Definition frame_rel {T} (q : FS.path) (s s' : Eff.state T) : Prop :=
  FS.lookup q (Eff.fs s') = FS.lookup q (Eff.fs s).

(** The fields of the object are not assigned. *)
Definition this_rel {T} (s s' : Eff.state T) : Prop :=
  Eff.this s' = Eff.this s.

(** What a call that creates a package may leave at the path of the
    manifest, [old] being what was there before: after a return the
    manifest [new]; after an error what was there, or, when [late]
    allows it, the manifest with a state in which [late] holds. *)
Definition manifest_post {T A} (q : FS.path) (new : FS.node)
    (late : Eff.state T -> Prop) (old : option FS.node)
    (r : JS.result A) (s' : Eff.state T) : Prop :=
  match r with
  | JS.Ok _ => FS.lookup q (Eff.fs s') = Some new
  | JS.Throw _ =>
      FS.lookup q (Eff.fs s') = old \/
      (FS.lookup q (Eff.fs s') = Some new /\ late s')
  end.


(** ** Concrete runs *)

(** A computation writes below [d] only. *)
Definition outside_rel {T} (d : FS.path) (s s' : Eff.state T) : Prop :=
  same_outside d (Eff.fs s) (Eff.fs s').


Module Demo.

Definition e : env :=
  mkEnv false "2025-01-01T00:00:00.000Z" ["work"] ["app"; "collab"; "js"]
    ["tmp"] (fun _ _ => "0.0").

(** The application folder, with the pages that go into the packages. *)
Definition app : FS.node :=
  FS.Dir [("ai_image_viewer.html", FS.File "viewer");
          ("ai_image_viewer_efficientnet.html", FS.File "efficientnet");
          ("ai_image_viewer_mediapipe.html", FS.File "mediapipe");
          ("ai_image.html", FS.File "image");
          ("ai_docu.html", FS.File "docu");
          ("docs", FS.Dir [("shot.png", FS.File "png")]);
          ("collab", FS.Dir [("js", FS.Dir [])])].

(** A source folder with images, documents and other entries. *)
Definition data : FS.node :=
  FS.Dir [("e.jpg", FS.File "E"); ("a.jpg", FS.File "A");
          ("c.JPG", FS.File "C"); ("b.png", FS.File "B");
          ("d.gif", FS.File "D"); ("notes.txt", FS.File "n");
          ("r.MD", FS.File "r"); ("sub.txt", FS.Dir [])].

Definition tree : FS.node :=
  FS.Dir [("app", app); ("data", data); ("work", FS.Dir []);
          ("tmp", FS.Dir [])].

(** The same tree with a directory where the README of the first
    document package goes. *)
Definition tree_readme_taken : FS.node :=
  FS.Dir [("app", app); ("data", data);
          ("work",
           FS.Dir [("out",
                    FS.Dir [("docu-package-001",
                             FS.Dir [("README.md", FS.Dir [])])])]);
          ("tmp", FS.Dir [])].

(** The same tree with a consolidated package from an earlier run. *)
Definition tree_output_taken : FS.node :=
  FS.Dir [("app", app); ("data", data);
          ("work",
           FS.Dir [("join",
                    FS.Dir [("consolidated",
                             FS.Dir [("images",
                                      FS.Dir [("old.jpg", FS.File "O")])])])]);
          ("tmp", FS.Dir [])].

Definition documents : DocumentSplitter.t :=
  DocumentSplitter.new ["data"] ["work"; "out"] 1.

Definition images : WorkSplitter.t :=
  WorkSplitter.new ["data"] ["work"; "split"] 2 ["app"].

(** Two work packages that came back, with an image of the same name
    in both, and a third one in an archive next to an archive that
    cannot be read. *)
Definition record (tag model : string) : JS.value :=
  JS.VObj [("tag", JS.VStr tag); ("modelUsed", JS.VStr model)].

Definition package1 : FS.node :=
  FS.Dir [("images",
           FS.Dir [("a.jpg", FS.File "A1"); ("x.jpg", FS.File "X1")]);
          ("ai-image-metadata.json",
           FS.JsonFile
             (Some (JS.VObj [("aiData",
                              JS.VObj [("a.jpg", record "cat" "M1")]);
                             ("totalImages", JS.VNum 2)])))].

Definition package2 : FS.node :=
  FS.Dir [("images",
           FS.Dir [("x.jpg", FS.File "X2"); ("b.jpg", FS.File "B2")]);
          ("package-manifest.json", FS.JsonFile None);
          ("my-metadata.json",
           FS.JsonFile
             (Some (JS.VObj [("aiData",
                              JS.VObj [("a.jpg", record "dog" "M2");
                                       ("b.jpg", record "bird" "M2")]);
                             ("totalImages", JS.VNum 2)])))].

Definition package3 : FS.node :=
  FS.Dir [("images",
           FS.Dir [("a.jpg", FS.File "A3"); ("z.png", FS.File "Z3")])].

Definition returned : FS.node :=
  FS.Dir [("app", app);
          ("in",
           FS.Dir [("work-package-001", package1);
                   ("work-package-002", package2)]);
          ("arch",
           FS.Dir [("p3.tar.gz",
                    FS.Archive (Some [("work-package-003", package3)]));
                   ("bad.tar.gz", FS.Archive None)]);
          ("broken", FS.Dir [("bad.tar.gz", FS.Archive None)]);
          ("tmp", FS.Dir [("ai-image-join-000000", FS.Dir [])]);
          ("work", FS.Dir [])].

Definition joiner : WorkJoiner.t :=
  WorkJoiner.new [["in"]; ["arch"]] ["work"; "join"; "consolidated"]
    ["app"] None.


(** The input folder of the document joiner, with one package that
    came back as a zip archive. *)
Definition returned_documents : FS.node :=
  FS.Dir [("app", app);
          ("in",
           FS.Dir [("docu-package-001.zip",
                    FS.Archive
                      (Some [("docu-package-001",
                              FS.Dir [("ai-docu-metadata.json",
                                       FS.JsonFile (Some scenario_doc1))])]))]);
          ("tmp", FS.Dir []);
          ("work", FS.Dir [])].




End Demo.

(** ** Definitions used in the further properties *)

(** The chunks of [files] cut for [numSplits] packages: no more chunks
    than packages asked for, none empty or longer than
    [ceil(total / numSplits)], and all but the last of that length. *)
Definition full_but_last {A} (numSplits : Z) (files : list A)
    (chunks : list (list A)) : Prop :=
  let chunkSize :=
    Z.to_nat (JS.ceil_div (Z.of_nat (List.length files)) numSplits) in
  (Z.of_nat (List.length chunks) <= numSplits)%Z /\
  forall i chunk,
    nth_error chunks i = Some chunk ->
    1 <= List.length chunk <= chunkSize /\
    (S i < List.length chunks -> List.length chunk = chunkSize).


(** A valid package of the image joiner: a directory with an [images]
    entry. *)
Definition valid_package (n : FS.node) (packagePath : FS.path) : bool :=
  match FS.lookup packagePath n with
  | Some stats =>
      FS.isDirectory stats && FS.pathExists (FS.join packagePath "images") n
  | None => false
  end.


(** The file system stays as it is. *)
Definition pure_rel {T} (s s' : Eff.state T) : Prop :=
  Eff.fs s' = Eff.fs s.

(** While the image joiner merges metadata files, the record and the
    caption that a name has stay the ones they are. *)
Definition kept_rel (imgName : string) (v : JS.value)
    (s s' : Eff.state WorkJoiner.merging) : Prop :=
  (JS.get imgName (WorkJoiner.m_aiData (Eff.this s)) = Some v ->
   JS.get imgName (WorkJoiner.m_aiData (Eff.this s')) = Some v) /\
  (JS.get imgName (WorkJoiner.m_captions (Eff.this s)) = Some v ->
   JS.get imgName (WorkJoiner.m_captions (Eff.this s')) = Some v).

(** A computation maintains [R], and what it returns satisfies [P]. *)
Definition ensures {T A} (R : Eff.state T -> Eff.state T -> Prop)
    (P : A -> Prop) (m : Eff.M T A) : Prop :=
  forall s, R s (snd (m s)) /\ forall a, fst (m s) = JS.Ok a -> P a.

(** The paths that are entries of the folder [dir]. *)
Definition inside (dir : FS.path) (p : FS.path) : Prop :=
  exists name, p = FS.join dir name.

(** The output folder of the two splitters for a command line. *)
Definition image_split_output (e : env) (o : WorkSplitter.options)
  : FS.path :=
  match WorkSplitter.output o with
  | Some d => d
  | None => FS.join (cwd e) "split"
  end.

Definition document_split_output (e : env) (o : DocumentSplitter.options)
  : FS.path :=
  match DocumentSplitter.output o with
  | Some d => d
  | None => FS.join (scriptDir e) "split"
  end.

(** What the image joiner knows of a path [q] it is not to touch: [q]
    diverges from the output folder, and from the scratch directory
    if there is one. *)
Definition joiner_inv (q : FS.path) (this : WorkJoiner.t) : Prop :=
  diverges (WorkJoiner.outputPath this) q = true /\
  forall d, WorkJoiner.tempDir this = Some d -> diverges d q = true.

Definition scratch_rel (q : FS.path) (s s' : Eff.state WorkJoiner.t)
  : Prop :=
  joiner_inv q (Eff.this s) ->
  FS.lookup q (Eff.fs s') = FS.lookup q (Eff.fs s) /\
  joiner_inv q (Eff.this s').

(** The output folder of the image joiner for a command line. *)
Definition image_join_output (e : env) (o : WorkJoiner.options) : FS.path :=
  match WorkJoiner.output o with
  | Some d => d
  | None => FS.join (FS.join (cwd e) "join") "consolidated"
  end.

(** The output folder of the document joiner for a command line. *)
Definition document_join_output (e : env) (o : DocumentJoiner.options)
  : FS.path :=
  match DocumentJoiner.output o with
  | Some d => d
  | None => FS.join (scriptDir e) "joined"
  end.

(** The documents of the metadata files of the packages that pass the
    validation of [loadMetadataFile], in the order of the packages and
    of the supported file names. *)
Definition valid_documents (n : FS.node) (packageDirs : list FS.path)
  : list JS.value :=
  flat_map
    (fun packageDir =>
       flat_map (fun metadataFile =>
                   match DocumentJoiner.loadMetadataFile metadataFile n with
                   | JS.Ok metadataDict => [metadataDict]
                   | JS.Throw _ => []
                   end)
         (DocumentJoiner.findMetadataFiles packageDir n))
    packageDirs.

(** What a split that returned leaves: the packages [1], [2], ... of
    the output folder [out], one for each chunk, each with the
    manifest of its chunk. *)
Definition manifests_written (out : FS.path) (packageName : nat -> string)
    (manifest : nat -> list FS.path -> JS.value)
    (chunks : list (list FS.path)) (packages : list FS.path)
    (n' : FS.node) : Prop :=
  packages
  = map (fun chunkId => FS.join out (packageName chunkId))
      (seq 1 (List.length chunks)) /\
  forall k chunk,
    nth_error chunks k = Some chunk ->
    FS.lookup
      (FS.join (FS.join out (packageName (1 + k))) "package-manifest.json") n'
    = Some (FS.JsonFile (Some (manifest (1 + k) chunk))).

(* ================================================================== *)
(** * Part II: properties                                               *)
(* ================================================================== *)

(** ** Splitting a list of files into chunks *)

Lemma splitImages_chunked this files :
  WorkSplitter.splitImages this files =
  if List.length files =? 0 then JS.Throw "No image files found in source folder"
  else JS.Ok (chunked (WorkSplitter.numSplits this) files).
Proof. reflexivity. Qed.

Lemma splitDocuments_chunked this files :
  DocumentSplitter.splitDocuments this files =
  if List.length files =? 0 then JS.Throw "No document files found in source folder"
  else JS.Ok (chunked (DocumentSplitter.numSplits this) files).
Proof. reflexivity. Qed.

Section Chunks.
Variable A : Type.
Implicit Types (l : list A) (c k n : nat).

Lemma fold_push (f : Z -> list A) (ixs : list Z) (acc : list (list A)) :
  fold_left (fun chunks i => if 0 <? List.length (f i) then chunks ++ [f i] else chunks) ixs acc
  = acc ++ filter nonempty (map f ixs).
Proof.
  revert acc. induction ixs as [|i ixs IH]; intros acc; simpl.
  - now rewrite app_nil_r.
  - rewrite IH. unfold nonempty at 2. destruct (0 <? List.length (f i)).
    + now rewrite <- app_assoc.
    + reflexivity.
Qed.




Lemma slice_window l (cs : Z) k :
  (0 <= cs)%Z ->
  JS.slice (Z.of_nat k * cs) (Z.min ((Z.of_nat k + 1) * cs) (Z.of_nat (List.length l))) l
  = firstn (Z.to_nat cs) (skipn (k * Z.to_nat cs) l).
Proof.
  intros Hcs. unfold JS.slice.
  replace (Z.to_nat (Z.of_nat k * cs)) with (k * Z.to_nat cs) by nia.
  set (r := skipn (k * Z.to_nat cs) l).
  assert (Hr : List.length r = List.length l - k * Z.to_nat cs)
    by (unfold r; apply length_skipn).
  destruct (Z.le_gt_cases ((Z.of_nat k + 1) * cs) (Z.of_nat (List.length l))) as [H|H].
  - rewrite Z.min_l by exact H. f_equal. nia.
  - rewrite Z.min_r by lia.
    rewrite (firstn_all2 (n := Z.to_nat cs)) by nia.
    apply firstn_all2. nia.
Qed.

Lemma ceil_div_covers (a b : Z) :
  (0 < b)%Z -> (a <= b * JS.ceil_div a b)%Z.
Proof.
  intros Hb. unfold JS.ceil_div.
  pose proof (Z.div_mod (- a) b ltac:(lia)).
  pose proof (Z.mod_pos_bound (- a) b Hb). nia.
Qed.

Lemma ceil_div_nonneg (a b : Z) :
  (0 <= a)%Z -> (0 < b)%Z -> (0 <= JS.ceil_div a b)%Z.
Proof.
  intros Ha Hb. unfold JS.ceil_div.
  pose proof (Z.div_mod (- a) b ltac:(lia)).
  pose proof (Z.mod_pos_bound (- a) b Hb). nia.
Qed.


Lemma chunked_windows (numSplits : Z) l :
  (0 < numSplits)%Z ->
  chunked numSplits l =
  filter nonempty
    (map (fun k => firstn (Z.to_nat (JS.ceil_div (Z.of_nat (List.length l)) numSplits))
                     (skipn (k * Z.to_nat (JS.ceil_div (Z.of_nat (List.length l)) numSplits)) l))
       (seq 0 (Z.to_nat numSplits))).
Proof.
  intros Hn. unfold chunked. cbv zeta.
  rewrite (fold_push (fun i => JS.slice (i * _) (Z.min ((i + 1) * _) _) l)).
  simpl. f_equal. unfold JS.range. rewrite map_map.
  apply map_ext. intros k. apply slice_window.
  apply ceil_div_nonneg; lia.
Qed.




End Chunks.

(** ** Sorting and sets *)

Section SortFacts.
Variable A : Type.
Variable key : A -> string.

Lemma insert_perm x l : Permutation (JS.insert key x l) (x :: l).
Proof.
  induction l as [|y l IH]; simpl; [reflexivity|].
  destruct (key x <=? key y)%string; [reflexivity|].
  rewrite IH. apply perm_swap.
Qed.

Lemma sort_perm l : Permutation (JS.sort key l) l.
Proof.
  induction l as [|x l IH]; simpl; [reflexivity|].
  rewrite insert_perm. now constructor.
Qed.

Lemma insert_sorted x l :
  Sorted (key_le key) l -> Sorted (key_le key) (JS.insert key x l).
Proof.
  induction 1 as [|y l Hs IH Hhd]; simpl.
  - repeat constructor.
  - destruct (key x <=? key y)%string eqn:E.
    + constructor; [now constructor | now constructor].
    + constructor; [exact IH|].
      assert (Hyx : key_le key y x).
      { destruct (String.leb_total (key x) (key y)) as [H|H]; [congruence|exact H]. }
      destruct Hhd as [|z l Hyz]; simpl.
      * now constructor.
      * destruct (key x <=? key z)%string; now constructor.
Qed.

Lemma sort_sorted l : Sorted (key_le key) (JS.sort key l).
Proof.
  induction l as [|x l IH]; simpl; [constructor|].
  now apply insert_sorted.
Qed.

Lemma sort_In x l : In x (JS.sort key l) <-> In x l.
Proof.
  split; apply Permutation_in; [|symmetry]; apply sort_perm.
Qed.


Lemma sort_length l : List.length (JS.sort key l) = List.length l.
Proof. apply Permutation_length, sort_perm. Qed.
End SortFacts.

Section SetFacts.
Variable A : Type.
Variable eqb : A -> A -> bool.
Hypothesis eqb_eq : forall x y, eqb x y = true <-> x = y.








End SetFacts.



(** ** Paths and globbing *)

Lemma basename_join dir name : FS.basename (FS.join dir name) = name.
Proof. unfold FS.basename, FS.join. apply last_last. Qed.

Lemma dirname_join dir name : FS.dirname (FS.join dir name) = dir.
Proof. unfold FS.dirname, FS.join. apply removelast_last. Qed.


Lemma glob_In nocase dir pat n p :
  In p (FS.glob nocase dir pat n) <->
  exists es name,
    FS.lookup dir n = Some (FS.Dir es) /\ In name (JS.keys es) /\
    FS.matches nocase pat name = true /\ p = FS.join dir name.
Proof.
  unfold FS.glob. split.
  - destruct (FS.lookup dir n) as [[| | |es]|]; simpl; try tauto.
    rewrite in_map_iff. intros (name & <- & H). apply filter_In in H.
    exists es, name. tauto.
  - intros (es & name & -> & Hin & Hm & ->).
    apply in_map, filter_In. tauto.
Qed.

(** ** Discovery of the content files *)









(** ** Reasoning about effects *)

Section Stable.
Variable T : Type.
Variable R : Eff.state T -> Eff.state T -> Prop.
Hypothesis rel_refl : forall s, R s s.
Hypothesis rel_trans : forall s1 s2 s3, R s1 s2 -> R s2 s3 -> R s1 s3.
Implicit Types (s : Eff.state T).

Lemma stable_ret A (a : A) : stable R (Eff.ret a).
Proof. intros s. apply rel_refl. Qed.

Lemma stable_throw A msg : stable R (Eff.throw (A := A) msg).
Proof. intros s. apply rel_refl. Qed.

Lemma stable_read A (f : FS.node -> A) : stable R (Eff.read f).
Proof. intros s. apply rel_refl. Qed.

Lemma stable_lift A (f : FS.node -> JS.result A) : stable R (Eff.lift f).
Proof. intros s. apply rel_refl. Qed.

Lemma stable_self : stable R (@Eff.self T).
Proof. intros s. apply rel_refl. Qed.

Lemma stable_log line :
  (forall s, R s (Eff.mkState (Eff.fs s) (Eff.console s ++ [line])
                    (Eff.this s))) ->
  stable R (Eff.log line).
Proof. intros H s. apply H. Qed.

Lemma stable_assign f :
  (forall s, R s (Eff.mkState (Eff.fs s) (Eff.console s) (f (Eff.this s)))) ->
  stable R (Eff.assign f).
Proof. intros H s. apply H. Qed.

Lemma stable_io msg op :
  (forall s n, op (Eff.fs s) = Some n ->
               R s (Eff.mkState n (Eff.console s) (Eff.this s))) ->
  stable R (Eff.io msg op).
Proof.
  intros H s. unfold Eff.io. destruct (op (Eff.fs s)) eqn:E; simpl.
  - now apply H.
  - apply rel_refl.
Qed.

Lemma stable_io_ op :
  (forall s, R s (Eff.mkState (op (Eff.fs s)) (Eff.console s) (Eff.this s))) ->
  stable R (Eff.io_ op).
Proof. intros H s. apply H. Qed.

Lemma stable_io_val A msg (op : FS.node -> option (A * FS.node)) :
  (forall s a n, op (Eff.fs s) = Some (a, n) ->
                 R s (Eff.mkState n (Eff.console s) (Eff.this s))) ->
  stable R (Eff.io_val msg op).
Proof.
  intros H s. unfold Eff.io_val.
  destruct (op (Eff.fs s)) as [[a n]|] eqn:E; simpl.
  - now apply (H s a).
  - apply rel_refl.
Qed.

Lemma stable_emit A (f : FS.node -> A * list string) :
  (forall s lines, R s (Eff.mkState (Eff.fs s) (Eff.console s ++ lines)
                          (Eff.this s))) ->
  stable R (Eff.emit f).
Proof.
  intros H s. unfold Eff.emit. destruct (f (Eff.fs s)) as [a lines].
  apply H.
Qed.

Lemma stable_bind A B (m : Eff.M T A) (k : A -> Eff.M T B) :
  stable R m -> (forall a, stable R (k a)) -> stable R (Eff.bind m k).
Proof.
  intros Hm Hk s. unfold Eff.bind. specialize (Hm s).
  destruct (m s) as [[a|e] s1]; simpl in *.
  - eapply rel_trans; [exact Hm | apply Hk].
  - exact Hm.
Qed.

Lemma stable_try_catch A (m : Eff.M T A) h :
  stable R m -> (forall e, stable R (h e)) -> stable R (Eff.try_catch m h).
Proof.
  intros Hm Hh s. unfold Eff.try_catch. specialize (Hm s).
  destruct (m s) as [[a|e] s1]; simpl in *.
  - exact Hm.
  - eapply rel_trans; [exact Hm | apply Hh].
Qed.

Lemma stable_try_finally A (m : Eff.M T A) final :
  stable R m -> stable R final -> stable R (Eff.try_finally m final).
Proof.
  intros Hm Hf s. unfold Eff.try_finally. specialize (Hm s).
  destruct (m s) as [r s1]; simpl in *. specialize (Hf s1).
  destruct (final s1) as [[u|e] s2]; simpl in *;
    eapply rel_trans; eassumption.
Qed.

Lemma stable_when b (m : Eff.M T unit) : stable R m -> stable R (Eff.when b m).
Proof. intros Hm. destruct b; [exact Hm | apply stable_ret]. Qed.

Lemma stable_for_of A (xs : list A) body :
  (forall x, In x xs -> stable R (body x)) -> stable R (Eff.for_of xs body).
Proof.
  intros Hb. induction xs as [|x xs IH]; simpl.
  - apply stable_ret.
  - apply stable_bind; [apply Hb; now left | intros _].
    apply IH. intros y Hy. apply Hb. now right.
Qed.

Lemma stable_collect A B (xs : list A) (body : A -> Eff.M T B) :
  (forall x, stable R (body x)) -> stable R (Eff.collect xs body).
Proof.
  intros Hb. induction xs as [|x xs IH]; simpl.
  - apply stable_ret.
  - apply stable_bind; [apply Hb | intros b].
    apply stable_bind; [exact IH | intros bs; apply stable_ret].
Qed.

Lemma stable_fold_of A B (xs : list A) (b : B) body :
  (forall b x, stable R (body b x)) -> stable R (Eff.fold_of xs b body).
Proof.
  intros Hb. revert b. induction xs as [|x xs IH]; intros b; simpl.
  - apply stable_ret.
  - apply stable_bind; [apply Hb | intros b'; apply IH].
Qed.
End Stable.

Lemma stable_scope T U (R : Eff.state T -> Eff.state T -> Prop)
    (RU : Eff.state U -> Eff.state U -> Prop) A (init : U) (m : Eff.M U A) :
  stable RU m ->
  (forall (s : Eff.state T) (s1 : Eff.state U),
     RU (Eff.mkState (Eff.fs s) (Eff.console s) init) s1 ->
     R s (Eff.mkState (Eff.fs s1) (Eff.console s1) (Eff.this s))) ->
  stable R (Eff.scope init m).
Proof.
  intros Hm H s. unfold Eff.scope.
  specialize (Hm (Eff.mkState (Eff.fs s) (Eff.console s) init)).
  destruct (m _) as [r s1]. simpl in *. now apply H.
Qed.

(** Decompose a computation into its steps: [pre] proves that the
    relation is reflexive and transitive, [side] that a step which
    changes the state maintains it. *)
Ltac stable_steps pre side :=
  repeat first
    [ progress intros
    | apply stable_bind; try solve [pre]
    | apply stable_try_catch; try solve [pre]
    | apply stable_try_finally; try solve [pre]
    | apply stable_for_of; try solve [pre]
    | apply stable_collect; try solve [pre]
    | apply stable_fold_of; try solve [pre]
    | apply stable_when; try solve [pre]
    | apply stable_ret; solve [pre]
    | apply stable_throw; solve [pre]
    | apply stable_read; solve [pre]
    | apply stable_lift; solve [pre]
    | apply stable_self; solve [pre]
    | apply stable_log; solve [side]
    | apply stable_assign; solve [side]
    | apply stable_io; try solve [pre]; solve [side]
    | apply stable_io_; solve [side]
    | apply stable_io_val; try solve [pre]; solve [side]
    | apply stable_emit; solve [side]
    | match goal with
      | |- stable _ (match ?x with _ => _ end) => destruct x
      | |- stable _ (let '(_, _) := ?x in _) => destruct x
      end ].

Lemma grows_refl T (s : Eff.state T) : grows_rel s s.
Proof. exists []. now rewrite app_nil_r. Qed.

Lemma grows_trans T (s1 s2 s3 : Eff.state T) :
  grows_rel s1 s2 -> grows_rel s2 s3 -> grows_rel s1 s3.
Proof.
  intros (l & Hl) (l' & Hl'). exists (l ++ l').
  now rewrite Hl', Hl, app_assoc.
Qed.

Ltac grows_pre := first [ exact (@grows_refl _) | exact (@grows_trans _) ].

Ltac grows_side :=
  intros; unfold grows_rel; simpl;
  first [ eexists; reflexivity | exists []; now rewrite app_nil_r ].

Ltac grows :=
  unfold grows;
  repeat first
    [ stable_steps grows_pre grows_side
    | apply stable_scope; [| intros ? ? [l Hl]; exists l; exact Hl ] ].


Section EffFacts.
Variable T : Type.
Implicit Types (s : Eff.state T).

(** One step of a sequence. *)
Lemma bind_ret A B (a : A) (k : A -> Eff.M T B) s :
  Eff.bind (Eff.ret a) k s = k a s.
Proof. reflexivity. Qed.

Lemma bind_throw A B msg (k : A -> Eff.M T B) s :
  Eff.bind (Eff.throw msg) k s = (JS.Throw msg, s).
Proof. reflexivity. Qed.

Lemma bind_log B line (k : unit -> Eff.M T B) s :
  Eff.bind (Eff.log line) k s
  = k tt (Eff.mkState (Eff.fs s) (Eff.console s ++ [line]) (Eff.this s)).
Proof. reflexivity. Qed.

Lemma bind_read A B (f : FS.node -> A) (k : A -> Eff.M T B) s :
  Eff.bind (Eff.read f) k s = k (f (Eff.fs s)) s.
Proof. reflexivity. Qed.



Lemma bind_lift A B (f : FS.node -> JS.result A) (k : A -> Eff.M T B) s :
  Eff.bind (Eff.lift f) k s
  = match f (Eff.fs s) with
    | JS.Ok a => k a s
    | JS.Throw e => (JS.Throw e, s)
    end.
Proof. unfold Eff.bind, Eff.lift. now destruct (f (Eff.fs s)). Qed.


Lemma bind_io B msg op (k : unit -> Eff.M T B) s :
  Eff.bind (Eff.io msg op) k s
  = match op (Eff.fs s) with
    | Some n => k tt (Eff.mkState n (Eff.console s) (Eff.this s))
    | None => (JS.Throw msg, s)
    end.
Proof. unfold Eff.bind, Eff.io. now destruct (op (Eff.fs s)). Qed.

Lemma bind_io_ B op (k : unit -> Eff.M T B) s :
  Eff.bind (Eff.io_ op) k s
  = k tt (Eff.mkState (op (Eff.fs s)) (Eff.console s) (Eff.this s)).
Proof. reflexivity. Qed.

Lemma bind_bind A B C (m : Eff.M T A) (k : A -> Eff.M T B)
    (k' : B -> Eff.M T C) s :
  Eff.bind (Eff.bind m k) k' s
  = Eff.bind m (fun a => Eff.bind (k a) k') s.
Proof. unfold Eff.bind. now destruct (m s) as [[a|e] s1]. Qed.

(** Inversion of a sequence that returned. *)
Lemma bind_Ok A B (m : Eff.M T A) (k : A -> Eff.M T B) s b s' :
  Eff.bind m k s = (JS.Ok b, s') ->
  exists a s1, m s = (JS.Ok a, s1) /\ k a s1 = (JS.Ok b, s').
Proof.
  unfold Eff.bind. destruct (m s) as [[a|e] s1]; [|discriminate].
  intros H. now exists a, s1.
Qed.

End EffFacts.


Lemma grows_doc_createWorkPackage e this chunkId chunk :
  grows (DocumentSplitter.createWorkPackage e this chunkId chunk).
Proof.
  unfold DocumentSplitter.createWorkPackage, DocumentSplitter.createManifest,
    DocumentSplitter.createPackageReadme, DocumentSplitter.copyDirectory.
  grows.
Qed.



(** C10. With at least as many files as requested packages the
    splitter can still produce fewer packages than requested: it cuts
    the list into chunks of [ceil(total / numSplits)] files and drops
    the empty ones.  Five files and [numSplits = 4] give chunks of 2, 2
    and 1 files: three packages instead of four, in either splitter. *)
Theorem C10_ceil_chunks_give_fewer_packages :
  let files :=
    map (fun name => ["src"; name]) ["a"; "b"; "c"; "d"; "e"] in
  let documents := DocumentSplitter.new ["src"] ["out"] 4 in
  let images := WorkSplitter.new ["src"] ["out"] 4 ["app"] in
  (4 <= Z.of_nat (List.length files))%Z /\
  JS.ceil_div (Z.of_nat (List.length files)) 4 = 2%Z /\
  (exists chunks,
     DocumentSplitter.splitDocuments documents files = JS.Ok chunks /\
     map (@List.length FS.path) chunks = [2; 2; 1] /\
     (Z.of_nat (List.length chunks) < DocumentSplitter.numSplits documents)%Z) /\
  (exists chunks,
     WorkSplitter.splitImages images files = JS.Ok chunks /\
     map (@List.length FS.path) chunks = [2; 2; 1] /\
     (Z.of_nat (List.length chunks) < WorkSplitter.numSplits images)%Z).
Proof.
  cbv zeta. split; [simpl; lia|]. split; [reflexivity|]. split.
  - eexists. split; [reflexivity|]. split; [reflexivity | simpl; lia].
  - eexists. split; [reflexivity|]. split; [reflexivity | simpl; lia].
Qed.

(** ** Merging metadata *)

(** Own properties. *)
Lemma get_set_same A k (v : A) o : JS.get k (JS.set k v o) = Some v.
Proof.
  induction o as [|[k' v'] o IH]; simpl.
  - now rewrite String.eqb_refl.
  - destruct (k =? k')%string eqn:E; simpl.
    + now rewrite String.eqb_refl.
    + now rewrite E.
Qed.

Lemma get_set_other A k k' (v : A) o :
  k <> k' -> JS.get k (JS.set k' v o) = JS.get k o.
Proof.
  intros Hne. apply String.eqb_neq in Hne.
  induction o as [|[k0 v0] o IH]; simpl.
  - now rewrite Hne.
  - destruct (k' =? k0)%string eqn:E; simpl.
    + apply String.eqb_eq in E. subst k0. now rewrite Hne.
    + now rewrite IH.
Qed.

(** C1 (the code departs from it). In the document joiner the merged
    record of a file name is the one of the document processed last,
    not first: on the scenario of the specification ([a.jpg] tagged
    [cat] by model M1, then [a.jpg] tagged [dog] and [b.jpg] tagged
    [bird] by model M2) it keeps [dog] for [a.jpg]; the models and the
    count of documents are as the specification says. *)
Theorem C1_document_joiner_keeps_the_last_record :
  forall e : env,
    DocumentJoiner.mergeMetadata e [scenario_doc1; scenario_doc2]
    = DocumentJoiner.Merged
        [("a.jpg", JS.VObj [("tag", JS.VStr "dog")]);
         ("b.jpg", JS.VObj [("tag", JS.VStr "bird")])]
        (DocumentJoiner.mkExportInfo (now e) "AI Docu App - Document Joiner"
           2 2 [JS.VStr "M1"; JS.VStr "M2"]).
Proof. reflexivity. Qed.

(** On the scenario of claim C1 the image joiner keeps the record of
    the first package. *)
Lemma image_joiner_keeps_the_first_record :
  let files := [["in"; "work-package-001"; "ai-image-metadata.json"];
                ["in"; "work-package-002"; "my-metadata.json"]] in
  let run :=
    WorkJoiner.mergeMetadata Demo.e files
      (Eff.mkState Demo.returned [] Demo.joiner) in
  exists m,
    fst run = JS.Ok m /\
    WorkJoiner.aiData m
    = [("a.jpg", Demo.record "cat" "M1"); ("b.jpg", Demo.record "bird" "M2")] /\
    WorkJoiner.models_used (WorkJoiner.info m) = [JS.VStr "M1"; JS.VStr "M2"] /\
    WorkJoiner.total_analyzed_images (WorkJoiner.info m) = 2.
Proof. vm_compute. eexists. repeat split. Qed.

(** ** The file system *)

Section AssocFacts.
Variable A : Type.
Implicit Types (o : list (string * A)) (k : string) (v : A).


Lemma set_missing k v o : JS.get k o = None -> JS.set k v o = o ++ [(k, v)].
Proof.
  induction o as [|[k' v'] o IH]; simpl; [reflexivity|].
  destruct (k =? k')%string; [discriminate|].
  intros H. now rewrite IH.
Qed.

Lemma get_app k o o' :
  JS.get k (o ++ o') =
  match JS.get k o with Some v => Some v | None => JS.get k o' end.
Proof.
  induction o as [|[k' v'] o IH]; simpl; [reflexivity|].
  now destruct (k =? k')%string.
Qed.

Lemma get_del_same k o : JS.get k (JS.del k o) = None.
Proof.
  induction o as [|[k' v'] o IH]; simpl; [reflexivity|].
  destruct (k =? k')%string eqn:E; simpl; [exact IH | now rewrite E].
Qed.

Lemma get_In k v o : JS.get k o = Some v -> In (k, v) o.
Proof.
  induction o as [|[k' v'] o IH]; simpl; [discriminate|].
  destruct (k =? k')%string eqn:E.
  - apply String.eqb_eq in E. intros [= ->]. left. now subst.
  - auto.
Qed.

Lemma get_None k o : JS.get k o = None <-> ~ In k (JS.keys o).
Proof.
  induction o as [|[k' v'] o IH]; simpl; [tauto|].
  destruct (k =? k')%string eqn:E.
  - apply String.eqb_eq in E. subst. split; [discriminate|tauto].
  - apply String.eqb_neq in E. rewrite IH. intuition congruence.
Qed.

End AssocFacts.


Lemma is_prefix_app p r : is_prefix p (p ++ r) = true.
Proof. induction p; simpl; [reflexivity|]. now rewrite String.eqb_refl. Qed.

Lemma is_prefix_spec p q : is_prefix p q = true <-> exists r, q = p ++ r.
Proof.
  revert q. induction p as [|a p IH]; intros q; simpl.
  - split; [now exists q | reflexivity].
  - destruct q as [|b q]; [split; [discriminate | intros (r & [=])]|].
    rewrite andb_true_iff, String.eqb_eq, IH. split.
    + intros (-> & r & ->). now exists r.
    + intros (r & [= -> ->]). split; [reflexivity | now exists r].
Qed.

Lemma is_prefix_trans p q r :
  is_prefix p q = true -> is_prefix q r = true -> is_prefix p r = true.
Proof.
  rewrite !is_prefix_spec. intros (a & ->) (b & ->).
  exists (a ++ b). now rewrite app_assoc.
Qed.

(** Two prefixes of one path are comparable. *)
Lemma is_prefix_comparable p q r :
  is_prefix p r = true -> is_prefix q r = true ->
  is_prefix p q = true \/ is_prefix q p = true.
Proof.
  revert q r. induction p as [|a p IH]; intros q r; simpl; [now left|].
  destruct r as [|c r]; [discriminate|].
  destruct q as [|b q]; [now right|]. simpl.
  rewrite !andb_true_iff, !String.eqb_eq.
  intros (-> & Hp) (-> & Hq). destruct (IH q r Hp Hq); [left|right]; tauto.
Qed.

Lemma diverges_sym p q : diverges p q = diverges q p.
Proof. unfold diverges. apply andb_comm. Qed.

Lemma diverges_below p q r :
  diverges p q = true -> diverges (p ++ r) q = true.
Proof.
  unfold diverges. rewrite !andb_true_iff, !negb_true_iff.
  intros [Hpq Hqp]. split.
  - destruct (is_prefix (p ++ r) q) eqn:E; [|reflexivity].
    rewrite <- Hpq. symmetry.
    eapply is_prefix_trans; [apply is_prefix_app | exact E].
  - destruct (is_prefix q (p ++ r)) eqn:E; [|reflexivity].
    destruct (is_prefix_comparable p q (p ++ r) (is_prefix_app p r) E);
      congruence.
Qed.


Lemma diverges_siblings dir a b r r' :
  a <> b -> diverges (dir ++ a :: r) (dir ++ b :: r') = true.
Proof.
  intros Hne. induction dir as [|c dir IH]; unfold diverges in *; simpl.
  - apply String.eqb_neq in Hne. rewrite Hne.
    rewrite String.eqb_sym, Hne. reflexivity.
  - now rewrite String.eqb_refl.
Qed.

Lemma lookup_app p q n :
  FS.lookup (p ++ q) n =
  match FS.lookup p n with
  | Some m => FS.lookup q m
  | None => None
  end.
Proof.
  revert n. induction p as [|c p IH]; intros n; simpl; [reflexivity|].
  destruct n as [| | |es]; try reflexivity.
  destruct (JS.get c es); [apply IH | reflexivity].
Qed.

Lemma lookup_prefix_None p q n :
  is_prefix p q = true -> FS.lookup p n = None -> FS.lookup q n = None.
Proof.
  rewrite is_prefix_spec. intros (r & ->) H. now rewrite lookup_app, H.
Qed.

Lemma lookup_put_same p x n n' :
  FS.put p x n = Some n' -> FS.lookup p n' = Some x.
Proof.
  revert n n'. induction p as [|c p IH]; intros n n'; simpl.
  - now intros [= ->].
  - destruct n as [| | |es]; try discriminate.
    destruct (JS.get c es) as [m|] eqn:E.
    + destruct (FS.put p x m) as [m'|] eqn:E'; [|discriminate].
      intros [= <-]. simpl. rewrite get_set_same. eauto.
    + destruct p; [|discriminate]. intros [= <-]. simpl.
      rewrite get_app, E. simpl. now rewrite String.eqb_refl.
Qed.

Lemma lookup_put_frame p x n n' q :
  FS.put p x n = Some n' -> diverges p q = true ->
  FS.lookup q n' = FS.lookup q n.
Proof.
  revert n n' q. induction p as [|c p IH]; intros n n' q; simpl.
  - unfold diverges. simpl. discriminate.
  - destruct n as [| | |es]; try discriminate.
    destruct q as [|d q]; [intros _ H; discriminate H|].
    unfold diverges. simpl.
    destruct (JS.get c es) as [m|] eqn:E.
    + destruct (FS.put p x m) as [m'|] eqn:E'; [|discriminate].
      intros [= <-]. simpl.
      destruct (String.eqb_spec c d) as [->|Hne].
      * rewrite String.eqb_refl. simpl. intros Hd.
        rewrite get_set_same, E. eapply IH; eauto.
      * intros _. rewrite get_set_other by congruence. reflexivity.
    + destruct p; [|discriminate]. intros [= <-]. simpl.
      destruct (String.eqb_spec c d) as [->|Hne].
      * rewrite String.eqb_refl. simpl. discriminate.
      * intros _. rewrite get_app.
        destruct (JS.get d es); [reflexivity|]. simpl.
        apply String.eqb_neq in Hne. rewrite String.eqb_sym in Hne.
        now rewrite Hne.
Qed.

Lemma lookup_mkdirp_frame p n n' q :
  FS.mkdirp p n = Some n' -> is_prefix q p = false ->
  FS.lookup q n' = FS.lookup q n.
Proof.
  revert n n' q. induction p as [|c p IH]; intros n n' q; simpl.
  - destruct (FS.isDirectory n); [|discriminate]. now intros [= <-].
  - destruct n as [| | |es]; try discriminate.
    destruct q as [|d q]; [discriminate|]. simpl.
    destruct (JS.get c es) as [m|] eqn:E.
    + destruct (FS.mkdirp p m) as [m'|] eqn:E'; [|discriminate].
      intros [= <-]. simpl.
      destruct (String.eqb_spec d c) as [->|Hne]; simpl.
      * intros Hq. rewrite get_set_same, E. eapply IH; eauto.
      * intros _. now rewrite get_set_other.
    + destruct (FS.mkdirp p (FS.Dir [])) as [m'|] eqn:E'; [|discriminate].
      intros [= <-]. simpl.
      destruct (String.eqb_spec d c) as [->|Hne]; simpl.
      * intros Hq. rewrite get_app, E. simpl. rewrite String.eqb_refl.
        rewrite (IH _ _ _ E' Hq).
        destruct q; [discriminate | reflexivity].
      * intros _. rewrite get_app.
        destruct (JS.get d es); [reflexivity|]. simpl.
        apply String.eqb_neq in Hne. now rewrite Hne.
Qed.



Lemma mkdirp_dir p n n' :
  FS.mkdirp p n = Some n' -> exists es, FS.lookup p n' = Some (FS.Dir es).
Proof.
  revert n n'. induction p as [|c p IH]; intros n n'; simpl.
  - destruct n; try discriminate. intros [= <-]. eauto.
  - destruct n as [| | |es]; try discriminate.
    destruct (JS.get c es) as [m|] eqn:E.
    + destruct (FS.mkdirp p m) as [m'|] eqn:E'; [|discriminate].
      intros [= <-]. simpl. rewrite get_set_same. eauto.
    + destruct (FS.mkdirp p (FS.Dir [])) as [m'|] eqn:E'; [|discriminate].
      intros [= <-]. simpl. rewrite get_app, E. simpl.
      rewrite String.eqb_refl. eauto.
Qed.

Lemma lookup_remove p n : p <> [] -> FS.lookup p (FS.remove p n) = None.
Proof.
  revert n. induction p as [|c p IH]; intros n Hne; [congruence|].
  destruct n as [| | |es]; try reflexivity. simpl.
  destruct p as [|c' p].
  - simpl. now rewrite get_del_same.
  - destruct (JS.get c es) as [m|] eqn:E.
    + cbn [FS.lookup]. rewrite get_set_same. apply IH. discriminate.
    + cbn [FS.lookup]. now rewrite E.
Qed.

(** Storing an entry in an existing directory. *)
Lemma put_child dir name x n es :
  FS.lookup dir n = Some (FS.Dir es) ->
  exists n',
    FS.put (FS.join dir name) x n = Some n' /\
    FS.lookup dir n' = Some (FS.Dir (JS.set name x es)).
Proof.
  unfold FS.join. revert n. induction dir as [|c dir IH]; intros n; simpl.
  - intros [= ->]. destruct (JS.get name es) as [m|] eqn:E.
    + eexists. split; reflexivity.
    + eexists. split; [reflexivity|]. now rewrite set_missing.
  - destruct n as [| | |es']; try discriminate.
    destruct (JS.get c es') as [m|] eqn:E; [|discriminate].
    intros H. destruct (IH _ H) as (m' & -> & Hm').
    eexists. split; [reflexivity|]. simpl. now rewrite get_set_same.
Qed.

Lemma lookup_join dir name n :
  FS.lookup (FS.join dir name) n =
  match FS.lookup dir n with
  | Some (FS.Dir es) => JS.get name es
  | _ => None
  end.
Proof.
  unfold FS.join. rewrite lookup_app.
  destruct (FS.lookup dir n) as [[| | |es]|]; try reflexivity.
  simpl. now destruct (JS.get name es).
Qed.


Lemma diverges_join_neq dir a b :
  a <> b -> diverges (FS.join dir a) (FS.join dir b) = true.
Proof. intros H. unfold FS.join. now apply diverges_siblings. Qed.

Lemma diverges_join_below dir a b r :
  a <> b -> diverges (FS.join dir a) (FS.join (FS.join dir b) r) = true.
Proof.
  intros H. unfold FS.join. rewrite <- app_assoc. simpl.
  now apply diverges_siblings.
Qed.

Lemma put_into dir name x n es :
  FS.lookup dir n = Some (FS.Dir es) ->
  exists n',
    FS.put (FS.join dir name) x n = Some n' /\
    FS.lookup dir n' = Some (FS.Dir (JS.set name x es)) /\
    same_outside (FS.join dir name) n n'.
Proof.
  intros Hdir. destruct (put_child dir name x n Hdir) as (n' & Hput & Hl).
  exists n'. repeat split; try assumption.
  intros q Hq. eapply lookup_put_frame; eauto.
Qed.


Lemma writeFile_into dir name x n es :
  FS.lookup dir n = Some (FS.Dir es) ->
  JS.get name es = None ->
  exists n',
    FS.writeFile (FS.join dir name) x n = Some n' /\
    FS.lookup dir n' = Some (FS.Dir (es ++ [(name, x)])) /\
    same_outside (FS.join dir name) n n'.
Proof.
  intros Hdir Hfresh. unfold FS.writeFile.
  rewrite lookup_join, Hdir, Hfresh.
  destruct (put_into dir name x n Hdir) as (n' & Hput & Hl & Hf).
  exists n'. rewrite set_missing in Hl by exact Hfresh. tauto.
Qed.


Lemma same_outside_trans a b n1 n2 n3 root :
  is_prefix root a = true -> is_prefix root b = true ->
  same_outside a n1 n2 -> same_outside b n2 n3 -> same_outside root n1 n3.
Proof.
  intros Ha Hb H12 H23 q Hq.
  apply is_prefix_spec in Ha, Hb. destruct Ha as (ra & ->), Hb as (rb & ->).
  rewrite H23, H12; auto using diverges_below.
Qed.




(** ** Collecting the images of the packages *)







Section Collect.
Import WorkJoiner.







End Collect.

(** ** Materializing the consolidated package *)









(** ** What an operation leaves as it was *)

Lemma is_prefix_longer p name : is_prefix (FS.join p name) p = false.
Proof.
  unfold FS.join. induction p as [|a p IH]; simpl; [reflexivity|].
  now rewrite String.eqb_refl.
Qed.

Lemma is_prefix_dirname q dst :
  is_prefix q dst = false -> is_prefix q (FS.dirname dst) = false.
Proof.
  intros H. destruct (is_prefix q (FS.dirname dst)) eqn:E; [|reflexivity].
  rewrite <- H. symmetry. eapply is_prefix_trans; [exact E|].
  apply is_prefix_spec. unfold FS.dirname.
  destruct dst as [|a dst] using rev_ind; [now exists []|].
  rewrite removelast_last. now exists [a].
Qed.

Lemma diverges_not_prefix p q : diverges p q = true -> is_prefix q p = false.
Proof.
  unfold diverges. rewrite andb_true_iff, !negb_true_iff. tauto.
Qed.

Lemma copy_frame src dst n n' q :
  FS.copy src dst n = Some n' -> diverges dst q = true ->
  FS.lookup q n' = FS.lookup q n.
Proof.
  unfold FS.copy. intros H Hq.
  destruct (FS.lookup src n) as [x|]; [|discriminate].
  destruct (FS.mkdirp (FS.dirname dst) n) as [n1|] eqn:E1; [|discriminate].
  assert (F1 : FS.lookup q n1 = FS.lookup q n).
  { eapply lookup_mkdirp_frame; [exact E1|].
    now apply is_prefix_dirname, diverges_not_prefix. }
  rewrite <- F1.
  destruct (FS.lookup dst n1) as [d|].
  - destruct (FS.merge x d); [|discriminate].
    eapply lookup_put_frame; eauto.
  - eapply lookup_put_frame; eauto.
Qed.

Lemma copyFile_frame src dst n n' q :
  FS.copyFile src dst n = Some n' -> diverges dst q = true ->
  FS.lookup q n' = FS.lookup q n.
Proof.
  unfold FS.copyFile. intros H Hq.
  destruct (FS.lookup src n) as [x|]; [|discriminate].
  destruct (FS.isDirectory x); [discriminate|].
  destruct (FS.lookup dst n) as [[| | |?]|]; try discriminate;
    eapply lookup_put_frame; eauto.
Qed.

Lemma writeFile_frame dst x n n' q :
  FS.writeFile dst x n = Some n' -> diverges dst q = true ->
  FS.lookup q n' = FS.lookup q n.
Proof.
  unfold FS.writeFile. intros H Hq.
  destruct (FS.lookup dst n) as [[| | |?]|]; try discriminate;
    eapply lookup_put_frame; eauto.
Qed.

Lemma writeFile_same dst x n n' :
  FS.writeFile dst x n = Some n' -> FS.lookup dst n' = Some x.
Proof.
  unfold FS.writeFile. intros H.
  destruct (FS.lookup dst n) as [[| | |?]|]; try discriminate;
    eapply lookup_put_same; eauto.
Qed.

Lemma extract_frame file cwd n n' q :
  FS.extract file cwd n = Some n' -> diverges cwd q = true ->
  FS.lookup q n' = FS.lookup q n.
Proof.
  unfold FS.extract. intros H Hq.
  destruct (FS.lookup file n) as [[| |[es|]|]|]; try discriminate.
  destruct (FS.lookup cwd n) as [d|]; [|discriminate].
  destruct (FS.merge (FS.Dir es) d); [|discriminate].
  eapply lookup_put_frame; eauto.
Qed.

Lemma get_del_other A k k' (o : list (string * A)) :
  k <> k' -> JS.get k (JS.del k' o) = JS.get k o.
Proof.
  intros Hne. apply String.eqb_neq in Hne.
  induction o as [|[k0 v0] o IH]; simpl; [reflexivity|].
  destruct (k' =? k0)%string eqn:E; simpl.
  - apply String.eqb_eq in E. subst k0. now rewrite Hne.
  - now rewrite IH.
Qed.

Lemma remove_frame p n q :
  diverges p q = true -> FS.lookup q (FS.remove p n) = FS.lookup q n.
Proof.
  revert n q. induction p as [|c p IH]; intros n q; [discriminate|].
  destruct q as [|d q]; [intros H; discriminate H|].
  unfold diverges. simpl.
  destruct n as [| | |es]; [reflexivity ..|].
  destruct (String.eqb_spec c d) as [->|Hne]; simpl.
  - rewrite String.eqb_refl. simpl. intros Hq.
    destruct p as [|c' p]; [discriminate Hq|].
    destruct (JS.get d es) as [m|] eqn:E; simpl; [|now rewrite E].
    rewrite get_set_same. now apply IH.
  - intros _. destruct p as [|c' p]; simpl.
    + now rewrite get_del_other by congruence.
    + destruct (JS.get c es) as [m|] eqn:E; simpl; [|reflexivity].
      now rewrite get_set_other by congruence.
Qed.

Lemma is_prefix_join_join pkg a b :
  is_prefix (FS.join pkg a) (FS.join pkg b) = (a =? b)%string.
Proof.
  unfold FS.join. induction pkg as [|c pkg IH]; simpl.
  - now rewrite andb_true_r.
  - now rewrite String.eqb_refl.
Qed.

Lemma is_prefix_join_below pkg a b :
  is_prefix (FS.join pkg a) (FS.join pkg b) = false ->
  forall r, is_prefix (FS.join pkg a) (FS.join (FS.join pkg b) r) = false.
Proof.
  rewrite is_prefix_join_join. intros H r. unfold FS.join.
  rewrite <- app_assoc. simpl.
  induction pkg as [|c pkg IH]; simpl.
  - now rewrite H.
  - now rewrite String.eqb_refl.
Qed.

Lemma frame_refl T q (s : Eff.state T) : frame_rel q s s.
Proof. reflexivity. Qed.

Lemma frame_trans T q (s1 s2 s3 : Eff.state T) :
  frame_rel q s1 s2 -> frame_rel q s2 s3 -> frame_rel q s1 s3.
Proof. unfold frame_rel. congruence. Qed.

Ltac frame_pre := first [ exact (@frame_refl _ _) | exact (@frame_trans _ _) ].

Ltac apart :=
  first [ apply diverges_join_neq; discriminate
        | apply diverges_join_below; discriminate
        | apply is_prefix_longer
        | (rewrite is_prefix_join_join; reflexivity)
        | (apply is_prefix_join_below; rewrite is_prefix_join_join; reflexivity)
        | (rewrite diverges_sym; apply diverges_join_below; discriminate) ].

(** A step that writes elsewhere. *)
Ltac frame_side :=
  intros; unfold frame_rel; cbn [Eff.fs];
  first
    [ reflexivity
    | eapply lookup_mkdirp_frame; [eassumption | apart]
    | eapply copy_frame; [eassumption | apart]
    | eapply copyFile_frame; [eassumption | apart]
    | eapply writeFile_frame; [eassumption | apart] ].

Ltac frame := stable_steps frame_pre frame_side.

(** ** Creating a work package *)

Lemma manifest_post_bind T A B q new late (m : Eff.M T A) (k : A -> Eff.M T B) :
  stable (frame_rel q) m ->
  (forall a s1,
     manifest_post q new late (FS.lookup q (Eff.fs s1))
       (fst (k a s1)) (snd (k a s1))) ->
  forall s,
    manifest_post q new late (FS.lookup q (Eff.fs s))
      (fst (Eff.bind m k s)) (snd (Eff.bind m k s)).
Proof.
  intros Hm Hk s. unfold Eff.bind. specialize (Hm s). unfold frame_rel in Hm.
  destruct (m s) as [[a|e] s1]; simpl in *.
  - rewrite <- Hm. apply Hk.
  - now left.
Qed.

(** The image splitter: the manifest is the last thing written. *)
Lemma image_manifest_last e this chunkId chunk s :
  let pkg := FS.join (WorkSplitter.outputFolder this)
               (WorkSplitter.packageName chunkId) in
  let q := FS.join pkg "package-manifest.json" in
  let new := FS.JsonFile (Some (WorkSplitter.manifest e this chunkId chunk)) in
  let run := WorkSplitter.createWorkPackage e this chunkId chunk s in
  manifest_post q new (fun _ => False) (FS.lookup q (Eff.fs s))
    (fst run) (snd run) /\
  (forall p, fst run = JS.Ok p ->
     p = pkg /\
     exists n1, FS.writeFile q new n1 = Some (Eff.fs (snd run))).
Proof.
  intros pkg q new run. unfold run, WorkSplitter.createWorkPackage.
  fold pkg. split.
  - subst q.
    repeat (apply manifest_post_bind; [solve [unfold WorkSplitter.htmlFiles; frame] | intros]).
    unfold WorkSplitter.createManifest. fold new.
    set (q := FS.join pkg "package-manifest.json").
    rewrite bind_bind, bind_io.
    match goal with
    | |- context [FS.writeFile q new ?n] =>
        destruct (FS.writeFile q new n) as [n1|] eqn:E; simpl
    end.
    + eapply writeFile_same, E.
    + now left.
  - intros p Hok. destruct (Eff.bind _ _ s) as [r s'] eqn:E.
    cbn [fst snd] in *. subst r.
    repeat (apply bind_Ok in E; destruct E as (? & ? & ? & E)).
    injection E as <- <-. split; [reflexivity|].
    match goal with
    | H : WorkSplitter.createManifest _ _ _ _ _ _ = _ |- _ =>
        unfold WorkSplitter.createManifest in H;
        apply bind_Ok in H; destruct H as (? & ? & Hio & Hlog)
    end.
    unfold Eff.log in Hlog. unfold Eff.io in Hio.
    match type of Hio with
    | context [FS.writeFile ?p ?x ?n] =>
        destruct (FS.writeFile p x n) as [n1|] eqn:W; [|discriminate];
        exists n
    end.
    inversion Hio; subst. inversion Hlog; subst. exact W.
Qed.

(** Copying a directory over another one writes below the target only. *)
Ltac overlay_side :=
  intros; unfold frame_rel; cbn [Eff.fs];
  match goal with
  | H : match FS.lookup ?src ?n with _ => _ end = Some _ |- _ =>
      destruct (FS.lookup src n) as [[| | |?]|]; try discriminate;
      match type of H with
      | match FS.lookup ?dst n with _ => _ end = Some _ =>
          destruct (FS.lookup dst n); [|discriminate]
      end;
      match type of H with
      | match ?m with _ => _ end = Some _ => destruct m; [|discriminate]
      end;
      eapply lookup_put_frame; [exact H | apart]
  end.

(** The document splitter: the README comes after the manifest. *)
Lemma document_manifest_then_readme e this chunkId chunk s :
  let pkg := FS.join (DocumentSplitter.outputFolder this)
               (DocumentSplitter.packageName chunkId) in
  let q := FS.join pkg "package-manifest.json" in
  let new :=
    FS.JsonFile (Some (DocumentSplitter.manifest e this chunkId chunk)) in
  let readme :=
    FS.writeFile (FS.join pkg "README.md")
      (FS.File (DocumentSplitter.readmeContent chunkId chunk)) in
  let run := DocumentSplitter.createWorkPackage e this chunkId chunk s in
  manifest_post q new (fun s' => readme (Eff.fs s') = None)
    (FS.lookup q (Eff.fs s)) (fst run) (snd run).
Proof.
  intros pkg q new readme run.
  unfold run, DocumentSplitter.createWorkPackage. fold pkg. subst q.
  repeat (apply manifest_post_bind;
          [solve [unfold DocumentSplitter.htmlFiles;
                  stable_steps frame_pre ltac:(first [frame_side | overlay_side])]
          | intros]).
  unfold DocumentSplitter.createManifest, DocumentSplitter.createPackageReadme.
  fold new. fold readme.
  set (q := FS.join pkg "package-manifest.json").
  rewrite bind_bind, bind_io.
  match goal with
  | |- context [FS.writeFile q new ?n] =>
      destruct (FS.writeFile q new n) as [n1|] eqn:E; [|now left]
  end.
  rewrite bind_log, bind_bind, bind_io. cbn [Eff.fs Eff.console Eff.this].
  destruct (readme n1) as [n2|] eqn:E2; simpl.
  - unfold readme in E2. rewrite (@writeFile_frame _ _ _ _ q E2) by (subst q; apart).
    eapply writeFile_same, E.
  - right. split; [eapply writeFile_same, E | exact E2].
Qed.

(** Claim C9, as the code has it.  In the image splitter the manifest
    is the last thing a package creation writes: a call that returns
    returns the package folder, and the file system it leaves is the
    one the manifest write produced; a call that raises leaves at the
    path of the manifest what was there before.  In the document
    splitter the manifest is written after the pages, the docs folder
    and the documents, and the README after the manifest: a call that
    raises leaves at the path of the manifest what was there before,
    or the new manifest in a state where writing the README fails. *)
Theorem C9_manifest_comes_after_the_content_and_before_the_readme (e : env) :
  (forall this chunkId chunk s,
     let pkg := FS.join (WorkSplitter.outputFolder this)
                  (WorkSplitter.packageName chunkId) in
     let q := FS.join pkg "package-manifest.json" in
     let new :=
       FS.JsonFile (Some (WorkSplitter.manifest e this chunkId chunk)) in
     let run := WorkSplitter.createWorkPackage e this chunkId chunk s in
     manifest_post q new (fun _ => False) (FS.lookup q (Eff.fs s))
       (fst run) (snd run) /\
     (forall p, fst run = JS.Ok p ->
        p = pkg /\
        exists n1, FS.writeFile q new n1 = Some (Eff.fs (snd run)))) /\
  (forall this chunkId chunk s,
     let pkg := FS.join (DocumentSplitter.outputFolder this)
                  (DocumentSplitter.packageName chunkId) in
     let q := FS.join pkg "package-manifest.json" in
     let new :=
       FS.JsonFile (Some (DocumentSplitter.manifest e this chunkId chunk)) in
     let readme :=
       FS.writeFile (FS.join pkg "README.md")
         (FS.File (DocumentSplitter.readmeContent chunkId chunk)) in
     let run := DocumentSplitter.createWorkPackage e this chunkId chunk s in
     manifest_post q new (fun s' => readme (Eff.fs s') = None)
       (FS.lookup q (Eff.fs s)) (fst run) (snd run)).
Proof.
  split; intros this chunkId chunk s.
  - exact (image_manifest_last e this chunkId chunk s).
  - exact (document_manifest_then_readme e this chunkId chunk s).
Qed.

(** Claim C9 fails for the document splitter: the creation of a
    package whose README cannot be written raises after the manifest
    is in place.  The package had no manifest before the call, and has
    one, and no README file, after it.  In a run that returns the
    README is written after the manifest. *)
Lemma C9_document_package_with_manifest_and_no_readme :
  let s := Eff.mkState Demo.tree_readme_taken [] tt in
  let run :=
    DocumentSplitter.createWorkPackage Demo.e Demo.documents 1
      [["data"; "notes.txt"]] s in
  let pkg := ["work"; "out"; "docu-package-001"] in
  FS.lookup (FS.join pkg "package-manifest.json") (Eff.fs s) = None /\
  fst run = JS.Throw "writeFile failed" /\
  FS.lookup (FS.join pkg "package-manifest.json") (Eff.fs (snd run))
  = Some (FS.JsonFile
            (Some (DocumentSplitter.manifest Demo.e Demo.documents 1
                     [["data"; "notes.txt"]]))) /\
  FS.lookup (FS.join pkg "README.md") (Eff.fs (snd run))
  = Some (FS.Dir []) /\
  Eff.console
    (snd (DocumentSplitter.createWorkPackage Demo.e Demo.documents 1
            [["data"; "notes.txt"]] (Eff.mkState Demo.tree [] tt)))
  = ["  Copied ai_docu.html"; "  Copied docs folder"; "  Copied 1 documents";
     "  Created package manifest"; "  Created README.md for team members"].
Proof. repeat split; vm_compute; reflexivity. Qed.

(** ** The output directory of a join *)

(** Claim C8, what the code does instead: when the output directory
    exists and [--force] is not given, the joiner prints that it
    exists and removes it, without asking; the file system it
    continues with is the one [--force] gives. *)
Theorem C8_existing_output_is_removed_without_force
    (outputPath : FS.path) (s : Eff.state unit) :
  FS.pathExists outputPath (Eff.fs s) = true ->
  let run := WorkJoiner.checkOutput outputPath false s in
  fst run = JS.Ok tt /\
  Eff.fs (snd run) = FS.remove outputPath (Eff.fs s) /\
  Eff.fs (snd run)
  = Eff.fs (snd (WorkJoiner.checkOutput outputPath true s)) /\
  Eff.console (snd run)
  = Eff.console s
    ++ [String.append "Output directory "
          (String.append (FS.to_string outputPath) " exists.")].
Proof.
  intros H. unfold WorkJoiner.checkOutput.
  rewrite !bind_read, H. cbn [andb negb].
  rewrite bind_log. unfold Eff.io_. cbn. rewrite ?bind_read, ?H. cbn.
  repeat split; reflexivity.
Qed.

(** A consolidated package of an earlier run is gone after the check,
    with and without [--force]. *)
Lemma C8_existing_output_is_removed_without_force_witness :
  let out := ["work"; "join"; "consolidated"] in
  let s := Eff.mkState Demo.tree_output_taken [] tt in
  let run := WorkJoiner.checkOutput out false s in
  FS.lookup (FS.join (FS.join out "images") "old.jpg") (Eff.fs s)
  = Some (FS.File "O") /\
  FS.lookup out (Eff.fs (snd run)) = None /\
  Eff.fs (snd run) = Eff.fs (snd (WorkJoiner.checkOutput out true s)).
Proof.
  intros out s run.
  destruct (@C8_existing_output_is_removed_without_force out s)
    as (_ & Hfs & Hforce & _); [reflexivity|].
  split; [reflexivity|]. split; [|exact Hforce].
  fold run in Hfs. rewrite Hfs. reflexivity.
Defined.

(** ** The scratch directory of the image joiner *)

Lemma length_append s1 s2 :
  String.length (String.append s1 s2) = String.length s1 + String.length s2.
Proof. induction s1 as [|c s1 IH]; simpl; congruence. Qed.

Lemma length_zeros n : String.length (JS.zeros n) = n.
Proof. induction n as [|n IH]; simpl; congruence. Qed.

Lemma length_le_max name names :
  In name names ->
  String.length name <= fold_right Nat.max 0 (map String.length names).
Proof.
  induction names as [|a names IH]; simpl; [tauto|].
  intros [->|H]; [lia | specialize (IH H); lia].
Qed.

Lemma unused_fresh prefix names : ~ In (FS.unused prefix names) names.
Proof.
  intros H. apply length_le_max in H. unfold FS.unused in H.
  rewrite length_append, length_zeros in H. lia.
Qed.

Lemma join_not_root dir name : FS.join dir name <> [].
Proof. unfold FS.join. now destruct dir. Qed.

(** [mkdtemp] makes a directory that was not there. *)
Lemma mkdtemp_fresh dir prefix n d n1 :
  FS.mkdtemp dir prefix n = Some (d, n1) ->
  FS.lookup d n = None /\ FS.lookup d n1 = Some (FS.Dir []) /\
  d <> [] /\ same_outside d n n1.
Proof.
  unfold FS.mkdtemp.
  destruct (FS.lookup dir n) as [[| | |es]|] eqn:Hdir; try discriminate.
  destruct (FS.put _ _ n) as [n'|] eqn:Hput; [|discriminate].
  intros [= <- <-]. repeat split.
  - rewrite lookup_join, Hdir. apply get_None, unused_fresh.
  - eapply lookup_put_same, Hput.
  - apply join_not_root.
  - intros q Hq. eapply lookup_put_frame; eassumption.
Qed.
















(** ** A join without analysis metadata *)






(** ** Splitting, then joining *)




(** The number of a package can be read back from its name. *)
Lemma zeros_decimal j s d :
  NilEmpty.uint_of_string s = Some d ->
  exists d',
    NilEmpty.uint_of_string (String.append (JS.zeros j) s) = Some d' /\
    Nat.of_uint d' = Nat.of_uint d.
Proof.
  intros H. induction j as [|j (d' & IH & E)]; simpl; [eauto|].
  rewrite IH. simpl. exists (Decimal.D0 d'). split; [reflexivity|].
  rewrite <- E. reflexivity.
Qed.

Lemma packageName_inj a b :
  WorkSplitter.packageName a = WorkSplitter.packageName b -> a = b.
Proof.
  unfold WorkSplitter.packageName, JS.padStart, JS.toString.
  intros H. cbn [String.append] in H.
  repeat match type of H with String _ _ = String _ _ => injection H as H end.
  destruct (@zeros_decimal
              (3 - String.length (NilEmpty.string_of_uint (Nat.to_uint a)))
              _ _ (NilEmpty.usu (Nat.to_uint a))) as (da & Ha & Ea).
  destruct (@zeros_decimal
              (3 - String.length (NilEmpty.string_of_uint (Nat.to_uint b)))
              _ _ (NilEmpty.usu (Nat.to_uint b))) as (db & Hb & Eb).
  assert (E : Some da = Some db) by (rewrite <- Ha, <- Hb; f_equal; exact H).
  injection E as ->.
  rewrite Ea in Eb. now rewrite !DecimalNat.Unsigned.of_to in Eb.
Qed.







(** ** The names of the packages *)









(** ** Making a directory *)





(** ** The join of the output folder of a split *)










(* ================================================================== *)
(** * Part III: further properties of the tools                        *)
(* ================================================================== *)

(** ** The sizes of the chunks *)

Lemma window_length A (l : list A) cs k :
  List.length (firstn cs (skipn (k * cs) l))
  = Nat.min cs (List.length l - k * cs).
Proof. now rewrite length_firstn, length_skipn. Qed.

(** The windows that are not empty are the first ones. *)
Lemma nonempty_windows A (l : list A) cs n :
  0 < cs ->
  exists m,
    m <= n /\
    filter nonempty (map (fun k => firstn cs (skipn (k * cs) l)) (seq 0 n))
    = map (fun k => firstn cs (skipn (k * cs) l)) (seq 0 m) /\
    (forall k, k < m -> k * cs < List.length l) /\
    (m < n -> List.length l <= m * cs).
Proof.
  intros Hcs. induction n as [|n (m & Hm & Heq & Hlt & Hend)].
  - exists 0. repeat split; try lia; reflexivity.
  - rewrite seq_S, map_app, filter_app, Heq. cbn [map filter Nat.add].
    unfold nonempty at 1. rewrite window_length.
    destruct (Nat.lt_ge_cases (n * cs) (List.length l)) as [Hin|Hout].
    + assert (m = n) by nia. subst m.
      replace (0 <? Nat.min cs (List.length l - n * cs)) with true
        by (symmetry; apply Nat.ltb_lt; lia).
      exists (S n). rewrite seq_S, map_app. repeat split; try lia.
      intros k Hk. destruct (Nat.eq_dec k n); [subst; lia | apply Hlt; lia].
    + replace (0 <? Nat.min cs (List.length l - n * cs)) with false
        by (symmetry; apply Nat.ltb_ge; lia).
      rewrite app_nil_r. exists m. repeat split; try lia; try assumption.
      intros _. destruct (Nat.eq_dec m n); [subst; lia | nia].
Qed.

Lemma chunked_sizes A (numSplits : Z) (l : list A) :
  (0 < numSplits)%Z -> l <> [] ->
  let cs := Z.to_nat (JS.ceil_div (Z.of_nat (List.length l)) numSplits) in
  (Z.of_nat (List.length (chunked numSplits l)) <= numSplits)%Z /\
  forall i chunk,
    nth_error (chunked numSplits l) i = Some chunk ->
    1 <= List.length chunk <= cs /\
    (S i < List.length (chunked numSplits l) -> List.length chunk = cs).
Proof.
  intros Hn Hl cs.
  assert (Hcs : 0 < cs).
  { pose proof (ceil_div_covers (Z.of_nat (List.length l)) Hn).
    assert (0 < List.length l) by (destruct l; [congruence | simpl; lia]).
    unfold cs. nia. }
  rewrite chunked_windows by exact Hn. fold cs.
  destruct (nonempty_windows l (Z.to_nat numSplits) Hcs)
    as (m & Hm & -> & Hlt & _).
  rewrite length_map, length_seq. split; [lia|].
  intros i chunk Hi.
  assert (Him : i < m).
  { assert (H : nth_error (map (fun k => firstn cs (skipn (k * cs) l)) (seq 0 m)) i
                <> None) by congruence.
    apply nth_error_Some in H. now rewrite length_map, length_seq in H. }
  rewrite nth_error_map, nth_error_seq in Hi.
  replace (i <? m) with true in Hi by (symmetry; apply Nat.ltb_lt; lia).
  simpl in Hi. injection Hi as <-. rewrite window_length.
  specialize (Hlt i Him) as Hi0. split; [lia|].
  intros HS. specialize (Hlt (S i) HS). simpl in Hlt. lia.
Qed.

Lemma chunked_nothing A (numSplits : Z) (l : list A) :
  (numSplits <= 0)%Z -> chunked numSplits l = [].
Proof.
  intros Hn. unfold chunked, JS.range.
  now replace (Z.to_nat numSplits) with 0 by lia.
Qed.

(** X1. Both splitters cut a non-empty list of files into at most
    [numSplits] chunks, none empty and none longer than
    [ceil(total / numSplits)] files, and every chunk but the last has
    exactly that many; with [numSplits <= 0] they return no chunk at
    all instead of raising. *)
Theorem X1_chunks_are_full_but_the_last
    (images : WorkSplitter.t) (documents : DocumentSplitter.t)
    (files : list FS.path) :
  files <> [] ->
  (exists chunks,
     WorkSplitter.splitImages images files = JS.Ok chunks /\
     ((WorkSplitter.numSplits images <= 0)%Z -> chunks = []) /\
     ((0 < WorkSplitter.numSplits images)%Z ->
      full_but_last (WorkSplitter.numSplits images) files chunks)) /\
  (exists chunks,
     DocumentSplitter.splitDocuments documents files = JS.Ok chunks /\
     ((DocumentSplitter.numSplits documents <= 0)%Z -> chunks = []) /\
     ((0 < DocumentSplitter.numSplits documents)%Z ->
      full_but_last (DocumentSplitter.numSplits documents) files chunks)).
Proof.
  intros Hfiles.
  assert (Hlen : (List.length files =? 0) = false).
  { apply Nat.eqb_neq. intros E. apply Hfiles. now apply length_zero_iff_nil. }
  rewrite splitImages_chunked, splitDocuments_chunked, Hlen.
  split; eexists; (split; [reflexivity|]);
    (split; [apply chunked_nothing | intros Hn; now apply chunked_sizes]).
Qed.

(** Seven files for three packages: chunks of three, three and one. *)
Lemma X1_chunks_are_full_but_the_last_witness :
  let files :=
    map (fun name => ["src"; name]) ["a"; "b"; "c"; "d"; "e"; "f"; "g"] in
  exists chunks,
    WorkSplitter.splitImages (WorkSplitter.new ["src"] ["out"] 3 ["app"]) files
    = JS.Ok chunks /\
    map (@List.length FS.path) chunks = [3; 3; 1] /\
    full_but_last 3 files chunks.
Proof.
  intros files.
  destruct (@X1_chunks_are_full_but_the_last
              (WorkSplitter.new ["src"] ["out"] 3 ["app"])
              (DocumentSplitter.new ["src"] ["out"] 3) files)
    as [(chunks & Hsplit & _ & Hfull) _]; [discriminate|].
  exists chunks. split; [exact Hsplit|]. split; [|apply Hfull; reflexivity].
  vm_compute in Hsplit. injection Hsplit as <-. reflexivity.
Defined.

(** ** The names of the packages, again *)

Lemma padded_inj a b :
  JS.padStart 3 (JS.toString a) = JS.padStart 3 (JS.toString b) -> a = b.
Proof.
  unfold JS.padStart, JS.toString. intros H.
  destruct (@zeros_decimal
              (3 - String.length (NilEmpty.string_of_uint (Nat.to_uint a)))
              _ _ (NilEmpty.usu (Nat.to_uint a))) as (da & Ha & Ea).
  destruct (@zeros_decimal
              (3 - String.length (NilEmpty.string_of_uint (Nat.to_uint b)))
              _ _ (NilEmpty.usu (Nat.to_uint b))) as (db & Hb & Eb).
  assert (E : Some da = Some db) by (rewrite <- Ha, <- Hb; f_equal; exact H).
  injection E as ->.
  rewrite Ea in Eb. now rewrite !DecimalNat.Unsigned.of_to in Eb.
Qed.

Lemma append_inj_r p s s' :
  String.append p s = String.append p s' -> s = s'.
Proof.
  induction p as [|c p IH]; simpl; [auto|]. intros [= H]. auto.
Qed.

(** X2. Two chunks never get the same package directory: the name of
    a package determines its number, in both splitters, also for the
    numbers of four and more digits that the padding leaves as they
    are. *)
Theorem X2_package_names_are_distinct (a b : nat) :
  (WorkSplitter.packageName a = WorkSplitter.packageName b <-> a = b) /\
  (DocumentSplitter.packageName a = DocumentSplitter.packageName b <-> a = b).
Proof.
  split; (split; [|now intros ->]); intros H;
    apply padded_inj; eapply append_inj_r; exact H.
Qed.

(** ** Runs that fail before they write *)

(** X3. The image splitter ends with status 1 and leaves the file
    system as it was when the number of splits is below 1 or above
    100, when the source folder does not exist, when no folder above
    the script holds the HTML pages, or when the source folder has no
    image. *)
Theorem X3_image_splitter_fails_before_writing
    (e : env) (o : WorkSplitter.options) (s : Eff.state unit) :
  (WorkSplitter.opt_numSplits o < 1)%Z \/
  (100 < WorkSplitter.opt_numSplits o)%Z \/
  FS.pathExists (WorkSplitter.source o) (Eff.fs s) = false \/
  (exists message,
     WorkSplitter.findProjectRoot e (Eff.fs s) = JS.Throw message) \/
  (forall this,
     WorkSplitter.sourceFolder this = WorkSplitter.source o ->
     WorkSplitter.getImageFiles e this (Eff.fs s) = []) ->
  fst (WorkSplitter.script e o s) = 1%Z /\
  Eff.fs (snd (WorkSplitter.script e o s)) = Eff.fs s.
Proof.
  intros H. unfold WorkSplitter.script.
  destruct (WorkSplitter.opt_numSplits o <? 1)%Z eqn:E1; [now split|].
  destruct (WorkSplitter.opt_numSplits o >? 100)%Z eqn:E2; [now split|].
  destruct (FS.pathExists (WorkSplitter.source o) (Eff.fs s)) eqn:E3;
    [|now split].
  cbn [negb]. rewrite bind_log, bind_lift. cbn [Eff.fs].
  destruct H as [H|[H|[H|[(message & H)|H]]]]; try lia; try discriminate.
  - rewrite H. now split.
  - destruct (WorkSplitter.findProjectRoot e (Eff.fs s)) as [root|message];
      [|now split].
    cbv beta iota. unfold WorkSplitter.split.
    rewrite !bind_bind, bind_log, !bind_bind, bind_read.
    cbn [Eff.fs]. rewrite H by reflexivity.
    cbn [List.length Nat.eqb]. rewrite !bind_bind, bind_throw. now split.
Qed.

(** A request for no package at all. *)
Lemma X3_image_splitter_fails_before_writing_witness :
  let s := Eff.mkState Demo.tree [] tt in
  let run :=
    WorkSplitter.script Demo.e (WorkSplitter.mkOptions ["data"] 0 None) s in
  fst run = 1%Z /\ Eff.fs (snd run) = Demo.tree /\
  Eff.console (snd run) = ["Number of splits must be at least 1"].
Proof.
  intros s run.
  destruct (@X3_image_splitter_fails_before_writing Demo.e
              (WorkSplitter.mkOptions ["data"] 0 None) s) as [Hcode Hfs].
  - left. reflexivity.
  - split; [exact Hcode|]. split; [exact Hfs | reflexivity].
Defined.

(** X4. The document splitter ends with status 1 and leaves the file
    system as it was when the number of splits is below 1 or above
    100, when the source folder cannot be read, or when it holds no
    document. *)
Theorem X4_document_splitter_fails_before_writing
    (e : env) (o : DocumentSplitter.options) (s : Eff.state unit) :
  (DocumentSplitter.opt_numSplits o < 1)%Z \/
  (100 < DocumentSplitter.opt_numSplits o)%Z \/
  (forall this,
     DocumentSplitter.sourceFolder this = DocumentSplitter.source o ->
     (exists message,
        DocumentSplitter.getDocumentFiles this (Eff.fs s)
        = JS.Throw message) \/
     DocumentSplitter.getDocumentFiles this (Eff.fs s) = JS.Ok []) ->
  fst (DocumentSplitter.action e o s) = 1%Z /\
  Eff.fs (snd (DocumentSplitter.action e o s)) = Eff.fs s.
Proof.
  intros H. unfold DocumentSplitter.action.
  destruct (DocumentSplitter.opt_numSplits o <? 1)%Z eqn:E1; [now split|].
  destruct (DocumentSplitter.opt_numSplits o >? 100)%Z eqn:E2; [now split|].
  destruct H as [H|[H|H]]; try lia.
  rewrite !bind_ret, bind_log. unfold DocumentSplitter.split.
  rewrite !bind_bind, bind_log, !bind_bind, bind_lift. cbn [Eff.fs].
  match goal with
  | |- context [DocumentSplitter.getDocumentFiles ?this _] =>
      destruct (H this eq_refl) as [(message & ->)| ->]; [now split|]
  end.
  cbn [List.length Nat.eqb]. rewrite !bind_bind, bind_throw. now split.
Qed.

(** A source folder that is not there. *)
Lemma X4_document_splitter_fails_before_writing_witness :
  let s := Eff.mkState Demo.tree [] tt in
  let run :=
    DocumentSplitter.action Demo.e
      (DocumentSplitter.mkOptions ["nowhere"] 2 None true) s in
  fst run = 1%Z /\ Eff.fs (snd run) = Demo.tree.
Proof.
  intros s run.
  apply (@X4_document_splitter_fails_before_writing Demo.e
           (DocumentSplitter.mkOptions ["nowhere"] 2 None true) s).
  right. right. intros this Hsrc. left.
  unfold DocumentSplitter.getDocumentFiles. cbn [DocumentSplitter.source] in Hsrc.
  rewrite Hsrc. eexists. reflexivity.
Defined.

(** ** The project root *)



Section WalkUp.
Variable pages : list string.
Variable walk : nat -> FS.node -> FS.path -> JS.result FS.path.
Hypothesis walk_eq : forall fuel n current,
walk fuel n current =
match fuel with
| O => JS.Throw "Could not find project root with HTML files"
| S fuel' =>
    match current with
    | [] => JS.Throw "Could not find project root with HTML files"
    | _ =>
        if forallb (fun page => FS.pathExists (FS.join current page) n)
             pages
        then JS.Ok current
        else walk fuel' n (FS.dirname current)
    end
end.

End WalkUp.


(** ** The packages of a join *)

(** X6. Validation keeps, in their order, exactly the package paths
    that are directories with an [images] entry: a missing path, a
    file, an archive and a folder without images are each left out,
    and one line is written for every path. *)
Theorem X6_valid_packages_are_the_folders_with_images
    (this : WorkJoiner.t) (n : FS.node) :
  fst (WorkJoiner.validatePackages this n)
  = filter (valid_package n) (WorkJoiner.packagePaths this) /\
  List.length (snd (WorkJoiner.validatePackages this n))
  = List.length (WorkJoiner.packagePaths this).
Proof.
  unfold WorkJoiner.validatePackages.
  generalize (WorkJoiner.packagePaths this) as ps. intros ps.
  match goal with
  | |- fst (fold_left ?f ps _) = _ /\ _ =>
      assert (G : forall acc lines,
                fst (fold_left f ps (acc, lines))
                = acc ++ filter (valid_package n) ps /\
                List.length (snd (fold_left f ps (acc, lines)))
                = List.length lines + List.length ps);
      [|exact (G [] [])]
  end.
  induction ps as [|p ps IH]; intros acc lines; cbn [fold_left filter].
  - now rewrite app_nil_r, Nat.add_0_r.
  - unfold valid_package at 1.
    destruct (FS.lookup p n) as [stats|];
      [destruct (FS.isDirectory stats);
       [destruct (FS.pathExists (FS.join p "images") n)|]|];
      cbn [negb andb];
      try match goal with
          | |- context [if ?b then _ else _] => destruct b
          end;
      match goal with
      | |- fst (fold_left _ ps (?a, ?l)) = _ /\ _ =>
          destruct (IH a l) as [-> ->]
      end;
      rewrite ?length_app, <- ?app_assoc; cbn [List.length app];
      (split; [reflexivity | lia]).
Qed.

(** X7. The metadata files of the image joiner are, package by
    package, the entries whose name ends in [.json] and holds the word
    [metadata] in any case; the manifest of a package is never one of
    them, and the test that leaves it out changes nothing, since its
    name does not hold that word. *)
Theorem X7_metadata_files_are_the_json_files_named_metadata
    (e : env) (packages : list FS.path) (n : FS.node) (p : FS.path) :
  (In p (fst (WorkJoiner.findMetadataFiles e packages n)) <->
   exists pkg es name,
     In pkg packages /\ FS.lookup pkg n = Some (FS.Dir es) /\
     In name (JS.keys es) /\
     FS.matches (nocase e) (FS.StarSuffix ".json") name = true /\
     JS.includes (JS.toLowerCase name) "metadata" = true /\
     p = FS.join pkg name) /\
  (In p (fst (WorkJoiner.findMetadataFiles e packages n)) ->
   FS.basename p <> "package-manifest.json").
Proof.
  assert (Hchar : forall p,
            In p (fst (WorkJoiner.findMetadataFiles e packages n)) <->
            exists pkg,
              In pkg packages /\
              In p (FS.glob (nocase e) pkg (FS.StarSuffix ".json") n) /\
              JS.includes (JS.toLowerCase (FS.basename p)) "metadata" = true /\
              FS.basename p <> "package-manifest.json").
  { clear p. intros p. unfold WorkJoiner.findMetadataFiles.
    match goal with
    | |- In p (fst (fold_left ?f packages _)) <-> _ =>
        assert (G : forall acc lines,
                  In p (fst (fold_left f packages (acc, lines))) <->
                  In p acc \/
                  exists pkg,
                    In pkg packages /\
                    In p (FS.glob (nocase e) pkg (FS.StarSuffix ".json") n) /\
                    JS.includes (JS.toLowerCase (FS.basename p)) "metadata"
                    = true /\
                    FS.basename p <> "package-manifest.json")
    end.
    { induction packages as [|pkg packages IH]; intros acc lines;
        cbn [fold_left].
      - cbn [fst]. split; [auto | intros [H|(pkg & [] & _)]; exact H].
      - match goal with
        | |- context [filter ?f ?l] =>
            assert (Hf : In p (filter f l) <->
                      In p (FS.glob (nocase e) pkg (FS.StarSuffix ".json") n) /\
                      JS.includes (JS.toLowerCase (FS.basename p)) "metadata"
                      = true /\
                      FS.basename p <> "package-manifest.json");
            [|destruct (0 <? List.length (filter f l)) eqn:E;
              [|assert (Hnil : filter f l = [])
                  by (apply Nat.ltb_ge in E;
                      destruct (filter f l); [reflexivity | simpl in E; lia]);
                rewrite Hnil in Hf]]
        end.
        + rewrite filter_In, andb_true_iff, negb_true_iff, String.eqb_neq.
          tauto.
        + rewrite IH, in_app_iff, Hf. split.
          * intros [[H|H]|(q & Hq & H)];
              [left; exact H
              |right; exists pkg; split; [left; reflexivity | exact H]
              |right; exists q; split; [right; exact Hq | exact H]].
          * intros [H|(q & [<-|Hq] & H)];
              [left; left; exact H
              |left; right; exact H
              |right; exists q; split; [exact Hq | exact H]].
        + rewrite IH. split.
          * intros [H|(q & Hq & H)];
              [left; exact H
              |right; exists q; split; [right; exact Hq | exact H]].
          * intros [H|(q & [<-|Hq] & H)];
              [left; exact H
              |exfalso; now apply Hf
              |right; exists q; split; [exact Hq | exact H]]. }
    rewrite G. split; [intros [[]|H]; exact H | auto]. }
  split; [|intros H; now apply Hchar in H; destruct H as (_ & _ & _ & _ & H)].
  rewrite Hchar. split.
  - intros (pkg & Hpkg & Hglob & Hinc & _). apply glob_In in Hglob.
    destruct Hglob as (es & name & Hl & Hname & Hm & ->).
    rewrite basename_join in Hinc. exists pkg, es, name. auto 7.
  - intros (pkg & es & name & Hpkg & Hl & Hname & Hm & Hinc & ->).
    exists pkg. rewrite basename_join. split; [exact Hpkg|].
    split; [apply glob_In; eauto 8|]. split; [exact Hinc|].
    intros ->. discriminate Hinc.
Qed.






(** ** Merging metadata *)






Lemma for_of_app T A (xs ys : list A) (body : A -> Eff.M T unit)
    (s : Eff.state T) :
  Eff.for_of (xs ++ ys) body s
  = (Eff.for_of xs body ;;; Eff.for_of ys body) s.
Proof.
  revert s. induction xs as [|x xs IH]; intros s; simpl.
  - reflexivity.
  - unfold Eff.bind in *. destruct (body x s) as [[[]|msg] s1];
      [|reflexivity].
    rewrite IH. reflexivity.
Qed.

Lemma pure_refl T (s : Eff.state T) : pure_rel s s.
Proof. reflexivity. Qed.

Lemma pure_trans T (s1 s2 s3 : Eff.state T) :
  pure_rel s1 s2 -> pure_rel s2 s3 -> pure_rel s1 s3.
Proof. unfold pure_rel. congruence. Qed.

Ltac pure_pre := first [ exact (@pure_refl _) | exact (@pure_trans _) ].
Ltac pure_side := intros; unfold pure_rel; reflexivity.

(** A metadata file is merged or skipped: the step returns, and no
    file is changed. *)
Lemma mergeFile_returns (metaFile : FS.path)
    (s : Eff.state WorkJoiner.merging) :
  exists s', WorkJoiner.mergeFile metaFile s = (JS.Ok tt, s') /\
             Eff.fs s' = Eff.fs s.
Proof.
  unfold WorkJoiner.mergeFile, Eff.try_catch.
  match goal with
  | |- context [match ?m s with _ => _ end] =>
      assert (H : stable pure_rel m)
        by (stable_steps pure_pre pure_side);
      specialize (H s); destruct (m s) as [[[]|msg] s1]
  end; cbn [snd] in H.
  - eexists. split; [reflexivity | exact H].
  - destruct (msg =? "SyntaxError")%string; unfold Eff.log;
      (eexists; split; [reflexivity | exact H]).
Qed.

Lemma mergeFiles_return (files : list FS.path) :
  forall s : Eff.state WorkJoiner.merging,
    exists s', Eff.for_of files WorkJoiner.mergeFile s = (JS.Ok tt, s') /\
               Eff.fs s' = Eff.fs s.
Proof.
  induction files as [|f files IH]; intros s; cbn [Eff.for_of].
  - eexists. split; reflexivity.
  - destruct (mergeFile_returns f s) as (s1 & H1 & Hfs1).
    destruct (IH s1) as (s2 & H2 & Hfs2).
    exists s2. unfold Eff.bind. rewrite H1. split; [exact H2 | congruence].
Qed.

Section Kept.
Variables (imgName : string) (v : JS.value).
Hypothesis is_truthy : JS.truthy (Some v) = true.

Lemma kept_refl s : kept_rel imgName v s s.
Proof. split; auto. Qed.

Lemma kept_trans s1 s2 s3 :
  kept_rel imgName v s1 s2 -> kept_rel imgName v s2 s3 ->
  kept_rel imgName v s1 s3.
Proof. unfold kept_rel. intuition. Qed.

Lemma mergeAiData_kept name record a :
  JS.get imgName (WorkJoiner.m_aiData a) = Some v ->
  JS.get imgName (WorkJoiner.m_aiData (WorkJoiner.mergeAiData name record a))
  = Some v.
Proof.
  intros H. unfold WorkJoiner.mergeAiData.
  destruct (JS.truthy (JS.get name (WorkJoiner.m_aiData a))) eqn:E;
    cbn [negb]; [exact H|].
  cbn [WorkJoiner.m_aiData]. rewrite get_set_other; [exact H|].
  intros ->. rewrite H, is_truthy in E. discriminate E.
Qed.

Lemma mergeCaption_kept name caption a :
  JS.get imgName (WorkJoiner.m_captions a) = Some v ->
  JS.get imgName
    (WorkJoiner.m_captions (WorkJoiner.mergeCaption name caption a))
  = Some v.
Proof.
  intros H. unfold WorkJoiner.mergeCaption.
  destruct (JS.truthy (JS.get name (WorkJoiner.m_captions a))) eqn:E;
    cbn [negb]; [exact H|].
  cbn [WorkJoiner.m_captions]. rewrite get_set_other; [exact H|].
  intros ->. rewrite H, is_truthy in E. discriminate E.
Qed.

Lemma mergeFiles_kept files :
  stable (kept_rel imgName v) (Eff.for_of files WorkJoiner.mergeFile).
Proof.
  unfold WorkJoiner.mergeFile.
  stable_steps ltac:(first [ exact kept_refl | exact kept_trans ])
    ltac:(intros; unfold kept_rel; cbn [Eff.this];
          first
            [ split; intros; assumption
            | split; [now apply mergeAiData_kept | unfold WorkJoiner.mergeAiData;
                      match goal with
                      | |- context [if ?b then _ else _] => destruct b
                      end; intros; assumption]
            | split; [unfold WorkJoiner.mergeCaption;
                      match goal with
                      | |- context [if ?b then _ else _] => destruct b
                      end; intros; assumption
                     | now apply mergeCaption_kept] ]).
Qed.
End Kept.

(** X10. The metadata merge of the image joiner always returns, with
    no file changed: a metadata file that is missing or that cannot
    be read is passed over.  And the first survives: the record and
    the caption that a name has after some files is still the one it
    has after any further files, unless it is a falsy value. *)
Theorem X10_first_record_of_a_name_survives_later_files
    (e : env) (files more : list FS.path) (s : Eff.state WorkJoiner.t) :
  exists m m',
    fst (WorkJoiner.mergeMetadata e files s) = JS.Ok m /\
    fst (WorkJoiner.mergeMetadata e (files ++ more) s) = JS.Ok m' /\
    Eff.fs (snd (WorkJoiner.mergeMetadata e (files ++ more) s)) = Eff.fs s /\
    Eff.this (snd (WorkJoiner.mergeMetadata e (files ++ more) s)) = Eff.this s /\
    forall imgName v,
      JS.truthy (Some v) = true ->
      (JS.get imgName (WorkJoiner.aiData m) = Some v ->
       JS.get imgName (WorkJoiner.aiData m') = Some v) /\
      (JS.get imgName (WorkJoiner.captions m) = Some v ->
       JS.get imgName (WorkJoiner.captions m') = Some v).
Proof.
  unfold WorkJoiner.mergeMetadata, Eff.scope.
  set (s0 := Eff.mkState (Eff.fs s) (Eff.console s)
               (WorkJoiner.mkMerging [] [] [] (JS.VNum 0))).
  destruct (mergeFiles_return files s0) as (s1 & H1 & Hfs1).
  destruct (mergeFiles_return more s1) as (s2 & H2 & Hfs2).
  assert (E1 : forall k : unit -> Eff.M WorkJoiner.merging WorkJoiner.metadata,
            Eff.bind (Eff.for_of files WorkJoiner.mergeFile) k s0 = k tt s1).
  { intros k. unfold Eff.bind. now rewrite H1. }
  assert (E2 : forall k : unit -> Eff.M WorkJoiner.merging WorkJoiner.metadata,
            Eff.bind (Eff.for_of (files ++ more) WorkJoiner.mergeFile) k s0
            = k tt s2).
  { intros k. unfold Eff.bind. rewrite for_of_app. unfold Eff.bind.
    now rewrite H1, H2. }
  rewrite E1, !E2. unfold Eff.bind, Eff.self, Eff.ret.
  cbn [fst snd Eff.fs Eff.this].
  eexists _, _. split; [reflexivity|]. split; [reflexivity|].
  split; [subst s0; cbn [Eff.fs] in *; congruence|].
  split; [reflexivity|].
  intros imgName v Hv. cbn [WorkJoiner.aiData WorkJoiner.captions].
  pose proof (@mergeFiles_kept imgName v Hv more s1) as H.
  rewrite H2 in H. exact H.
Qed.

(** ** Where the tools write *)

Section Ensures.
Variable T : Type.
Variable R : Eff.state T -> Eff.state T -> Prop.
Hypothesis rel_refl : forall s, R s s.
Hypothesis rel_trans : forall s1 s2 s3, R s1 s2 -> R s2 s3 -> R s1 s3.

Lemma ensures_stable A (P : A -> Prop) (m : Eff.M T A) :
  ensures R P m -> stable R m.
Proof. intros H s. apply H. Qed.

Lemma ensures_ret A (P : A -> Prop) (a : A) : P a -> ensures R P (Eff.ret a).
Proof.
  intros H s. split; [apply rel_refl|]. cbn. intros b [= <-]. exact H.
Qed.

Lemma ensures_bind A B (P : A -> Prop) (Q : B -> Prop) (m : Eff.M T A)
    (k : A -> Eff.M T B) :
  ensures R P m -> (forall a, P a -> ensures R Q (k a)) ->
  ensures R Q (Eff.bind m k).
Proof.
  intros Hm Hk s. unfold Eff.bind. destruct (Hm s) as [H1 H2].
  destruct (m s) as [[a|msg] s1]; cbn [fst snd] in *.
  - destruct (Hk a (H2 a eq_refl) s1) as [H3 H4].
    split; [eapply rel_trans; eassumption | exact H4].
  - split; [exact H1 | discriminate].
Qed.

Lemma ensures_then A B (Q : B -> Prop) (m : Eff.M T A)
    (k : A -> Eff.M T B) :
  stable R m -> (forall a, ensures R Q (k a)) -> ensures R Q (Eff.bind m k).
Proof.
  intros Hm Hk. apply ensures_bind with (P := fun _ => True).
  - intros s. split; [apply Hm | trivial].
  - intros a _. apply Hk.
Qed.

Lemma ensures_collect A B (P : B -> Prop) (xs : list A)
    (body : A -> Eff.M T B) :
  (forall x, ensures R P (body x)) ->
  ensures R (fun bs => forall b, In b bs -> P b) (Eff.collect xs body).
Proof.
  intros Hb. induction xs as [|x xs IH]; simpl.
  - apply ensures_ret. intros b [].
  - eapply ensures_bind; [apply Hb | intros b Pb].
    eapply ensures_bind; [exact IH | intros bs Pbs].
    apply ensures_ret. intros b' [<-|H]; auto.
Qed.

Lemma stable_collect_In A B (xs : list A) (body : A -> Eff.M T B) :
  (forall x, In x xs -> stable R (body x)) -> stable R (Eff.collect xs body).
Proof.
  intros Hb. induction xs as [|x xs IH]; simpl.
  - now apply stable_ret.
  - apply stable_bind; [exact rel_trans | apply Hb; now left | intros b].
    apply stable_bind; [exact rel_trans | | intros bs; now apply stable_ret].
    apply IH. intros y Hy. apply Hb. now right.
Qed.
End Ensures.

(** Copying the entries of a folder over another one, and packing a
    folder into an archive, write at the target only. *)
Lemma overlay_frame src dest n n' q :
  match FS.lookup src n, FS.lookup dest n with
  | Some (FS.Dir ses), Some d =>
      match FS.merge (FS.Dir ses) d with
      | Some m => FS.put dest m n
      | None => None
      end
  | _, _ => None
  end = Some n' ->
  diverges dest q = true ->
  FS.lookup q n' = FS.lookup q n.
Proof.
  intros H Hq.
  destruct (FS.lookup src n) as [[| | |ses]|]; try discriminate.
  destruct (FS.lookup dest n) as [d|]; [|discriminate].
  destruct (FS.merge (FS.Dir ses) d) as [m|]; [|discriminate].
  eapply lookup_put_frame; eassumption.
Qed.

Lemma archive_frame (packagePath archivePath : FS.path) (name : string)
    n n' q :
  match FS.lookup packagePath n with
  | Some pkg =>
      FS.writeFile archivePath (FS.Archive (Some [(name, pkg)])) n
  | None => None
  end = Some n' ->
  diverges archivePath q = true ->
  FS.lookup q n' = FS.lookup q n.
Proof.
  intros H Hq. destruct (FS.lookup packagePath n) as [pkg|]; [|discriminate].
  eapply writeFile_frame; eassumption.
Qed.

Lemma diverges_join dir name q :
  diverges dir q = true -> diverges (FS.join dir name) q = true.
Proof. unfold FS.join. apply diverges_below. Qed.

(** A path that lies in a folder from which [q] diverges. *)
Ltac below :=
  repeat match goal with
         | H : inside _ _ |- _ => destruct H as (? & ->)
         end;
  rewrite ?dirname_join;
  repeat first [ assumption | apply diverges_join ].

(** A step that writes in such a folder. *)
Ltac below_side :=
  intros; unfold frame_rel; cbn [Eff.fs];
  first
    [ reflexivity
    | eapply lookup_mkdirp_frame;
        [eassumption | apply diverges_not_prefix; solve [below]]
    | eapply copy_frame; [eassumption | solve [below]]
    | eapply copyFile_frame; [eassumption | solve [below]]
    | eapply writeFile_frame; [eassumption | solve [below]]
    | eapply overlay_frame; [eassumption | solve [below]]
    | eapply archive_frame; [eassumption | solve [below]]
    | eapply extract_frame; [eassumption | solve [below]]
    | apply remove_frame; solve [below] ].

Ltac frame_below := stable_steps frame_pre below_side.

Lemma image_package_below e this chunkId chunk q :
  diverges (WorkSplitter.outputFolder this) q = true ->
  ensures (frame_rel q) (inside (WorkSplitter.outputFolder this))
    (WorkSplitter.createWorkPackage e this chunkId chunk).
Proof.
  intros Hq. unfold WorkSplitter.createWorkPackage, WorkSplitter.createManifest.
  repeat (apply ensures_then; [frame_pre | solve [frame_below] | intros]).
  apply ensures_ret; [frame_pre|]. eexists. reflexivity.
Qed.

Lemma image_split_below e this q :
  diverges (WorkSplitter.outputFolder this) q = true ->
  ensures (frame_rel q)
    (fun packages =>
       forall p, In p packages -> inside (WorkSplitter.outputFolder this) p)
    (WorkSplitter.split e this).
Proof.
  intros Hq. unfold WorkSplitter.split.
  repeat (apply ensures_then; [frame_pre | solve [frame_below] | intros]).
  apply ensures_collect; [frame_pre | frame_pre|]. intros [chunkId chunk].
  apply ensures_then; [frame_pre | solve [frame_below] | intros _].
  eapply ensures_bind;
    [frame_pre | apply image_package_below, Hq | intros p Hp].
  apply ensures_then; [frame_pre | solve [frame_below] | intros _].
  apply ensures_ret; [frame_pre | exact Hp].
Qed.

Lemma document_package_below e this chunkId chunk q :
  diverges (DocumentSplitter.outputFolder this) q = true ->
  ensures (frame_rel q) (inside (DocumentSplitter.outputFolder this))
    (DocumentSplitter.createWorkPackage e this chunkId chunk).
Proof.
  intros Hq.
  unfold DocumentSplitter.createWorkPackage, DocumentSplitter.createManifest,
    DocumentSplitter.createPackageReadme, DocumentSplitter.copyDirectory.
  repeat (apply ensures_then; [frame_pre | solve [frame_below] | intros]).
  apply ensures_ret; [frame_pre|]. eexists. reflexivity.
Qed.

Lemma document_split_below e this q :
  diverges (DocumentSplitter.outputFolder this) q = true ->
  ensures (frame_rel q)
    (fun packages =>
       forall p, In p packages -> inside (DocumentSplitter.outputFolder this) p)
    (DocumentSplitter.split e this).
Proof.
  intros Hq. unfold DocumentSplitter.split.
  repeat (apply ensures_then; [frame_pre | solve [frame_below] | intros]).
  apply ensures_collect; [frame_pre | frame_pre|]. intros [chunkId chunk].
  apply ensures_then; [frame_pre | solve [frame_below] | intros _].
  eapply ensures_bind;
    [frame_pre | apply document_package_below, Hq | intros p Hp].
  apply ensures_then; [frame_pre | solve [frame_below] | intros _].
  apply ensures_ret; [frame_pre | exact Hp].
Qed.

Lemma stable_ensures T (R : Eff.state T -> Eff.state T -> Prop) A
    (m : Eff.M T A) :
  stable R m -> ensures R (fun _ => True) m.
Proof. intros H s. split; [apply H | trivial]. Qed.

(** X11. Neither splitter changes anything outside its output folder:
    whatever the command line and the file system, and whether the
    run ends well or not, every path that is neither the output
    folder, nor above it, nor below it holds after the run what it
    held before.  The source folder is only read. *)
Theorem X11_splitters_write_below_the_output_folder (e : env) :
  (forall (o : WorkSplitter.options) (s : Eff.state unit),
     same_outside (image_split_output e o) (Eff.fs s)
       (Eff.fs (snd (WorkSplitter.script e o s)))) /\
  (forall (o : DocumentSplitter.options) (s : Eff.state unit),
     same_outside (document_split_output e o) (Eff.fs s)
       (Eff.fs (snd (DocumentSplitter.action e o s)))).
Proof.
  split; intros o s q Hq.
  - unfold WorkSplitter.script. fold (image_split_output e o).
    destruct (WorkSplitter.opt_numSplits o <? 1)%Z; [reflexivity|].
    destruct (WorkSplitter.opt_numSplits o >? 100)%Z; [reflexivity|].
    destruct (negb (FS.pathExists (WorkSplitter.source o) (Eff.fs s)));
      [reflexivity|].
    match goal with
    | |- context [match ?m s with _ => _ end] =>
        assert (H : stable (frame_rel q) m);
        [|specialize (H s); destruct (m s) as [[u|msg] s']; exact H]
    end.
    apply stable_bind; [frame_pre | frame_below | intros _].
    apply stable_bind; [frame_pre | frame_below | intros root].
    apply stable_bind; [frame_pre | | intros packages].
    + eapply ensures_stable, image_split_below. exact Hq.
    + unfold WorkSplitter.summary. frame_below.
  - unfold DocumentSplitter.action. fold (document_split_output e o).
    match goal with
    | |- context [match ?m s with _ => _ end] =>
        assert (H : stable (frame_rel q) m);
        [|specialize (H s); destruct (m s) as [[u|msg] s']; exact H]
    end.
    apply stable_bind; [frame_pre | frame_below | intros _].
    apply stable_bind; [frame_pre | frame_below | intros _].
    apply stable_bind; [frame_pre | frame_below | intros _].
    eapply ensures_stable, ensures_bind;
      [frame_pre | apply document_split_below; exact Hq | intros packages Hp].
    apply stable_ensures.
    apply stable_bind; [frame_pre | | intros compressedFiles].
    + destruct (DocumentSplitter.compress o); [|frame_below].
      unfold DocumentSplitter.compressPackages.
      apply stable_bind; [frame_pre | frame_below | intros _].
      apply stable_bind; [frame_pre | | frame_below].
      apply stable_collect_In; [frame_pre | frame_pre|].
      intros p Hin. specialize (Hp p Hin).
      unfold DocumentSplitter.compressPackage. frame_below.
    + unfold DocumentSplitter.summary. frame_below.
Qed.

(** A split of the images of [Demo.tree] into two packages leaves the
    source folder as it is. *)
Lemma X11_splitters_write_below_the_output_folder_witness :
  let o := WorkSplitter.mkOptions ["data"] 2 None in
  let s := Eff.mkState Demo.tree [] tt in
  fst (WorkSplitter.script Demo.e o s) = 0%Z /\
  FS.lookup ["work"; "split"] Demo.tree = None /\
  FS.lookup ["work"; "split"] (Eff.fs (snd (WorkSplitter.script Demo.e o s)))
  <> None /\
  FS.lookup ["data"] (Eff.fs (snd (WorkSplitter.script Demo.e o s)))
  = FS.lookup ["data"] Demo.tree.
Proof.
  intros o s. split; [vm_compute; reflexivity|].
  split; [reflexivity|]. split; [vm_compute; discriminate|].
  apply (proj1 (X11_splitters_write_below_the_output_folder Demo.e) o s).
  reflexivity.
Defined.

(** ** Where the image joiner writes *)

Lemma scratch_refl q s : scratch_rel q s s.
Proof. intros H. split; [reflexivity | exact H]. Qed.

Lemma scratch_trans q s1 s2 s3 :
  scratch_rel q s1 s2 -> scratch_rel q s2 s3 -> scratch_rel q s1 s3.
Proof.
  intros H12 H23 H1. destruct (H12 H1) as [E12 H2].
  destruct (H23 H2) as [E23 H3]. split; [congruence | exact H3].
Qed.

(** Reading [this]: what is read satisfies the invariant. *)
Lemma stable_bind_self q A (k : WorkJoiner.t -> Eff.M WorkJoiner.t A) :
  (forall this, joiner_inv q this -> stable (scratch_rel q) (k this)) ->
  stable (scratch_rel q) (Eff.bind Eff.self k).
Proof.
  intros H s Hinv. unfold Eff.bind, Eff.self. exact (H _ Hinv s Hinv).
Qed.

(** Making the scratch directory: it lies in the folder of temporary
    files. *)
Lemma stable_bind_mkdtemp q tmp prefix msg A
    (k : FS.path -> Eff.M WorkJoiner.t A) :
  diverges tmp q = true ->
  (forall d, diverges d q = true -> stable (scratch_rel q) (k d)) ->
  stable (scratch_rel q) (Eff.bind (Eff.io_val msg (FS.mkdtemp tmp prefix)) k).
Proof.
  intros Hq H s Hinv. unfold Eff.bind, Eff.io_val.
  destruct (FS.mkdtemp tmp prefix (Eff.fs s)) as [[d n1]|] eqn:E;
    cbn [fst snd]; [|split; [reflexivity | exact Hinv]].
  assert (Hd : diverges d q = true).
  { unfold FS.mkdtemp in E.
    destruct (FS.lookup tmp (Eff.fs s)) as [[| | |es]|]; try discriminate.
    destruct (FS.put _ _ _); [|discriminate]. injection E as <- _.
    now apply diverges_join. }
  destruct (H d Hd (Eff.mkState n1 (Eff.console s) (Eff.this s)) Hinv)
    as [E1 Hinv'].
  split; [|exact Hinv']. rewrite E1. cbn [Eff.fs].
  apply mkdtemp_fresh in E. destruct E as (_ & _ & _ & Hout).
  now apply Hout.
Qed.

Ltac scratch_pre :=
  first [ exact (@scratch_refl _) | exact (@scratch_trans _) ].

Ltac scratch_side :=
  intros; unfold scratch_rel; cbn [Eff.fs Eff.this];
  let Hinv := fresh "Hinv" in
  intros Hinv;
  split;
  [ first
      [ reflexivity
      | eapply lookup_mkdirp_frame;
          [eassumption | apply diverges_not_prefix; solve [below]]
      | eapply copy_frame; [eassumption | solve [below]]
      | eapply writeFile_frame; [eassumption | solve [below]]
      | eapply extract_frame; [eassumption | solve [below]]
      | apply remove_frame;
          match goal with
          | H : forall d, Some _ = Some d -> _ |- _ => apply H; reflexivity
          end ]
  | first
      [ exact Hinv
      | destruct Hinv as [? ?]; split;
          [ assumption
          | cbn [WorkJoiner.set_tempDir WorkJoiner.set_packagePaths
                 WorkJoiner.tempDir];
            first [ assumption
                  | let E := fresh in intros ? E; injection E as <-;
                    assumption ] ] ] ].

Ltac scratch_steps q :=
  repeat first
    [ progress intros
    | apply stable_bind_self; intros ? [? ?]
    | apply stable_bind_mkdtemp; [assumption | intros ? ?]
    | apply stable_scope with (RU := frame_rel q);
        [ solve [frame_below]
        | intros ? ? ? ?; split; assumption ]
    | apply stable_bind; try solve [scratch_pre]
    | apply stable_try_catch; try solve [scratch_pre]
    | apply stable_try_finally; try solve [scratch_pre]
    | apply stable_for_of; try solve [scratch_pre]
    | apply stable_fold_of; try solve [scratch_pre]
    | apply stable_when; try solve [scratch_pre]
    | apply stable_ret; solve [scratch_pre]
    | apply stable_throw; solve [scratch_pre]
    | apply stable_read; solve [scratch_pre]
    | apply stable_lift; solve [scratch_pre]
    | apply stable_log; solve [scratch_side]
    | apply stable_assign; solve [scratch_side]
    | apply stable_io; try solve [scratch_pre]; solve [scratch_side]
    | apply stable_io_; solve [scratch_side]
    | apply stable_emit; solve [scratch_side]
    | match goal with
      | |- stable _ (match ?x with _ => _ end) => destruct x
      | |- stable _ (let '(_, _) := ?x in _) => destruct x
      end ].

(** A join writes in its output folder and in its scratch directory
    only. *)
Lemma join_scratch e q :
  diverges (tmpdir e) q = true -> stable (scratch_rel q) (WorkJoiner.join e).
Proof.
  intros Hq.
  unfold WorkJoiner.join, WorkJoiner.detectAndExtractArchives,
    WorkJoiner.cleanupTempFiles, WorkJoiner.mergeMetadata,
    WorkJoiner.createConsolidatedPackage, WorkJoiner.createSummaryReport.
  scratch_steps q.
Qed.

(** X12. The image joiner changes nothing outside its output folder
    and the folder of temporary files: every path that diverges from
    both holds after the run what it held before, whatever the
    packages and archives given and however the run ends.  The
    packages that came back are only read. *)
Theorem X12_image_joiner_writes_in_the_output_and_scratch_folders
    (e : env) (o : WorkJoiner.options) (s : Eff.state unit) (q : FS.path) :
  diverges (image_join_output e o) q = true ->
  diverges (tmpdir e) q = true ->
  FS.lookup q (Eff.fs (snd (WorkJoiner.main e o s))) = FS.lookup q (Eff.fs s).
Proof.
  intros Hout Htmp. unfold WorkJoiner.main. fold (image_join_output e o).
  destruct (List.length (WorkJoiner.packages o) <? 1); [reflexivity|].
  match goal with
  | |- context [match ?m s with _ => _ end] =>
      assert (H : stable (frame_rel q) m);
      [|specialize (H s); destruct (m s) as [[u|msg] s']; exact H]
  end.
  apply stable_bind; [frame_pre | unfold WorkJoiner.checkOutput; frame_below|].
  intros _. apply stable_bind; [frame_pre | frame_below | intros _].
  apply stable_bind; [frame_pre | frame_below | intros root].
  apply stable_bind; [frame_pre | | intros resultPath].
  - apply stable_scope with (RU := scratch_rel q);
      [apply join_scratch, Htmp|].
    intros s0 s1 H. apply H. split; [exact Hout | discriminate].
  - unfold WorkJoiner.summary. frame_below.
Qed.

(** The join of the packages of [Demo.returned], one of them in an
    archive: the run ends well and the packages are as they were. *)
Lemma X12_image_joiner_writes_in_the_output_and_scratch_folders_witness :
  let o := WorkJoiner.mkOptions [["in"]; ["arch"]] None false in
  let s := Eff.mkState Demo.returned [] tt in
  fst (WorkJoiner.main Demo.e o s) = 0%Z /\
  FS.lookup ["work"; "join"; "consolidated"; "images"; "z.png"]
    (Eff.fs (snd (WorkJoiner.main Demo.e o s)))
  = Some (FS.File "Z3") /\
  FS.lookup ["in"] (Eff.fs (snd (WorkJoiner.main Demo.e o s)))
  = FS.lookup ["in"] Demo.returned /\
  FS.lookup ["arch"] (Eff.fs (snd (WorkJoiner.main Demo.e o s)))
  = FS.lookup ["arch"] Demo.returned.
Proof.
  intros o s. split; [vm_compute; reflexivity|].
  split; [vm_compute; reflexivity|].
  split;
    apply (X12_image_joiner_writes_in_the_output_and_scratch_folders
             Demo.e o s); reflexivity.
Defined.

(** ** Where the document joiner writes *)

(** X13. The document joiner changes nothing outside its input folder
    and its output folder: every path that diverges from both holds
    after the run what it held before.  The input folder itself is
    written to, since the archives are unpacked into it. *)
Theorem X13_document_joiner_writes_in_the_input_and_output_folders
    (e : env) (o : DocumentJoiner.options) (s : Eff.state unit)
    (q : FS.path) :
  diverges (DocumentJoiner.input o) q = true ->
  diverges (document_join_output e o) q = true ->
  FS.lookup q (Eff.fs (snd (DocumentJoiner.action e o s)))
  = FS.lookup q (Eff.fs s).
Proof.
  intros Hin Hout. unfold DocumentJoiner.action.
  fold (document_join_output e o).
  match goal with
  | |- context [match ?m s with _ => _ end] =>
      assert (H : stable (frame_rel q) m);
      [|specialize (H s); destruct (m s) as [[u|msg] s']; exact H]
  end.
  unfold DocumentJoiner.join, DocumentJoiner.extractCompressedPackages,
    DocumentJoiner.loadAll.
  cbn [DocumentJoiner.inputFolder DocumentJoiner.outputFolder].
  frame_below.
Qed.

(** A package that came back as a zip archive: it is unpacked into
    the input folder, and the application folder is as it was. *)
Lemma X13_document_joiner_writes_in_the_input_and_output_folders_witness :
  let o := DocumentJoiner.mkOptions ["in"] (Some ["work"; "joined"]) false in
  let s := Eff.mkState Demo.returned_documents [] tt in
  fst (DocumentJoiner.action Demo.e o s) = 0%Z /\
  FS.lookup ["in"; "docu-package-001"] Demo.returned_documents = None /\
  FS.lookup ["in"; "docu-package-001"]
    (Eff.fs (snd (DocumentJoiner.action Demo.e o s))) <> None /\
  FS.lookup ["app"] (Eff.fs (snd (DocumentJoiner.action Demo.e o s)))
  = FS.lookup ["app"] Demo.returned_documents.
Proof.
  intros o s. split; [vm_compute; reflexivity|].
  split; [reflexivity|]. split; [vm_compute; discriminate|].
  apply (X13_document_joiner_writes_in_the_input_and_output_folders
           Demo.e o s); reflexivity.
Defined.

(** ** Loading the metadata of the document packages *)

(** What passes the validation: an object or an array with a truthy
    [metadata]. *)
Lemma loadMetadataFile_Ok metadataFile n metadataDict :
  DocumentJoiner.loadMetadataFile metadataFile n = JS.Ok metadataDict ->
  FS.lookup metadataFile n = Some (FS.JsonFile (Some metadataDict)) /\
  metadataDict <> JS.VNull /\
  exists m, JS.prop metadataDict "metadata" = JS.Ok m /\ JS.truthy m = true.
Proof.
  unfold DocumentJoiner.loadMetadataFile.
  destruct (FS.lookup metadataFile n) as [[| [data|] | |]|]; try discriminate.
  destruct data; try discriminate;
    (destruct (JS.prop _ "metadata") as [m|] eqn:E; [|discriminate]);
    (destruct (JS.truthy m) eqn:Ht; cbn [negb]; [|discriminate]);
    intros [= <-]; (split; [reflexivity|]); (split; [discriminate|]);
    exists m; split; assumption.
Qed.

(** The metadata files of one package. *)
Lemma load_files (files : list FS.path) :
  forall (allMetadata : list JS.value) (s : Eff.state unit),
    exists c,
      Eff.fold_of files allMetadata (fun allMetadata metadataFile =>
        Eff.try_catch
          (Eff.log (String.append "   Loading "
                      (String.append (FS.basename metadataFile) "...")) ;;;
           metadataDict <-
             Eff.lift (DocumentJoiner.loadMetadataFile metadataFile) ;;
           docCount <-
             Eff.lift (fun _ =>
                         JS.bind (JS.prop metadataDict "metadata") (fun m =>
                         JS.Ok (List.length
                                  (JS.keys
                                     (DocumentJoiner.entries_or_empty m))))) ;;
           Eff.log (String.append "   Loaded "
                      (String.append (JS.toString docCount) " documents")) ;;;
           Eff.ret (allMetadata ++ [metadataDict]))
          (fun message =>
             Eff.log (String.append "   Error loading "
                        (String.append (FS.basename metadataFile)
                           (String.append ": " message))) ;;;
             Eff.ret allMetadata)) s
      = (JS.Ok (allMetadata
                ++ flat_map
                     (fun metadataFile =>
                        match DocumentJoiner.loadMetadataFile metadataFile
                                (Eff.fs s) with
                        | JS.Ok metadataDict => [metadataDict]
                        | JS.Throw _ => []
                        end) files),
         Eff.mkState (Eff.fs s) c tt).
Proof.
  induction files as [|file files IH]; intros allMetadata s;
    cbn [Eff.fold_of flat_map].
  - exists (Eff.console s). rewrite app_nil_r. destruct s as [n c []].
    reflexivity.
  - unfold Eff.bind at 1. unfold Eff.try_catch at 1.
    rewrite bind_log, bind_lift. cbn [Eff.fs].
    destruct (DocumentJoiner.loadMetadataFile file (Eff.fs s))
      as [metadataDict|message] eqn:E.
    + destruct (loadMetadataFile_Ok _ _ E) as (_ & _ & m & Hm & _).
      rewrite bind_lift, Hm. cbn [JS.bind]. rewrite bind_log.
      unfold Eff.ret at 1.
      match goal with
      | |- context [Eff.fold_of files ?a _ ?s1] =>
          destruct (IH a s1) as (c & ->)
      end.
      cbn [Eff.fs]. exists c. now rewrite <- app_assoc.
    + rewrite bind_log. unfold Eff.ret at 1.
      match goal with
      | |- context [Eff.fold_of files ?a _ ?s1] =>
          destruct (IH a s1) as (c & ->)
      end.
      cbn [Eff.fs app]. exists c. reflexivity.
Qed.

(** X14. Loading the metadata of the document packages never fails
    and changes no file: a metadata file that is unreadable, is not
    JSON, is no object, or has no truthy [metadata] is passed over with
    a message, and what is loaded are the documents of the other
    files, in order.  Each of them has a truthy [metadata] and is not
    null. *)
Theorem X14_invalid_metadata_files_are_passed_over
    (packageDirs : list FS.path) (s : Eff.state unit) :
  fst (DocumentJoiner.loadAll packageDirs s)
  = JS.Ok (valid_documents (Eff.fs s) packageDirs) /\
  Eff.fs (snd (DocumentJoiner.loadAll packageDirs s)) = Eff.fs s /\
  forall metadataDict,
    In metadataDict (valid_documents (Eff.fs s) packageDirs) ->
    metadataDict <> JS.VNull /\
    exists m, JS.prop metadataDict "metadata" = JS.Ok m /\
              JS.truthy m = true.
Proof.
  assert (G : forall allMetadata (s : Eff.state unit),
            exists c,
              Eff.fold_of packageDirs allMetadata
                (fun allMetadata packageDir =>
                   Eff.log (String.append "Processing package: "
                              (FS.basename packageDir)) ;;;
                   metadataFiles <-
                     Eff.read (DocumentJoiner.findMetadataFiles packageDir) ;;
                   if List.length metadataFiles =? 0 then
                     Eff.log "   No metadata files found, skipping" ;;;
                     Eff.ret allMetadata
                   else
                     Eff.log (String.append "   Found "
                                (String.append
                                   (JS.toString (List.length metadataFiles))
                                   " metadata files")) ;;;
                     Eff.fold_of metadataFiles allMetadata
                       (fun allMetadata metadataFile =>
                          Eff.try_catch
                            (Eff.log (String.append "   Loading "
                                        (String.append
                                           (FS.basename metadataFile) "...")) ;;;
                             metadataDict <-
                               Eff.lift
                                 (DocumentJoiner.loadMetadataFile metadataFile) ;;
                             docCount <-
                               Eff.lift (fun _ =>
                                 JS.bind (JS.prop metadataDict "metadata")
                                   (fun m =>
                                      JS.Ok (List.length
                                               (JS.keys
                                                  (DocumentJoiner.entries_or_empty
                                                     m))))) ;;
                             Eff.log (String.append "   Loaded "
                                        (String.append (JS.toString docCount)
                                           " documents")) ;;;
                             Eff.ret (allMetadata ++ [metadataDict]))
                            (fun message =>
                               Eff.log (String.append "   Error loading "
                                          (String.append
                                             (FS.basename metadataFile)
                                             (String.append ": " message))) ;;;
                               Eff.ret allMetadata))) s
              = (JS.Ok (allMetadata ++ valid_documents (Eff.fs s) packageDirs),
                 Eff.mkState (Eff.fs s) c tt)).
  { clear s. induction packageDirs as [|dir dirs IH]; intros allMetadata s;
      cbn [Eff.fold_of valid_documents flat_map].
    - exists (Eff.console s). rewrite app_nil_r. destruct s as [n c []].
      reflexivity.
    - unfold Eff.bind at 1. rewrite bind_log, bind_read. cbn [Eff.fs].
      destruct (DocumentJoiner.findMetadataFiles dir (Eff.fs s))
        as [|file files] eqn:E; cbn [List.length Nat.eqb].
      + rewrite bind_log. unfold Eff.ret at 1.
        match goal with
        | |- context [Eff.fold_of dirs ?a _ ?s1] =>
            destruct (IH a s1) as (c & ->)
        end.
        cbn [Eff.fs app flat_map]. exists c. reflexivity.
      + rewrite bind_log.
        match goal with
        | |- context [Eff.fold_of (file :: files) ?a _ ?s1] =>
            destruct (load_files (file :: files) a s1) as (c1 & ->)
        end.
        match goal with
        | |- context [Eff.fold_of dirs ?a _ ?s1] =>
            destruct (IH a s1) as (c & ->)
        end.
        cbn [Eff.fs]. exists c. unfold valid_documents.
        now rewrite <- app_assoc. }
  destruct (G [] s) as (c & H). unfold DocumentJoiner.loadAll.
  rewrite H. cbn [fst snd Eff.fs app]. split; [reflexivity|].
  split; [reflexivity|].
  intros metadataDict Hin. unfold valid_documents in Hin.
  apply in_flat_map in Hin. destruct Hin as (dir & _ & Hin).
  apply in_flat_map in Hin. destruct Hin as (file & _ & Hin).
  destruct (DocumentJoiner.loadMetadataFile file (Eff.fs s)) as [d|] eqn:E;
    [|destruct Hin].
  destruct Hin as [<-|[]]. apply loadMetadataFile_Ok in E. tauto.
Qed.

(** ** Cleaning the input folder of the document joiner *)

(** The loop of the cleanup: what an entry [x] of the input folder
    holds afterwards. *)
Lemma cleanup_loop (input : FS.path) (x : string)
    (items : list (string * FS.node)) :
  forall s : Eff.state unit,
    let run :=
      Eff.for_of items (fun '(item, stats) =>
        let itemPath := FS.join input item in
        Eff.when (FS.isDirectory stats && JS.startsWith item "docu-package-")
          (Eff.io_ (FS.remove itemPath) ;;;
           Eff.log (String.append "   Removed " item))) s in
    fst run = JS.Ok tt /\
    FS.lookup (FS.join input x) (Eff.fs (snd run))
    = if existsb (fun '(item, stats) =>
                    (item =? x)%string
                    && (FS.isDirectory stats
                        && JS.startsWith item "docu-package-")) items
      then None
      else FS.lookup (FS.join input x) (Eff.fs s).
Proof.
  induction items as [|[item stats] items IH]; intros s;
    cbn [Eff.for_of existsb].
  - split; reflexivity.
  - cbv zeta in IH |- *.
    destruct (FS.isDirectory stats && JS.startsWith item "docu-package-")
      eqn:E; unfold Eff.when in IH |- *.
    + rewrite bind_bind, bind_io_, bind_log.
      cbn [Eff.fs Eff.console Eff.this].
      match goal with
      | |- context [Eff.for_of items _ ?s1] => destruct (IH s1) as [-> ->]
      end.
      split; [reflexivity|]. cbn [Eff.fs]. rewrite andb_true_r.
      destruct (item =? x)%string eqn:Ex; cbn [orb].
      * apply String.eqb_eq in Ex. subst x.
        rewrite lookup_remove
          by (unfold FS.join; intros H; now apply app_cons_not_nil in H
              || (symmetry in H; now apply app_cons_not_nil in H)).
        now destruct (existsb _ items).
      * apply String.eqb_neq in Ex.
        rewrite remove_frame by now apply diverges_join_neq.
        reflexivity.
    + rewrite bind_ret. destruct (IH s) as [-> ->].
      split; [reflexivity|]. now rewrite andb_false_r.
Qed.

(** X15. With the option to clean up, a run of the document joiner
    that ends well leaves no directory named [docu-package-*] in the
    input folder: not only those unpacked by the run are removed, but
    every directory of that name, with what it holds. *)
Theorem X15_clean_extracted_removes_every_package_folder
    (e : env) (o : DocumentJoiner.options) (s : Eff.state unit)
    (item : string) (es : list (string * FS.node)) :
  DocumentJoiner.cleanExtracted o = true ->
  fst (DocumentJoiner.action e o s) = 0%Z ->
  JS.startsWith item "docu-package-" = true ->
  FS.lookup (FS.join (DocumentJoiner.input o) item)
    (Eff.fs (snd (DocumentJoiner.action e o s)))
  <> Some (FS.Dir es).
Proof.
  intros Hclean Hexit Hname.
  destruct (DocumentJoiner.action e o s) as [code s'] eqn:Hact.
  cbn [fst snd] in *. subst code. unfold DocumentJoiner.action in Hact.
  rewrite Hclean, bind_log in Hact. unfold Eff.bind at 1 in Hact.
  match type of Hact with
  | context [DocumentJoiner.join e ?j ?s0] =>
      destruct (DocumentJoiner.join e j s0) as [[mergedData|msg] s1]
  end; [|discriminate].
  rewrite !bind_log in Hact. unfold Eff.when at 1 in Hact.
  rewrite bind_log, bind_lift in Hact. cbn [Eff.fs] in Hact.
  destruct (FS.lookup (DocumentJoiner.input o) (Eff.fs s1))
    as [[| | |items]|] eqn:Hin; try discriminate.
  match type of Hact with
  | context [Eff.for_of items ?body ?s2] =>
      destruct (cleanup_loop (DocumentJoiner.input o) item items s2)
        as [Hr Hl];
      destruct (Eff.for_of items body s2) as [[[]|msg] s3];
      cbn [fst snd] in Hr, Hl; [|discriminate Hr]
  end.
  injection Hact as <-. rewrite Hl. cbn [Eff.fs].
  destruct (existsb _ items) eqn:Ex; [discriminate|].
  rewrite lookup_join, Hin. intros Hget. apply get_In in Hget.
  assert (Hex : existsb
                  (fun '(item0, stats) =>
                     (item0 =? item)%string
                     && (FS.isDirectory stats
                         && JS.startsWith item0 "docu-package-")) items
                = true).
  { apply existsb_exists. exists (item, FS.Dir es). split; [exact Hget|].
    now rewrite String.eqb_refl, Hname. }
  congruence.
Qed.

(** A folder of the user's own in the input folder goes with the one
    that was unpacked. *)
Lemma X15_clean_extracted_removes_every_package_folder_witness :
  let n :=
    FS.Dir [("in",
             FS.Dir [("docu-package-001.zip",
                      FS.Archive
                        (Some [("docu-package-001",
                                FS.Dir [("ai-docu-metadata.json",
                                         FS.JsonFile (Some scenario_doc1))])]));
                     ("docu-package-notes",
                      FS.Dir [("mine.txt", FS.File "kept by hand")])]);
            ("work", FS.Dir [])] in
  let o := DocumentJoiner.mkOptions ["in"] (Some ["work"; "joined"]) true in
  let s := Eff.mkState n [] tt in
  FS.lookup ["in"; "docu-package-notes"; "mine.txt"] n
  = Some (FS.File "kept by hand") /\
  FS.lookup ["in"; "docu-package-notes"]
    (Eff.fs (snd (DocumentJoiner.action Demo.e o s)))
  <> Some (FS.Dir [("mine.txt", FS.File "kept by hand")]).
Proof.
  intros n o s. split; [reflexivity|].
  apply (X15_clean_extracted_removes_every_package_folder Demo.e o s
           "docu-package-notes"); [reflexivity | vm_compute | ]; reflexivity.
Defined.

(** ** The manifests of a split *)

Section Manifests.
Variable out : FS.path.
Variable packageName : nat -> string.
Variable manifest : nat -> list FS.path -> JS.value.
Variable create : nat -> list FS.path -> Eff.M unit FS.path.
Variable before : nat -> string.
Variable after : FS.path -> list FS.path -> string.

Hypothesis name_inj : forall a b, packageName a = packageName b -> a = b.
Hypothesis create_Ok :
  forall chunkId chunk s p s',
    create chunkId chunk s = (JS.Ok p, s') ->
    p = FS.join out (packageName chunkId) /\
    FS.lookup
      (FS.join (FS.join out (packageName chunkId)) "package-manifest.json")
      (Eff.fs s')
    = Some (FS.JsonFile (Some (manifest chunkId chunk))).
Hypothesis create_frame :
  forall chunkId chunk q,
    diverges (FS.join out (packageName chunkId)) q = true ->
    stable (frame_rel q) (create chunkId chunk).

Lemma manifests_loop (chunks : list (list FS.path)) :
  forall a s packages s',
    Eff.collect (combine (seq a (List.length chunks)) chunks)
      (fun '(chunkId, chunk) =>
         Eff.log (before chunkId) ;;;
         packagePath <- create chunkId chunk ;;
         Eff.log (after packagePath chunk) ;;;
         Eff.ret packagePath) s
    = (JS.Ok packages, s') ->
    packages = map (fun chunkId => FS.join out (packageName chunkId))
                 (seq a (List.length chunks)) /\
    forall k chunk,
      nth_error chunks k = Some chunk ->
      FS.lookup
        (FS.join (FS.join out (packageName (a + k))) "package-manifest.json")
        (Eff.fs s')
      = Some (FS.JsonFile (Some (manifest (a + k) chunk))).
Proof.
  induction chunks as [|c0 rest IH]; intros a s packages s' H;
    cbn [List.length seq combine Eff.collect map] in H |- *.
  - injection H as <- _. split; [reflexivity|].
    intros [|k] chunk; discriminate.
  - apply bind_Ok in H. destruct H as (p & s1 & Hbody & H).
    apply bind_Ok in H. destruct H as (ps & s2 & Hrest & H).
    injection H as <- <-.
    rewrite bind_log in Hbody. apply bind_Ok in Hbody.
    destruct Hbody as (p' & s0 & Hcreate & Hbody).
    rewrite bind_log in Hbody. injection Hbody as <- <-.
    apply create_Ok in Hcreate. destruct Hcreate as [-> Hm].
    destruct (IH _ _ _ _ Hrest) as [-> Hk].
    split; [reflexivity|].
    intros [|k] chunk Hnth; cbn [nth_error] in Hnth.
    + injection Hnth as <-. rewrite Nat.add_0_r.
      assert (F : stable
                    (frame_rel
                       (FS.join (FS.join out (packageName a))
                          "package-manifest.json"))
                    (Eff.collect
                       (combine (seq (S a) (List.length rest)) rest)
                       (fun '(chunkId, chunk) =>
                          Eff.log (before chunkId) ;;;
                          packagePath <- create chunkId chunk ;;
                          Eff.log (after packagePath chunk) ;;;
                          Eff.ret packagePath))).
      { apply stable_collect_In; [frame_pre | frame_pre|].
        intros [chunkId chunk] Hin. apply in_combine_l, in_seq in Hin.
        apply stable_bind; [frame_pre | frame_below | intros _].
        apply stable_bind; [frame_pre | | frame_below].
        apply create_frame.
        apply diverges_join_below. intros E. apply name_inj in E. lia. }
      specialize
        (F (Eff.mkState (Eff.fs s0)
              (Eff.console s0 ++ [after (FS.join out (packageName a)) c0])
              (Eff.this s0))).
      rewrite Hrest in F. unfold frame_rel in F. cbn [snd Eff.fs] in F.
      now rewrite F.
    + rewrite Nat.add_succ_r. exact (Hk k chunk Hnth).
Qed.
End Manifests.

Lemma image_package_within e this chunkId chunk q :
  diverges (FS.join (WorkSplitter.outputFolder this)
              (WorkSplitter.packageName chunkId)) q = true ->
  stable (frame_rel q) (WorkSplitter.createWorkPackage e this chunkId chunk).
Proof.
  intros Hq. unfold WorkSplitter.createWorkPackage, WorkSplitter.createManifest.
  frame_below.
Qed.

Lemma document_package_within e this chunkId chunk q :
  diverges (FS.join (DocumentSplitter.outputFolder this)
              (DocumentSplitter.packageName chunkId)) q = true ->
  ensures (frame_rel q)
    (fun p => p = FS.join (DocumentSplitter.outputFolder this)
                    (DocumentSplitter.packageName chunkId))
    (DocumentSplitter.createWorkPackage e this chunkId chunk).
Proof.
  intros Hq.
  unfold DocumentSplitter.createWorkPackage, DocumentSplitter.createManifest,
    DocumentSplitter.createPackageReadme, DocumentSplitter.copyDirectory.
  repeat (apply ensures_then; [frame_pre | solve [frame_below] | intros]).
  apply ensures_ret; [frame_pre|]. reflexivity.
Qed.

Lemma document_package_returns e this chunkId chunk s p s' :
  DocumentSplitter.createWorkPackage e this chunkId chunk s = (JS.Ok p, s') ->
  p = FS.join (DocumentSplitter.outputFolder this)
        (DocumentSplitter.packageName chunkId).
Proof.
  unfold DocumentSplitter.createWorkPackage. intros H.
  repeat (apply bind_Ok in H; destruct H as (? & ? & _ & H)).
  now injection H as <- _.
Qed.

Lemma document_packageName_inj a b :
  DocumentSplitter.packageName a = DocumentSplitter.packageName b -> a = b.
Proof.
  intros H. apply packageName_inj. unfold WorkSplitter.packageName.
  unfold DocumentSplitter.packageName in H.
  cbn [String.append] in H |- *.
  repeat match type of H with String _ _ = String _ _ => injection H as H end.
  now rewrite H.
Qed.

(** X16. After a split that returns, every package holds the manifest
    of its chunk: package [k] that of chunk [k], with its id and name
    and the count and names of the files of the chunk, and as total
    the number of packages asked for.  The packages returned are the
    folders [1], [2], ... of the output folder, one for each chunk. *)
Theorem X16_every_package_of_a_split_holds_its_manifest (e : env) :
  (forall (this : WorkSplitter.t) (s : Eff.state unit) packages,
     fst (WorkSplitter.split e this s) = JS.Ok packages ->
     exists chunks,
       WorkSplitter.splitImages this
         (WorkSplitter.getImageFiles e this (Eff.fs s)) = JS.Ok chunks /\
       manifests_written (WorkSplitter.outputFolder this)
         WorkSplitter.packageName (WorkSplitter.manifest e this)
         chunks packages (Eff.fs (snd (WorkSplitter.split e this s)))) /\
  (forall (this : DocumentSplitter.t) (s : Eff.state unit) packages,
     fst (DocumentSplitter.split e this s) = JS.Ok packages ->
     exists files chunks,
       DocumentSplitter.getDocumentFiles this (Eff.fs s) = JS.Ok files /\
       DocumentSplitter.splitDocuments this files = JS.Ok chunks /\
       manifests_written (DocumentSplitter.outputFolder this)
         DocumentSplitter.packageName (DocumentSplitter.manifest e this)
         chunks packages (Eff.fs (snd (DocumentSplitter.split e this s)))).
Proof.
  split; intros this s packages H.
  - destruct (WorkSplitter.split e this s) as [r s'] eqn:E.
    cbn [fst snd] in *. subst r. unfold WorkSplitter.split in E.
    rewrite bind_log, bind_read in E. cbn [Eff.fs] in E.
    apply bind_Ok in E. destruct E as (u & s1 & _ & E).
    rewrite bind_log, bind_lift in E.
    destruct (WorkSplitter.splitImages this
                (WorkSplitter.getImageFiles e this (Eff.fs s)))
      as [chunks|] eqn:Hc; [|discriminate].
    exists chunks. split; [reflexivity|].
    apply bind_Ok in E. destruct E as (u1 & s2 & _ & E).
    rewrite bind_log in E. apply bind_Ok in E.
    destruct E as (u2 & s3 & _ & E).
    unfold WorkSplitter.numbered in E.
    eapply (@manifests_loop (WorkSplitter.outputFolder this)
              WorkSplitter.packageName (WorkSplitter.manifest e this)
              (WorkSplitter.createWorkPackage e this)
              (fun chunkId =>
                 String.append "Creating package "
                   (String.append (JS.toString chunkId)
                      (String.append "/"
                         (JS.toString (List.length chunks)))))
              (fun packagePath chunk =>
                 String.append "   Package: "
                   (String.append (FS.basename packagePath)
                      (String.append " ("
                         (String.append (JS.toString (List.length chunk))
                            " images)")))));
      [exact packageName_inj | | apply image_package_within | exact E].
    intros chunkId chunk s0 p s0' Hrun.
    destruct (image_manifest_last e this chunkId chunk s0) as [Hpost Hp].
    rewrite Hrun in Hpost, Hp. cbn [fst snd manifest_post] in Hpost, Hp.
    split; [apply (Hp p eq_refl) | exact Hpost].
  - destruct (DocumentSplitter.split e this s) as [r s'] eqn:E.
    cbn [fst snd] in *. subst r. unfold DocumentSplitter.split in E.
    rewrite bind_log, bind_lift in E. cbn [Eff.fs] in E.
    destruct (DocumentSplitter.getDocumentFiles this (Eff.fs s))
      as [files|] eqn:Hf; [|discriminate].
    apply bind_Ok in E. destruct E as (u & s1 & _ & E).
    rewrite bind_log, bind_lift in E.
    destruct (DocumentSplitter.splitDocuments this files)
      as [chunks|] eqn:Hc; [|discriminate].
    exists files, chunks. split; [reflexivity|]. split; [exact Hc|].
    apply bind_Ok in E. destruct E as (u1 & s2 & _ & E).
    rewrite bind_log in E. apply bind_Ok in E.
    destruct E as (u2 & s3 & _ & E).
    unfold DocumentSplitter.numbered in E.
    eapply (@manifests_loop (DocumentSplitter.outputFolder this)
              DocumentSplitter.packageName (DocumentSplitter.manifest e this)
              (DocumentSplitter.createWorkPackage e this)
              (fun chunkId =>
                 String.append "Creating package "
                   (String.append (JS.toString chunkId)
                      (String.append "/"
                         (JS.toString (List.length chunks)))))
              (fun packagePath chunk =>
                 String.append "   Package: "
                   (String.append (FS.basename packagePath)
                      (String.append " ("
                         (String.append (JS.toString (List.length chunk))
                            " documents)")))));
      [exact document_packageName_inj | |
       intros; eapply ensures_stable, document_package_within; eassumption |
       exact E].
    intros chunkId chunk s0 p s0' Hrun.
    pose proof (document_manifest_then_readme e this chunkId chunk s0) as Hpost.
    cbv zeta in Hpost. rewrite Hrun in Hpost.
    cbn [fst snd manifest_post] in Hpost.
    split; [eapply document_package_returns, Hrun | exact Hpost].
Qed.

(** Five images asked to go into four packages go into three, and
    the manifest of the last one still says four. *)
Lemma X16_every_package_of_a_split_holds_its_manifest_witness :
  let this := WorkSplitter.new ["data"] ["work"; "split"] 4 ["app"] in
  let s := Eff.mkState Demo.tree [] tt in
  let after := Eff.fs (snd (WorkSplitter.split Demo.e this s)) in
  FS.lookup ["work"; "split"; "work-package-003"; "package-manifest.json"] after
  = Some (FS.JsonFile
            (Some (WorkSplitter.manifest Demo.e this 3 [["data"; "e.jpg"]]))) /\
  FS.lookup ["work"; "split"; "work-package-004"] after = None /\
  JS.prop (WorkSplitter.manifest Demo.e this 3 [["data"; "e.jpg"]])
    "package_info"
  = JS.Ok (Some (JS.VObj [("id", JS.VNum 3);
                          ("name", JS.VStr "work-package-003");
                          ("created", JS.VStr "2025-01-01T00:00:00.000Z");
                          ("total_packages", JS.VNum 4);
                          ("image_count", JS.VNum 1)])).
Proof.
  intros this s after.
  destruct (proj1 (X16_every_package_of_a_split_holds_its_manifest Demo.e)
              this s
              [["work"; "split"; "work-package-001"];
               ["work"; "split"; "work-package-002"];
               ["work"; "split"; "work-package-003"]])
    as (chunks & Hc & _ & Hm); [vm_compute; reflexivity|].
  vm_compute in Hc. injection Hc as <-.
  split; [exact (Hm 2 [["data"; "e.jpg"]] eq_refl)|].
  split; vm_compute; reflexivity.
Defined.

(** ** The package folders of the document joiner *)

(** A name that starts with [docu-package-] holds the word
    [package]. *)
Lemma startsWith_includes (item : string) :
  JS.startsWith item "docu-package-" = true ->
  JS.includes (JS.toLowerCase item) "package" = true.
Proof.
  unfold JS.startsWith. intros H.
  do 13 (destruct item as [|? item]; [discriminate H|];
         cbn [String.prefix] in H;
         match type of H with
         | (if ?d then _ else _) = true =>
             destruct d as [<-|]; [|discriminate H]
         end).
  reflexivity.
Qed.

(** X17. The package folders of the document joiner are the
    directories of the input folder whose name holds the word
    [package] in any case, or that hold a metadata file of a supported
    name, sorted by path; the test for the prefix [docu-package-] adds
    none.  Regular files are never taken, and the call raises only
    when the input folder is no directory. *)
Theorem X17_package_folders_are_the_directories_named_package
    (this : DocumentJoiner.t) (n : FS.node) :
  match DocumentJoiner.findPackageDirectories this n with
  | JS.Ok packageDirs =>
      Sorted path_le packageDirs /\
      forall p,
        In p packageDirs <->
        exists es item es',
          FS.lookup (DocumentJoiner.inputFolder this) n = Some (FS.Dir es) /\
          In (item, FS.Dir es') es /\
          (JS.includes (JS.toLowerCase item) "package" = true \/
           DocumentJoiner.hasMetadataFiles
             (FS.join (DocumentJoiner.inputFolder this) item) n = true) /\
          p = FS.join (DocumentJoiner.inputFolder this) item
  | JS.Throw message =>
      message = "Error reading input folder: readdir failed" /\
      forall es,
        FS.lookup (DocumentJoiner.inputFolder this) n <> Some (FS.Dir es)
  end.
Proof.
  unfold DocumentJoiner.findPackageDirectories.
  destruct (FS.lookup (DocumentJoiner.inputFolder this) n)
    as [[| | |es]|] eqn:E; try (split; [reflexivity | discriminate]).
  split; [apply sort_sorted|].
  intros p. rewrite sort_In, in_flat_map. split.
  - intros ([item stats] & Hin & Hp). cbv beta iota zeta in Hp.
    destruct stats as [| | |es']; try destruct Hp.
    cbn [FS.isDirectory] in Hp.
    destruct (JS.startsWith item "docu-package-") eqn:H1; cbn [orb] in Hp.
    + destruct Hp as [<-|[]]. exists es, item, es'.
      split; [reflexivity|]. split; [exact Hin|].
      split; [left; now apply startsWith_includes | reflexivity].
    + destruct (JS.includes (JS.toLowerCase item) "package") eqn:H2;
        cbn [orb] in Hp.
      * destruct Hp as [<-|[]]. exists es, item, es'.
        split; [reflexivity|]. split; [exact Hin|].
        split; [left; exact H2 | reflexivity].
      * destruct (DocumentJoiner.hasMetadataFiles _ n) eqn:H3;
          [|destruct Hp].
        destruct Hp as [<-|[]]. exists es, item, es'.
        split; [reflexivity|]. split; [exact Hin|].
        split; [right; exact H3 | reflexivity].
  - intros (es0 & item & es' & [= <-] & Hin & Hc & ->).
    exists (item, FS.Dir es'). split; [exact Hin|].
    cbv beta iota zeta. cbn [FS.isDirectory].
    destruct Hc as [-> | ->]; rewrite ?orb_true_r; now left.
Qed.

(** ** From the archive of a package back to the package *)

Lemma substring_tail (name ext : string) :
  String.substring (String.length name) (String.length ext)
    (String.append name ext) = ext.
Proof.
  induction name as [|c name IH]; cbn [String.length String.append].
  - induction ext as [|c ext IH]; [reflexivity|].
    cbn [String.length String.substring]. now rewrite IH.
  - exact IH.
Qed.

Lemma substring_head (name ext : string) :
  String.substring 0 (String.length name) (String.append name ext) = name.
Proof.
  induction name as [|c name IH]; cbn [String.length String.append].
  - now destruct ext.
  - cbn [String.substring]. now rewrite IH.
Qed.

Lemma endsWith_append (name ext : string) :
  JS.endsWith (String.append name ext) ext = true.
Proof.
  unfold JS.endsWith. rewrite length_append.
  replace (String.length name + String.length ext - String.length ext)
    with (String.length name) by lia.
  rewrite substring_tail, String.eqb_refl, andb_true_r.
  apply Nat.leb_le. lia.
Qed.

Lemma stem_append (name ext : string) :
  DocumentJoiner.stem (String.append name ext) ext = name.
Proof.
  unfold DocumentJoiner.stem. rewrite length_append.
  replace (String.length name + String.length ext - String.length ext)
    with (String.length name) by lia.
  apply substring_head.
Qed.

(** X18. The archive of a package goes back to the package.  In a
    folder that holds the package [name] and no [name.zip],
    [compressPackage] of the document splitter returns the path
    [name.zip] next to the package and writes there an archive of the
    package under its name.  A document joiner whose input folder
    holds just that archive unpacks it, finds the folder under the
    name of the archive without [.zip], and returns its path: the
    folder holds what the package held. *)
Theorem X18_the_archive_of_a_package_unpacks_to_the_package
    (dir : FS.path) (name : string) (pkg : FS.node)
    (es : list (string * FS.node)) (s : Eff.state unit) :
  FS.lookup dir (Eff.fs s) = Some (FS.Dir es) ->
  JS.get name es = Some pkg ->
  JS.get (String.append name ".zip") es = None ->
  let archive := FS.Archive (Some [(name, pkg)]) in
  let archiveName := String.append name ".zip" in
  (exists s1,
     DocumentSplitter.compressPackage (FS.join dir name) s
     = (JS.Ok (FS.join dir archiveName), s1) /\
     FS.lookup (FS.join dir archiveName) (Eff.fs s1) = Some archive /\
     FS.lookup (FS.join dir name) (Eff.fs s1) = Some pkg) /\
  (forall (this : DocumentJoiner.t) (s' : Eff.state unit),
     FS.lookup (DocumentJoiner.inputFolder this) (Eff.fs s')
     = Some (FS.Dir [(archiveName, archive)]) ->
     exists s2,
       DocumentJoiner.extractCompressedPackages this s'
       = (JS.Ok [FS.join (DocumentJoiner.inputFolder this) name], s2) /\
       FS.lookup (FS.join (DocumentJoiner.inputFolder this) name) (Eff.fs s2)
       = Some pkg).
Proof.
  intros Hdir Hpkg Hfresh archive archiveName.
  assert (Ha : String.append name ".zip" = archiveName) by reflexivity.
  assert (Hends : JS.endsWith archiveName ".zip" = true)
    by apply endsWith_append.
  assert (Hstem : DocumentJoiner.stem archiveName ".zip" = name)
    by apply stem_append.
  assert (Hne : (name =? archiveName)%string = false).
  { apply String.eqb_neq. intros E.
    apply (f_equal String.length) in E. unfold archiveName in E.
    rewrite length_append in E. cbn [String.length] in E. lia. }
  change (JS.get archiveName es = None) in Hfresh.
  clearbody archiveName. split.
  - unfold DocumentSplitter.compressPackage.
    rewrite basename_join, dirname_join, Ha.
    destruct (@writeFile_into dir archiveName archive (Eff.fs s) es Hdir Hfresh)
      as (n1 & Hw & Hl & Hout).
    rewrite bind_io. cbn beta. rewrite lookup_join, Hdir, Hpkg.
    fold archive. rewrite Hw, bind_log. unfold Eff.ret.
    eexists. split; [reflexivity|]. cbn [Eff.fs].
    rewrite !lookup_join, Hl, !get_app, Hfresh, Hpkg. cbn [JS.get].
    now rewrite String.eqb_refl.
  - intros this s' Hin. subst archive.
    assert (Hput : exists n2,
              FS.put (DocumentJoiner.inputFolder this)
                (FS.Dir [(archiveName, FS.Archive (Some [(name, pkg)]));
                         (name, pkg)])
                (Eff.fs s')
              = Some n2).
    { revert Hin. generalize (Eff.fs s').
      generalize (FS.Dir [(archiveName, FS.Archive (Some [(name, pkg)]));
                          (name, pkg)]) as x.
      generalize (FS.Dir [(archiveName, FS.Archive (Some [(name, pkg)]))]) as y.
      induction (DocumentJoiner.inputFolder this) as [|c p IH];
        intros y x n Hl; cbn [FS.put FS.lookup] in *; [now exists x|].
      destruct n as [| | |es0]; try discriminate.
      destruct (JS.get c es0) as [m|] eqn:E; [|discriminate].
      destruct (IH y x m Hl) as (m' & ->). now eexists. }
    destruct Hput as (n2 & Hput).
    pose proof (lookup_put_same _ _ _ Hput) as Hl.
    eexists.
    unfold DocumentJoiner.extractCompressedPackages, Eff.try_catch at 1.
    rewrite bind_lift. unfold FS.readdir. rewrite Hin.
    cbn [JS.keys map fst filter]. rewrite Hends.
    cbn [orb List.length Nat.ltb Nat.leb]. rewrite bind_log.
    cbn [Eff.fold_of]. rewrite bind_bind, bind_log.
    unfold Eff.bind at 1. unfold Eff.try_catch at 1.
    rewrite Hends, Hstem, bind_io. cbn [Eff.fs]. unfold FS.extract.
    rewrite lookup_join, Hin. cbn [JS.get]. rewrite String.eqb_refl.
    cbn [FS.merge option_map JS.get].
    rewrite Hne. cbn [option_map Datatypes.app]. rewrite Hput.
    rewrite bind_read. cbn [Eff.fs]. unfold FS.pathExists.
    rewrite lookup_join, Hl. cbn [JS.get]. rewrite Hne, String.eqb_refl.
    rewrite bind_log. unfold Eff.ret. cbn [Datatypes.app].
    split; [reflexivity|]. cbn [Eff.fs].
    rewrite lookup_join, Hl. cbn [JS.get]. now rewrite Hne, String.eqb_refl.
Qed.

(** The first package of [Demo.tree_readme_taken] is packed, and the
    archive, alone in a folder, is unpacked. *)
Lemma X18_the_archive_of_a_package_unpacks_to_the_package_witness :
  let pkg := FS.Dir [("README.md", FS.Dir [])] in
  let s := Eff.mkState Demo.tree_readme_taken [] tt in
  let this := DocumentJoiner.new ["in"] ["work"; "joined"] in
  let s' :=
    Eff.mkState
      (FS.Dir [("in",
                FS.Dir [("docu-package-001.zip",
                         FS.Archive (Some [("docu-package-001", pkg)]))])])
      [] tt in
  fst (DocumentSplitter.compressPackage ["work"; "out"; "docu-package-001"] s)
  = JS.Ok ["work"; "out"; "docu-package-001.zip"] /\
  exists s2,
    DocumentJoiner.extractCompressedPackages this s'
    = (JS.Ok [["in"; "docu-package-001"]], s2) /\
    FS.lookup ["in"; "docu-package-001"] (Eff.fs s2) = Some pkg.
Proof.
  intros pkg s this s'.
  destruct (@X18_the_archive_of_a_package_unpacks_to_the_package
              ["work"; "out"] "docu-package-001" pkg
              [("docu-package-001", pkg)] s eq_refl eq_refl eq_refl)
    as [(s1 & Hc & _) Hx].
  split; [exact (f_equal fst Hc) | exact (Hx this s' eq_refl)].
Defined.
